(** * log4go: the rotating file log writer (filelog.go)

    A shallow embedding of [FileLogWriter]: the file session behind a
    buffered writer, the rotation performed by [intRotate], the per-record
    routine [write], the shutdown sequence [Close], and the two goroutines
    started by [NewFileLogWriter] (the relay between the channels [inRec]
    and [rec], and the writer loop) as a transition system over scheduler
    events.

    The operating system is part of the state: a file system (path to
    contents), the diagnostic stream, a log of the file operations
    performed, a clock whose successive readings may differ, and a fault
    oracle that decides which file operations fail. *)

From Stdlib Require Import ZArith String Ascii List Lia Bool.
From stdpp Require Import base option list strings gmap pretty.

Open Scope Z_scope.

(* ===================================================================== *)
(** ** Go's [time] package, in the UTC location *)
(* ===================================================================== *)

(** A [time.Time] is the number of nanoseconds since the Unix epoch; a
    [time.Duration] is a number of nanoseconds. *)
Abbreviation Time := Z.
Abbreviation Duration := Z.

Definition Nanosecond : Duration := 1.
Definition Second : Duration := 1000000000 * Nanosecond.

Definition time_Add (t : Time) (d : Duration) : Time := t + d.

Definition unix_seconds (t : Time) : Z := t / Second.
Definition unix_days (t : Time) : Z := unix_seconds t / 86400.

(** Proleptic Gregorian date of a day number counted from 1970-01-01. *)
Definition civil (days : Z) : Z * Z * Z :=
  let z := days + 719468 in
  let era := z / 146097 in
  let doe := z - era * 146097 in
  let yoe := (doe - doe / 1460 + doe / 36524 - doe / 146096) / 365 in
  let doy := doe - (365 * yoe + yoe / 4 - yoe / 100) in
  let mp := (5 * doy + 2) / 153 in
  let d := doy - (153 * mp + 2) / 5 + 1 in
  let m := if mp <? 10 then mp + 3 else mp - 9 in
  let y := yoe + era * 400 + (if m <=? 2 then 1 else 0) in
  (y, m, d).

Definition Year (t : Time) : Z := fst (fst (civil (unix_days t))).
Definition Month (t : Time) : Z := snd (fst (civil (unix_days t))).
Definition Day (t : Time) : Z := snd (civil (unix_days t)).
Definition Hour (t : Time) : Z := (unix_seconds t mod 86400) / 3600.

(** [time.Date y m d h 0 0 0 UTC] for the dates used in the examples:
    days from the epoch to the civil date, then the hour. *)
Definition days_from_civil (y m d : Z) : Z :=
  let y' := if m <=? 2 then y - 1 else y in
  let era := y' / 400 in
  let yoe := y' - era * 400 in
  let mp := if m <=? 2 then m + 9 else m - 3 in
  let doy := (153 * mp + 2) / 5 + d - 1 in
  let doe := yoe * 365 + yoe / 4 - yoe / 100 + doy in
  era * 146097 + doe - 719468.

Definition time_Date (y m d h mi s : Z) : Time :=
  (days_from_civil y m d * 86400 + h * 3600 + mi * 60 + s) * Second.

(* ===================================================================== *)
(** ** Strings: [fmt.Sprintf] verbs and [strings.TrimPrefix] *)
(* ===================================================================== *)

Definition nl : string := String (ascii_of_nat 10) EmptyString.
Definition dquote : string := String (ascii_of_nat 34) EmptyString.

Fixpoint zeros (n : nat) : string :=
  match n with
  | O => EmptyString
  | S k => String "0" (zeros k)
  end.

Definition pad0 (width : nat) (s : string) : string :=
  zeros (width - String.length s) +:+ s.

(** The verb [%d]. *)
Definition Sprintf_d (z : Z) : string := pretty z.

(** The verbs [%02d] and [%03d]: the sign first, then zeros up to the width. *)
Definition Sprintf_0d (width : nat) (z : Z) : string :=
  if z <? 0 then "-" +:+ pad0 (width - 1) (pretty (- z)) else pad0 width (pretty z).

(** The verb [%q] on a name without characters to escape. *)
Definition Sprintf_q (s : string) : string := dquote +:+ s +:+ dquote.

Fixpoint str_take (n : nat) (s : string) : string :=
  match n, s with
  | S k, String c r => String c (str_take k r)
  | _, _ => EmptyString
  end.

Fixpoint str_drop (n : nat) (s : string) : string :=
  match n, s with
  | S k, String _ r => str_drop k r
  | _, _ => s
  end.

Definition TrimPrefix (s p : string) : string :=
  if String.prefix p s then str_drop (String.length p) s else s.

(** The name of the archive for sequence number [num]: line 257. *)
Definition archive_name (filename : string) (lastTime : Time) (num : Z) : string :=
  filename
  +:+ ("-" +:+ Sprintf_d (Year lastTime) +:+ "-" +:+ Sprintf_0d 2 (Month lastTime)
       +:+ "-" +:+ Sprintf_0d 2 (Day lastTime) +:+ "-" +:+ Sprintf_0d 2 (Hour lastTime) +:+ "+")
  +:+ Sprintf_0d 3 num.

(* ===================================================================== *)
(** ** The package around filelog.go *)
(* ===================================================================== *)

(** Modelled from the spec: the type [LogRecord] is declared outside
    filelog.go.  The spec names its creation timestamp and its source tag;
    the level and the message are the other two fields a record carries.
    Records travel by value. *)
Record LogRecord := mkRecord {
  Level : Z;
  Created : Time;
  Source : string;
  Message : string
}.

(** The composite literal [&LogRecord{Created: t}]. *)
Definition record_at (t : Time) : LogRecord :=
  {| Level := 0; Created := t; Source := EmptyString; Message := EmptyString |}.

(** The two package members filelog.go uses and does not declare: the
    formatter [FormatLogRecord] and the channel capacity [LogBufferLength]. *)
Class Package := {
  FormatLogRecord : string -> LogRecord -> string;
  LogBufferLength : nat
}.

(** [var FileFlushInterval time.Duration = 100] and
    [var MaxBufWriteSize = 4096]. *)
Definition FileFlushInterval : Duration := 100.
Definition MaxBufWriteSize : nat := 4096.

(** Go's [int] is 64 bits wide and wraps around. *)
Definition wrap_int (z : Z) : Z := (z + 2 ^ 63) mod 2 ^ 64 - 2 ^ 63.

(* ===================================================================== *)
(** ** The operating system *)
(* ===================================================================== *)

(** The file operations that change the file system or a handle, as they
    were issued. *)
Inductive Syscall :=
| SysRename (oldpath newpath : string) (ok : bool)
| SysOpen (path : string) (ok : bool)
| SysWrite (path : string) (data : string) (ok : bool)
| SysClose (path : string).

Record World := mkWorld {
  fs : gmap string string;        (* the files: path to contents *)
  stderr : list string;           (* what was printed to os.Stderr *)
  syslog : list Syscall;          (* the file operations so far *)
  clock : nat -> Time;            (* the k-th reading of time.Now() *)
  ticks : nat;                    (* readings taken so far *)
  fault : nat -> option string;   (* the error of the k-th fallible operation *)
  ops : nat                       (* fallible operations so far *)
}.

(** An [*os.File]: the path it was opened on and whether it was closed. *)
Record File := mkFile {
  f_path : string;
  f_closed : bool
}.

(** A [*bufio.Writer]: the bytes not yet flushed and its sticky error.
    The writer it wraps is the [file] field of the log writer: [newFile]
    sets both at once, so the two always point to the same handle. *)
Record Writer := mkWriter {
  wbuf : string;
  werr : option string
}.

(** [type FileLogWriter struct]: a channel is the list of the values it
    buffers; [rot] is unbuffered and holds nothing; [closeCh] is whether it
    was closed; [msgQ] is the list; [wg] is the counter of the wait group. *)
Record FileLogWriter := mkFileLogWriter {
  inRec : list LogRecord;
  rec : list LogRecord;
  filename : string;
  file : option File;
  bufW : option Writer;
  format : string;
  header : string;
  trailer : string;
  maxlines : Z;
  maxlines_curlines : Z;
  maxsize : Z;
  maxsize_cursize : Z;
  daily : bool;
  daily_opendate : Z;
  hour : bool;
  hour_opendate : Z;
  rotate : bool;
  closeCh : bool;
  msgQ : list LogRecord;
  wg : nat;
  prefix : string
}.

Definition set_inRec (v : list LogRecord) (w : FileLogWriter) : FileLogWriter :=
  mkFileLogWriter v (rec w) (filename w) (file w) (bufW w) (format w) (header w) (trailer w)
    (maxlines w) (maxlines_curlines w) (maxsize w) (maxsize_cursize w) (daily w) (daily_opendate w)
    (hour w) (hour_opendate w) (rotate w) (closeCh w) (msgQ w) (wg w) (prefix w).
Definition set_rec (v : list LogRecord) (w : FileLogWriter) : FileLogWriter :=
  mkFileLogWriter (inRec w) v (filename w) (file w) (bufW w) (format w) (header w) (trailer w)
    (maxlines w) (maxlines_curlines w) (maxsize w) (maxsize_cursize w) (daily w) (daily_opendate w)
    (hour w) (hour_opendate w) (rotate w) (closeCh w) (msgQ w) (wg w) (prefix w).
Definition set_file (v : option File) (w : FileLogWriter) : FileLogWriter :=
  mkFileLogWriter (inRec w) (rec w) (filename w) v (bufW w) (format w) (header w) (trailer w)
    (maxlines w) (maxlines_curlines w) (maxsize w) (maxsize_cursize w) (daily w) (daily_opendate w)
    (hour w) (hour_opendate w) (rotate w) (closeCh w) (msgQ w) (wg w) (prefix w).
Definition set_bufW (v : option Writer) (w : FileLogWriter) : FileLogWriter :=
  mkFileLogWriter (inRec w) (rec w) (filename w) (file w) v (format w) (header w) (trailer w)
    (maxlines w) (maxlines_curlines w) (maxsize w) (maxsize_cursize w) (daily w) (daily_opendate w)
    (hour w) (hour_opendate w) (rotate w) (closeCh w) (msgQ w) (wg w) (prefix w).
Definition set_format (v : string) (w : FileLogWriter) : FileLogWriter :=
  mkFileLogWriter (inRec w) (rec w) (filename w) (file w) (bufW w) v (header w) (trailer w)
    (maxlines w) (maxlines_curlines w) (maxsize w) (maxsize_cursize w) (daily w) (daily_opendate w)
    (hour w) (hour_opendate w) (rotate w) (closeCh w) (msgQ w) (wg w) (prefix w).
Definition set_headfoot (h t : string) (w : FileLogWriter) : FileLogWriter :=
  mkFileLogWriter (inRec w) (rec w) (filename w) (file w) (bufW w) (format w) h t
    (maxlines w) (maxlines_curlines w) (maxsize w) (maxsize_cursize w) (daily w) (daily_opendate w)
    (hour w) (hour_opendate w) (rotate w) (closeCh w) (msgQ w) (wg w) (prefix w).
Definition set_maxlines (v : Z) (w : FileLogWriter) : FileLogWriter :=
  mkFileLogWriter (inRec w) (rec w) (filename w) (file w) (bufW w) (format w) (header w) (trailer w)
    v (maxlines_curlines w) (maxsize w) (maxsize_cursize w) (daily w) (daily_opendate w)
    (hour w) (hour_opendate w) (rotate w) (closeCh w) (msgQ w) (wg w) (prefix w).
Definition set_maxsize (v : Z) (w : FileLogWriter) : FileLogWriter :=
  mkFileLogWriter (inRec w) (rec w) (filename w) (file w) (bufW w) (format w) (header w) (trailer w)
    (maxlines w) (maxlines_curlines w) v (maxsize_cursize w) (daily w) (daily_opendate w)
    (hour w) (hour_opendate w) (rotate w) (closeCh w) (msgQ w) (wg w) (prefix w).
Definition set_counts (lines size : Z) (w : FileLogWriter) : FileLogWriter :=
  mkFileLogWriter (inRec w) (rec w) (filename w) (file w) (bufW w) (format w) (header w) (trailer w)
    (maxlines w) lines (maxsize w) size (daily w) (daily_opendate w)
    (hour w) (hour_opendate w) (rotate w) (closeCh w) (msgQ w) (wg w) (prefix w).
Definition set_daily (v : bool) (w : FileLogWriter) : FileLogWriter :=
  mkFileLogWriter (inRec w) (rec w) (filename w) (file w) (bufW w) (format w) (header w) (trailer w)
    (maxlines w) (maxlines_curlines w) (maxsize w) (maxsize_cursize w) v (daily_opendate w)
    (hour w) (hour_opendate w) (rotate w) (closeCh w) (msgQ w) (wg w) (prefix w).
Definition set_hour (v : bool) (w : FileLogWriter) : FileLogWriter :=
  mkFileLogWriter (inRec w) (rec w) (filename w) (file w) (bufW w) (format w) (header w) (trailer w)
    (maxlines w) (maxlines_curlines w) (maxsize w) (maxsize_cursize w) (daily w) (daily_opendate w)
    v (hour_opendate w) (rotate w) (closeCh w) (msgQ w) (wg w) (prefix w).
Definition set_opendate (d h : Z) (w : FileLogWriter) : FileLogWriter :=
  mkFileLogWriter (inRec w) (rec w) (filename w) (file w) (bufW w) (format w) (header w) (trailer w)
    (maxlines w) (maxlines_curlines w) (maxsize w) (maxsize_cursize w) (daily w) d
    (hour w) h (rotate w) (closeCh w) (msgQ w) (wg w) (prefix w).
Definition set_rotate (v : bool) (w : FileLogWriter) : FileLogWriter :=
  mkFileLogWriter (inRec w) (rec w) (filename w) (file w) (bufW w) (format w) (header w) (trailer w)
    (maxlines w) (maxlines_curlines w) (maxsize w) (maxsize_cursize w) (daily w) (daily_opendate w)
    (hour w) (hour_opendate w) v (closeCh w) (msgQ w) (wg w) (prefix w).
Definition set_closeCh (v : bool) (w : FileLogWriter) : FileLogWriter :=
  mkFileLogWriter (inRec w) (rec w) (filename w) (file w) (bufW w) (format w) (header w) (trailer w)
    (maxlines w) (maxlines_curlines w) (maxsize w) (maxsize_cursize w) (daily w) (daily_opendate w)
    (hour w) (hour_opendate w) (rotate w) v (msgQ w) (wg w) (prefix w).
Definition set_msgQ (v : list LogRecord) (w : FileLogWriter) : FileLogWriter :=
  mkFileLogWriter (inRec w) (rec w) (filename w) (file w) (bufW w) (format w) (header w) (trailer w)
    (maxlines w) (maxlines_curlines w) (maxsize w) (maxsize_cursize w) (daily w) (daily_opendate w)
    (hour w) (hour_opendate w) (rotate w) (closeCh w) v (wg w) (prefix w).
Definition set_wg (v : nat) (w : FileLogWriter) : FileLogWriter :=
  mkFileLogWriter (inRec w) (rec w) (filename w) (file w) (bufW w) (format w) (header w) (trailer w)
    (maxlines w) (maxlines_curlines w) (maxsize w) (maxsize_cursize w) (daily w) (daily_opendate w)
    (hour w) (hour_opendate w) (rotate w) (closeCh w) (msgQ w) v (prefix w).
Definition set_prefix (v : string) (w : FileLogWriter) : FileLogWriter :=
  mkFileLogWriter (inRec w) (rec w) (filename w) (file w) (bufW w) (format w) (header w) (trailer w)
    (maxlines w) (maxlines_curlines w) (maxsize w) (maxsize_cursize w) (daily w) (daily_opendate w)
    (hour w) (hour_opendate w) (rotate w) (closeCh w) (msgQ w) (wg w) v.

Definition set_fs (v : gmap string string) (e : World) : World :=
  mkWorld v (stderr e) (syslog e) (clock e) (ticks e) (fault e) (ops e).
Definition set_stderr (v : list string) (e : World) : World :=
  mkWorld (fs e) v (syslog e) (clock e) (ticks e) (fault e) (ops e).
Definition set_syslog (v : list Syscall) (e : World) : World :=
  mkWorld (fs e) (stderr e) v (clock e) (ticks e) (fault e) (ops e).
Definition set_ticks (v : nat) (e : World) : World :=
  mkWorld (fs e) (stderr e) (syslog e) (clock e) v (fault e) (ops e).
Definition set_ops (v : nat) (e : World) : World :=
  mkWorld (fs e) (stderr e) (syslog e) (clock e) (ticks e) (fault e) v.

(* ===================================================================== *)
(** ** Commands: state passing over the log writer and the world *)
(* ===================================================================== *)

(** A command runs on the struct behind the receiver [w] and the world; it
    yields [None] when it dereferences a nil pointer (a Go panic) or when a
    loop's fuel runs out. *)
Definition St : Type := FileLogWriter * World.
Definition M (A : Type) : Type := St -> option (A * St).

Definition ret {A : Type} (a : A) : M A := fun s => Some (a, s).
Definition bind {A B : Type} (m : M A) (k : A -> M B) : M B :=
  fun s => match m s with
           | Some (a, s') => k a s'
           | None => None
           end.
Definition panic {A : Type} : M A := fun _ => None.

Notation "'let*' x ':=' m 'in' k" := (bind m (fun x => k))
  (at level 10, x name, m at level 100, k at level 200).
Notation "m ';;' k" := (bind m (fun _ => k))
  (at level 100, k at level 200, right associativity).

Definition get_w : M FileLogWriter := fun s => Some (fst s, s).
Definition get_world : M World := fun s => Some (snd s, s).
Definition modify_w (f : FileLogWriter -> FileLogWriter) : M unit :=
  fun s => Some (tt, (f (fst s), snd s)).
Definition modify_world (f : World -> World) : M unit :=
  fun s => Some (tt, (fst s, f (snd s))).

(** [time.Now()]: the next reading of the clock. *)
Definition time_Now : M Time :=
  let* e := get_world in
  modify_world (set_ticks (S (ticks e))) ;;
  ret (clock e (ticks e)).

(** [fmt.Fprintf(os.Stderr, "FileLogWriter(%q): %s\n", w.filename, err)]. *)
Definition report (err : string) : M unit :=
  let* w := get_w in
  modify_world (fun e =>
    set_stderr (stderr e ++ ["FileLogWriter(" +:+ Sprintf_q (filename w) +:+ "): " +:+ err +:+ nl]) e).

Definition log_syscall (c : Syscall) : M unit :=
  modify_world (fun e => set_syslog (syslog e ++ [c]) e).

(** The oracle's verdict on the next fallible file operation. *)
Definition next_fault : M (option string) :=
  let* e := get_world in
  modify_world (set_ops (S (ops e))) ;;
  ret (fault e (ops e)).

(** [_, err := os.Lstat(path)]: whether [err == nil]. *)
Definition Lstat_ok (files : gmap string string) (path : string) : bool :=
  match files !! path with
  | Some _ => true
  | None => false
  end.

Definition contents (files : gmap string string) (path : string) : string :=
  default EmptyString (files !! path).

(** [os.Rename(oldpath, newpath)], yielding the error. *)
Definition os_Rename (oldpath newpath : string) : M (option string) :=
  let* flt := next_fault in
  let* e := get_world in
  match flt, fs e !! oldpath with
  | Some msg, _ => log_syscall (SysRename oldpath newpath false) ;; ret (Some msg)
  | None, None =>
      log_syscall (SysRename oldpath newpath false) ;;
      ret (Some ("rename " +:+ oldpath +:+ " " +:+ newpath +:+ ": no such file or directory"))
  | None, Some c =>
      modify_world (set_fs (<[newpath := c]> (delete oldpath (fs e)))) ;;
      log_syscall (SysRename oldpath newpath true) ;;
      ret None
  end.

(** [os.OpenFile(path, os.O_WRONLY|os.O_APPEND|os.O_CREATE, 0660)]. *)
Definition os_OpenFile (path : string) : M (File + string) :=
  let* flt := next_fault in
  let* e := get_world in
  match flt with
  | Some msg => log_syscall (SysOpen path false) ;; ret (inr msg)
  | None =>
      modify_world (set_fs (<[path := contents (fs e) path]> (fs e))) ;;
      log_syscall (SysOpen path true) ;;
      ret (inl (mkFile path false))
  end.

(** [w.file.Write(p)] on a handle opened for appending: all of [p] or
    nothing.  A closed handle fails before the operating system is asked. *)
Definition file_Write (p : string) : M (option string) :=
  let* w := get_w in
  match file w with
  | None => panic
  | Some f =>
      if f_closed f then ret (Some ("write " +:+ f_path f +:+ ": file already closed"))
      else
        let* flt := next_fault in
        let* e := get_world in
        match flt with
        | Some msg => log_syscall (SysWrite (f_path f) p false) ;; ret (Some msg)
        | None =>
            modify_world (set_fs (<[f_path f := contents (fs e) (f_path f) +:+ p]> (fs e))) ;;
            log_syscall (SysWrite (f_path f) p true) ;;
            ret None
        end
  end.

(** [w.file.Close()]; its error is never looked at. *)
Definition file_Close : M unit :=
  let* w := get_w in
  match file w with
  | None => panic
  | Some f =>
      (if f_closed f then ret tt else log_syscall (SysClose (f_path f))) ;;
      modify_w (set_file (Some (mkFile (f_path f) true)))
  end.

(** [w.bufW.Flush()]. *)
Definition bufW_Flush : M (option string) :=
  let* w := get_w in
  match bufW w with
  | None => panic
  | Some b =>
      match werr b with
      | Some msg => ret (Some msg)
      | None =>
          if (String.length (wbuf b) =? 0)%nat then ret None
          else
            let* r := file_Write (wbuf b) in
            match r with
            | Some msg => modify_w (set_bufW (Some (mkWriter (wbuf b) (Some msg)))) ;; ret (Some msg)
            | None => modify_w (set_bufW (Some (mkWriter EmptyString None))) ;; ret None
            end
      end
  end.

(** The loop of [bufio.Writer.WriteString]: while the rest of [s] does not
    fit and no error is pending, fill the buffer and flush it. *)
Fixpoint WriteString_loop (fuel : nat) (s : string) (nn : Z) : M (Z * option string) :=
  let* w := get_w in
  match bufW w with
  | None => panic
  | Some b =>
      let avail := (MaxBufWriteSize - String.length (wbuf b))%nat in
      if (avail <? String.length s)%nat && negb (bool_decide (is_Some (werr b))) then
        match fuel with
        | O => panic
        | S k =>
            modify_w (set_bufW (Some (mkWriter (wbuf b +:+ str_take avail s) (werr b)))) ;;
            bufW_Flush ;;
            WriteString_loop k (str_drop avail s) (nn + Z.of_nat avail)
        end
      else
        match werr b with
        | Some msg => ret (nn, Some msg)
        | None =>
            modify_w (set_bufW (Some (mkWriter (wbuf b +:+ s) None))) ;;
            ret (nn + Z.of_nat (String.length s), None)
        end
  end.

(** [n, err := w.bufW.WriteString(s)]. *)
Definition bufW_WriteString (s : string) : M (Z * option string) :=
  WriteString_loop (S (S (String.length s))) s 0.

(* ===================================================================== *)
(** ** The methods of [FileLogWriter] *)
(* ===================================================================== *)

Section Methods.
Context {pkg : Package}.

(** [changePrefix], line 56. *)
Definition changePrefix (p : string) : M unit := modify_w (set_prefix p).

(** [closeFile], lines 94-105. *)
Definition closeFile : M unit :=
  let* w := get_w in
  match file w with
  | None => ret tt
  | Some _ =>
      let* now := time_Now in
      let* r := bufW_WriteString (FormatLogRecord (trailer w) (record_at now)) in
      let* err := match snd r with
                  | None => bufW_Flush
                  | Some msg => ret (Some msg)
                  end in
      match err with
      | Some msg => report msg
      | None => ret tt
      end ;;
      file_Close
  end.

(** [newFile], lines 294-298. *)
Definition newFile (fd : File) (now : Time) : M unit :=
  modify_w (set_file (Some fd)) ;;
  modify_w (set_bufW (Some (mkWriter EmptyString None))) ;;
  let* w := get_w in
  bufW_WriteString (FormatLogRecord (header w) (record_at now)) ;;
  ret tt.

(** The loop of lines 254-259 with its variables [num], [fname] and [err]
    ([err_nil] is [err == nil]); it reads the file system only. *)
Fixpoint find_free_loop (files : gmap string string) (fname0 : string) (lastTime : Time)
    (fuel : nat) (num : Z) (fname : string) (err_nil : bool) : string * bool :=
  match fuel with
  | O => (fname, err_nil)
  | S k =>
      if err_nil && (num <=? 999) then
        let fname' := archive_name fname0 lastTime num in
        find_free_loop files fname0 lastTime k (num + 1) fname' (Lstat_ok files fname')
      else (fname, err_nil)
  end.

Definition find_free (files : gmap string string) (fname0 : string) (lastTime : Time)
    : string * bool :=
  find_free_loop files fname0 lastTime 999 1 EmptyString true.

(** The error of line 262. *)
Definition no_free_number (fname : string) : string :=
  "Rotate: Cannot find free log number to rename " +:+ fname +:+ nl.

(** Lines 250-271 of [intRotate]: move the file out of the way. *)
Definition archive_old (lastTime : Time) : M (option string) :=
  let* w := get_w in
  if rotate w then
    let* e := get_world in
    if Lstat_ok (fs e) (filename w) then
      let found := find_free (fs e) (filename w) lastTime in
      if snd found then
        ret (Some (no_free_number (filename w)))
      else
        let* err := os_Rename (filename w) (fst found) in
        match err with
        | Some msg => ret (Some ("Rotate: " +:+ msg +:+ nl))
        | None => ret None
        end
    else ret None
  else ret None.

(** Lines 243-248 of [intRotate]: the time that goes into the archive name. *)
Definition lastTime_of (last : bool) (now : Time) : Time :=
  if last then time_Add now (- Second * 3600) else now.

(** [intRotate], lines 238-290; the result is the error. *)
Definition intRotate (last : bool) : M (option string) :=
  closeFile ;;
  let* now := time_Now in
  let lastTime := lastTime_of last now in
  let* err := archive_old lastTime in
  match err with
  | Some msg => ret (Some msg)
  | None =>
      let* w := get_w in
      let* r := os_OpenFile (filename w) in
      match r with
      | inr msg => ret (Some msg)
      | inl fd =>
          newFile fd now ;;
          modify_w (fun w => set_opendate (Day now) (Hour now) w) ;;
          modify_w (set_counts 0 0) ;;
          ret None
      end
  end.

(** How a call of [write] ended.  The Go method returns nothing; the tag
    names the return statement that was reached. *)
Inductive WriteExit :=
| RotateFailed (err : string)
| WriteFailed (err : string)
| Written (n : Z).

(** One rotation check of [write]: rotate when [cond] holds; the result is
    the error that makes [write] return. *)
Definition rotate_if (cond : bool) (last : bool) : M (option string) :=
  if cond then
    let* err := intRotate last in
    match err with
    | Some msg => report msg ;; ret (Some msg)
    | None => ret None
    end
  else ret None.

(** Lines 133-134: the text of a record, its source trimmed of the prefix. *)
Definition record_text (w : FileLogWriter) (r : LogRecord) : string :=
  FormatLogRecord (format w)
    (mkRecord (Level r) (Created r) (TrimPrefix (Source r) (prefix w)) (Message r)).

(** The line [report] prints for the error [err]. *)
Definition report_line (w : FileLogWriter) (err : string) : string :=
  "FileLogWriter(" +:+ Sprintf_q (filename w) +:+ "): " +:+ err +:+ nl.

(** Lines 132-142 of [write]: perform the write and update the counts. *)
Definition perform_write (r : LogRecord) : M WriteExit :=
  let* w := get_w in
  let* res := bufW_WriteString (record_text w r) in
  match snd res with
  | Some msg => report msg ;; ret (WriteFailed msg)
  | None =>
      modify_w (fun w => set_counts (wrap_int (maxlines_curlines w + 1))
                                    (wrap_int (maxsize_cursize w + fst res)) w) ;;
      ret (Written (fst res))
  end.

(** The three conditions of [write], lines 108-109, 118 and 125. *)
Definition size_or_lines_due (w : FileLogWriter) : bool :=
  ((0 <? maxlines w) && (maxlines w <=? maxlines_curlines w))
  || ((0 <? maxsize w) && (maxsize w <=? maxsize_cursize w)).
Definition daily_due (w : FileLogWriter) (now : Time) : bool :=
  daily w && negb (Day now =? daily_opendate w).
Definition hour_due (w : FileLogWriter) (now : Time) : bool :=
  hour w && negb (Hour now =? hour_opendate w).

(** Lines 108-130 of [write]: the checks, in the order of the source; the
    result is the error on which [write] returns. *)
Definition rotation_checks : M (option string) :=
  let* w := get_w in
  let* e1 := rotate_if (size_or_lines_due w) false in
  match e1 with
  | Some msg => ret (Some msg)
  | None =>
      let* now := time_Now in
      let* w := get_w in
      let* e2 := rotate_if (daily_due w now) true in
      match e2 with
      | Some msg => ret (Some msg)
      | None =>
          let* w := get_w in
          rotate_if (hour_due w now) true
      end
  end.

(** [write], lines 107-143. *)
Definition write (r : LogRecord) : M WriteExit :=
  let* err := rotation_checks in
  match err with
  | Some msg => ret (RotateFailed msg)
  | None => perform_write r
  end.

(** The configuration methods, lines 302-355. *)
Definition SetFormat (f : string) : M unit := modify_w (set_format f).

Definition SetHeadFoot (head foot : string) : M unit :=
  modify_w (set_headfoot head foot) ;;
  let* w := get_w in
  if maxlines_curlines w =? 0 then
    let* now := time_Now in
    bufW_WriteString (FormatLogRecord (header w) (record_at now)) ;;
    ret tt
  else ret tt.

Definition SetRotateLines (n : Z) : M unit := modify_w (set_maxlines n).
Definition SetRotateSize (n : Z) : M unit := modify_w (set_maxsize n).
Definition SetRotateDaily (b : bool) : M unit := modify_w (set_daily b).
Definition SetRotateHour (b : bool) : M unit := modify_w (set_hour b).
Definition SetRotate (b : bool) : M unit := modify_w (set_rotate b).

(** The two receive loops of [Close], lines 69-76 and 82-89.  While they
    run nothing else sends on [rec], and [write] leaves the channels alone,
    so the loop follows the buffered values: it takes one off the channel,
    writes it, and stops at the [default] case when none is left. *)
Fixpoint drain_loop (put : list LogRecord -> FileLogWriter -> FileLogWriter)
    (pending : list LogRecord) : M unit :=
  match pending with
  | [] => ret tt
  | r :: rest => modify_w (put rest) ;; write r ;; drain_loop put rest
  end.

Definition drain_rec : M unit := let* w := get_w in drain_loop set_rec (rec w).
Definition drain_inRec : M unit := let* w := get_w in drain_loop set_inRec (inRec w).

(** Lines 78-80: walk the list from the front; nothing is removed. *)
Fixpoint walk_msgQ (l : list LogRecord) : M unit :=
  match l with
  | [] => ret tt
  | r :: rest => write r ;; walk_msgQ rest
  end.

Definition drain_msgQ : M unit := let* w := get_w in walk_msgQ (msgQ w).

(** [Close], lines 65-92.  [wg.Wait()] returns once both goroutines have
    exited (the counter is zero); until then the caller is blocked, which
    the scheduler below expresses.  [Close_drain] is what runs after it. *)
Definition Close_drain : M unit :=
  drain_rec ;; drain_msgQ ;; drain_inRec ;; closeFile.

(** The struct literal of lines 157-166. *)
Definition new_struct (fname : string) (rot : bool) : FileLogWriter :=
  {| inRec := []; rec := []; filename := fname; file := None; bufW := None;
     format := "[%D %T] [%L] (%S) %M"; header := EmptyString; trailer := EmptyString;
     maxlines := 0; maxlines_curlines := 0; maxsize := 0; maxsize_cursize := 0;
     daily := false; daily_opendate := 0; hour := false; hour_opendate := 0;
     rotate := rot; closeCh := false; msgQ := []; wg := 0%nat; prefix := EmptyString |}.

(** [NewFileLogWriter], lines 156-229: the writer and the world after the
    first [intRotate], or nil.  The two [wg.Add(1)] count the goroutines it
    starts; what they do is the transition system below. *)
Definition NewFileLogWriter (fname : string) (rot : bool) (e : World)
    : option (option FileLogWriter * World) :=
  match intRotate false (new_struct fname rot, e) with
  | None => None
  | Some (Some msg, s) =>
      match report msg s with
      | Some (_, s') => Some (None, snd s')
      | None => None
      end
  | Some (None, (w, e')) => Some (Some (set_wg 2 w), e')
  end.

(** The templates of [NewXMLLogWriter], lines 360-365: the raw string of
    the record, with its tabs and line breaks, the header and the footer. *)
Definition tab : string := String (ascii_of_nat 9) EmptyString.

Definition xml_format : string :=
  tab +:+ "<record level=" +:+ dquote +:+ "%L" +:+ dquote +:+ ">" +:+ nl
  +:+ tab +:+ tab +:+ "<timestamp>%D %T</timestamp>" +:+ nl
  +:+ tab +:+ tab +:+ "<source>%S</source>" +:+ nl
  +:+ tab +:+ tab +:+ "<message>%M</message>" +:+ nl
  +:+ tab +:+ "</record>".

Definition xml_head : string := "<log created=" +:+ dquote +:+ "%D %T" +:+ dquote +:+ ">".
Definition xml_foot : string := "</log>".

(** [NewXMLLogWriter], lines 359-366.  The setters are called on what
    [NewFileLogWriter] returns; on nil, [SetFormat] assigns through the nil
    pointer, which panics. *)
Definition NewXMLLogWriter (fname : string) (rot : bool) (e : World)
    : option (FileLogWriter * World) :=
  match NewFileLogWriter fname rot e with
  | Some (Some w, e') =>
      match (SetFormat xml_format ;; SetHeadFoot xml_head xml_foot) (w, e') with
      | Some (_, s) => Some s
      | None => None
      end
  | Some (None, _) => None
  | None => None
  end.

End Methods.

(* ===================================================================== *)
(** ** The goroutines as a transition system *)
(* ===================================================================== *)

(** The relay goroutine's locals, lines 177-178: [msg] and whether [outCh]
    is [w.rec] rather than nil. *)
Record Relay := mkRelay {
  r_msg : option LogRecord;
  r_outCh : bool
}.

(** Where the caller of [Close] stands. *)
Inductive ClosePC :=
| CloseNotCalled
| CloseWaiting                         (* closeCh closed, inside wg.Wait() *)
| CloseDrainRec                        (* the loop of lines 69-76 *)
| CloseDrainQ (cursor : list LogRecord) (* lines 78-80: [e] and what follows it *)
| CloseDrainIn                         (* the loop of lines 82-89 *)
| CloseDone.

Record System := mkSystem {
  heap : St;                               (* the struct and the world *)
  relay : option Relay;                    (* None once the relay returned *)
  writer_running : bool;                   (* the second goroutine *)
  closer : ClosePC;
  sent : list LogRecord;                   (* history: the sends of LogWrite, in order *)
  handled : list (LogRecord * WriteExit)   (* history: the calls of write, in order *)
}.

(** What the scheduler may pick next.  A send on a channel whose buffer has
    room and the matching receive are two events; when the buffer is empty
    a sender and a receiver may also meet directly, which is the only way
    on a channel of capacity zero. *)
Inductive Event :=
| EvLogWrite (r : LogRecord)        (* line 62: the send on inRec completes *)
| EvLogWriteToRelay (r : LogRecord) (* line 62 meets line 181 *)
| EvLogWriteToClose (r : LogRecord) (* line 62 meets line 84 *)
| EvRelayRecv                       (* line 181 *)
| EvRelaySend                       (* line 187 *)
| EvRelayToWriter                   (* line 187 meets line 216 *)
| EvRelayClose                      (* line 194 *)
| EvWriterRot                       (* line 210: a caller of Rotate meets the loop *)
| EvWriterRec                       (* line 216 *)
| EvWriterTick                      (* line 218 *)
| EvWriterClose                     (* line 222 *)
| EvClose                           (* line 66 *)
| EvCloseStep.                      (* the next step of Close, lines 67-91 *)

Section Goroutines.
Context {pkg : Package}.

(** Lines 182-186: the body of the relay's receive case. *)
Definition relay_recv (info : LogRecord) (w : FileLogWriter) (l : Relay)
    : FileLogWriter * Relay :=
  let q := msgQ w ++ [info] in
  match r_msg l with
  | None => (set_msgQ (tail q) w, mkRelay (Some (hd info q)) true)
  | Some _ => (set_msgQ q w, l)
  end.

(** Lines 188-193: the body of the relay's send case, after the send. *)
Definition relay_sent (w : FileLogWriter) (l : Relay) : FileLogWriter * Relay :=
  match msgQ w with
  | m :: q => (set_msgQ q w, mkRelay (Some m) (r_outCh l))
  | [] => (w, mkRelay None false)
  end.

(** Lines 195-198 and the deferred [wg.Done()]. *)
Definition relay_close (w : FileLogWriter) (l : Relay) : FileLogWriter :=
  let w' := match r_msg l with
            | Some m => set_msgQ (m :: msgQ w) w
            | None => w
            end in
  set_wg (pred (wg w')) w'.

(** Whether the writer loop goes round again or returns. *)
Inductive Loop := Continue | Return.

(** Lines 210-215. *)
Definition writer_on_rot : M Loop :=
  let* err := intRotate false in
  match err with
  | Some msg => report msg ;; ret Return
  | None => ret Continue
  end.

(** Lines 216-217. *)
Definition writer_on_rec (r : LogRecord) : M (Loop * WriteExit) :=
  let* x := write r in ret (Continue, x).

(** Lines 218-221. *)
Definition writer_on_tick : M Loop :=
  let* err := bufW_Flush in
  match err with
  | Some msg => report msg
  | None => ret tt
  end ;;
  ret Continue.

(** The deferred [wg.Done()] of a goroutine that returns. *)
Definition wg_Done (s : St) : St := (set_wg (pred (wg (fst s))) (fst s), snd s).

Definition with_heap (h : St) (s : System) : System :=
  mkSystem h (relay s) (writer_running s) (closer s) (sent s) (handled s).

(** The writer loop takes [r] and writes it. *)
Definition writer_takes (r : LogRecord) (h : St) (s : System) : option System :=
  match writer_on_rec r h with
  | Some ((_, x), h') =>
      Some (mkSystem h' (relay s) (writer_running s) (closer s) (sent s) (handled s ++ [(r, x)]))
  | None => None
  end.

(** The caller of Close takes [r] and writes it, staying at [pc]. *)
Definition closer_takes (r : LogRecord) (h : St) (pc : ClosePC) (s : System) : option System :=
  match write r h with
  | Some (x, h') =>
      Some (mkSystem h' (relay s) (writer_running s) pc (sent s) (handled s ++ [(r, x)]))
  | None => None
  end.

Definition step (ev : Event) (s : System) : option System :=
  let w := fst (heap s) in
  let e := snd (heap s) in
  match ev with
  | EvLogWrite r =>
      if (length (inRec w) <? LogBufferLength)%nat then
        Some (mkSystem (set_inRec (inRec w ++ [r]) w, e) (relay s) (writer_running s)
                       (closer s) (sent s ++ [r]) (handled s))
      else None
  | EvLogWriteToRelay r =>
      match relay s, inRec w with
      | Some l, [] =>
          let '(w', l') := relay_recv r w l in
          Some (mkSystem (w', e) (Some l') (writer_running s) (closer s) (sent s ++ [r]) (handled s))
      | _, _ => None
      end
  | EvLogWriteToClose r =>
      match closer s, inRec w with
      | CloseDrainIn, [] =>
          closer_takes r (heap s) CloseDrainIn
            (mkSystem (heap s) (relay s) (writer_running s) (closer s) (sent s ++ [r]) (handled s))
      | _, _ => None
      end
  | EvRelayRecv =>
      match relay s, inRec w with
      | Some l, info :: rest =>
          let '(w', l') := relay_recv info (set_inRec rest w) l in
          Some (mkSystem (w', e) (Some l') (writer_running s) (closer s) (sent s) (handled s))
      | _, _ => None
      end
  | EvRelaySend =>
      match relay s with
      | Some (mkRelay (Some m) true) =>
          if (length (rec w) <? LogBufferLength)%nat then
            let '(w', l') := relay_sent (set_rec (rec w ++ [m]) w) (mkRelay (Some m) true) in
            Some (mkSystem (w', e) (Some l') (writer_running s) (closer s) (sent s) (handled s))
          else None
      | _ => None
      end
  | EvRelayToWriter =>
      match relay s, rec w, writer_running s with
      | Some (mkRelay (Some m) true), [], true =>
          let '(w', l') := relay_sent w (mkRelay (Some m) true) in
          writer_takes m (w', e)
            (mkSystem (w', e) (Some l') (writer_running s) (closer s) (sent s) (handled s))
      | _, _, _ => None
      end
  | EvRelayClose =>
      match relay s with
      | Some l =>
          if closeCh w then
            Some (mkSystem (relay_close w l, e) None (writer_running s) (closer s) (sent s) (handled s))
          else None
      | None => None
      end
  | EvWriterRot =>
      if writer_running s then
        match writer_on_rot (heap s) with
        | Some (Continue, h') => Some (with_heap h' s)
        | Some (Return, h') =>
            Some (mkSystem (wg_Done h') (relay s) false (closer s) (sent s) (handled s))
        | None => None
        end
      else None
  | EvWriterRec =>
      match writer_running s, rec w with
      | true, r :: rest => writer_takes r (set_rec rest w, e) s
      | _, _ => None
      end
  | EvWriterTick =>
      if writer_running s then
        match writer_on_tick (heap s) with
        | Some (_, h') => Some (with_heap h' s)
        | None => None
        end
      else None
  | EvWriterClose =>
      if writer_running s && closeCh w then
        Some (mkSystem (wg_Done (heap s)) (relay s) false (closer s) (sent s) (handled s))
      else None
  | EvClose =>
      match closer s with
      | CloseNotCalled =>
          Some (mkSystem (set_closeCh true w, e) (relay s) (writer_running s) CloseWaiting
                         (sent s) (handled s))
      | _ => None
      end
  | EvCloseStep =>
      match closer s with
      | CloseNotCalled => None
      | CloseWaiting =>
          if (wg w =? 0)%nat then
            Some (mkSystem (heap s) (relay s) (writer_running s) CloseDrainRec (sent s) (handled s))
          else None
      | CloseDrainRec =>
          match rec w with
          | r :: rest => closer_takes r (set_rec rest w, e) CloseDrainRec s
          | [] =>
              Some (mkSystem (heap s) (relay s) (writer_running s) (CloseDrainQ (msgQ w))
                             (sent s) (handled s))
          end
      | CloseDrainQ (r :: rest) => closer_takes r (heap s) (CloseDrainQ rest) s
      | CloseDrainQ [] =>
          Some (mkSystem (heap s) (relay s) (writer_running s) CloseDrainIn (sent s) (handled s))
      | CloseDrainIn =>
          match inRec w with
          | r :: rest => closer_takes r (set_inRec rest w, e) CloseDrainIn s
          | [] =>
              match closeFile (heap s) with
              | Some (_, h') =>
                  Some (mkSystem h' (relay s) (writer_running s) CloseDone (sent s) (handled s))
              | None => None
              end
          end
      | CloseDone => None
      end
  end.

(** A schedule, event by event; [None] when an event is not enabled. *)
Fixpoint run (evs : list Event) (s : System) : option System :=
  match evs with
  | [] => Some s
  | ev :: rest =>
      match step ev s with
      | Some s' => run rest s'
      | None => None
      end
  end.

(** The system right after [NewFileLogWriter] returned [w]: both goroutines
    at the top of their loops, nothing sent yet. *)
Definition spawned (w : FileLogWriter) (e : World) : System :=
  mkSystem (w, e) (Some (mkRelay None false)) true CloseNotCalled [] [].

(** What is on its way between [LogWrite] and [write], oldest first. *)
Definition in_flight (s : System) : list LogRecord :=
  let w := fst (heap s) in
  match closer s with
  | CloseNotCalled | CloseWaiting | CloseDrainRec =>
      rec w ++ match relay s with
               | Some l => match r_msg l with Some m => [m] | None => [] end
               | None => []
               end ++ msgQ w ++ inRec w
  | CloseDrainQ cursor => cursor ++ inRec w
  | CloseDrainIn | CloseDone => inRec w
  end.

(** The records whose text the buffered writer accepted, in order. *)
Definition accepted (h : list (LogRecord * WriteExit)) : list LogRecord :=
  omap (fun x => match snd x with Written _ => Some (fst x) | _ => None end) h.

End Goroutines.

(* ===================================================================== *)
(** ** Notions used to state the properties *)
(* ===================================================================== *)

(** *** What the buffered writer can do to the state *)

Definition is_SysWrite (c : Syscall) : Prop :=
  match c with SysWrite _ _ _ => True | _ => False end.

(** The path of the handle behind the buffered writer. *)
Definition session_path (w : FileLogWriter) : option string := f_path <$> file w.

(** A step of the buffered writer changes the writer itself and, by
    flushing, the contents of the file it wraps; nothing else. *)
Record bufio_step (s s' : St) : Prop := {
  bio_w : fst s' = set_bufW (bufW (fst s')) (fst s);
  bio_live : is_Some (bufW (fst s)) -> is_Some (bufW (fst s'));
  bio_clock : clock (snd s') = clock (snd s);
  bio_ticks : ticks (snd s') = ticks (snd s);
  bio_fault : fault (snd s') = fault (snd s);
  bio_stderr : stderr (snd s') = stderr (snd s);
  bio_ops : (ops (snd s) <= ops (snd s'))%nat;
  bio_syslog : exists l, syslog (snd s') = syslog (snd s) ++ l /\ Forall is_SysWrite l;
  bio_fs : forall q, session_path (fst s) <> Some q -> fs (snd s') !! q = fs (snd s) !! q;
  bio_exists : forall q, is_Some (fs (snd s) !! q) -> is_Some (fs (snd s') !! q)
}.

Definition live (w : FileLogWriter) : Prop := is_Some (file w) /\ is_Some (bufW w).

Definition no_faults (e : World) : Prop := forall k, fault e k = None.

(** A session: an open handle on [p] whose file holds [d], with [b]
    buffered and no error pending. *)
Definition session (s : St) (p d b : string) : Prop :=
  file (fst s) = Some (mkFile p false) /\
  bufW (fst s) = Some (mkWriter b None) /\
  fs (snd s) !! p = Some d.

(** A rotation that completes opens the file anew: [opens] counts them. *)
Definition opens (l : list Syscall) : nat :=
  length (omap (fun c => match c with SysOpen p true => Some p | _ => None end) l).

(** The renames that were carried out, oldest first. *)
Definition renames (l : list Syscall) : list (string * string) :=
  omap (fun c => match c with SysRename a b true => Some (a, b) | _ => None end) l.

(** The fields no file operation touches: the channels, the list, the
    wait group and the configuration. *)
Definition config (w : FileLogWriter) :=
  (inRec w, rec w, msgQ w, closeCh w, wg w,
   (filename w, format w, header w, trailer w, prefix w),
   (maxlines w, maxsize w, daily w, hour w, rotate w)).

Definition counts (w : FileLogWriter) : Z * Z := (maxlines_curlines w, maxsize_cursize w).
Definition opendate (w : FileLogWriter) : Z * Z := (daily_opendate w, hour_opendate w).

(** What every method does at most: the configuration and the channels
    stay, the clock and the oracle are read only, and the two logs grow. *)
Record method_step (s s' : St) : Prop := {
  ms_config : config (fst s') = config (fst s);
  ms_clock : clock (snd s') = clock (snd s);
  ms_fault : fault (snd s') = fault (snd s);
  ms_ticks : (ticks (snd s) <= ticks (snd s'))%nat;
  ms_stderr : exists l, stderr (snd s') = stderr (snd s) ++ l;
  ms_syslog : exists l, syslog (snd s') = syslog (snd s) ++ l
}.




(** The record the caller of [Close] takes in its next step of a drain
    loop, the state it is written in, and where the caller is afterwards. *)
Definition next_drained (s : System) : option (LogRecord * St * ClosePC) :=
  let w := fst (heap s) in
  let e := snd (heap s) in
  match closer s with
  | CloseDrainRec =>
      match rec w with
      | r :: rest => Some (r, (set_rec rest w, e), CloseDrainRec)
      | [] => None
      end
  | CloseDrainQ (r :: rest) => Some (r, heap s, CloseDrainQ rest)
  | CloseDrainIn =>
      match inRec w with
      | r :: rest => Some (r, (set_inRec rest w, e), CloseDrainIn)
      | [] => None
      end
  | _ => None
  end.

(** What the session on [p] holds: the contents of the file, then what
    the buffered writer still keeps. *)
Definition stream (s : St) (p x : string) : Prop :=
  exists d b, session s p d b /\ d +:+ b = x.

(** The writer loop handling records one after the other. *)
Fixpoint write_all {pkg : Package} (rs : list LogRecord) : M (list WriteExit) :=
  match rs with
  | [] => ret []
  | r :: rest =>
      let* x := write r in
      let* xs := write_all rest in
      ret (x :: xs)
  end.

(** A log writer on [p] that keeps old logs and rotates on lines only,
    with the limit [m] and [c] lines counted. *)
Definition lines_only (w : FileLogWriter) (p : string) (m c : Z) : Prop :=
  filename w = p /\ rotate w = true /\ maxlines w = m /\ maxsize w = 0 /\
  daily w = false /\ hour w = false /\ maxlines_curlines w = c.

(** *** The goroutines as a whole *)

(** [Close] has got past [wg.Wait()]. *)
Definition past_wait (pc : ClosePC) : bool :=
  match pc with
  | CloseNotCalled | CloseWaiting => false
  | _ => true
  end.

(** The goroutines that have not returned yet. *)
Definition running (s : System) : nat :=
  (match relay s with Some _ => 1 | None => 0 end
   + (if writer_running s then 1 else 0))%nat.

(** What holds in every state the system reaches: the file is there, what
    [write] has been given followed by what is on its way is what was
    sent, the wait group counts the goroutines that run, and [Close] drains
    only when none does. *)
Record sys_inv (s : System) : Prop := {
  inv_live : live (fst (heap s));
  inv_order : map fst (handled s) ++ in_flight s = sent s;
  inv_wg : wg (fst (heap s)) = running s;
  inv_past : past_wait (closer s) = true -> running s = 0%nat
}.

(** *** A log that never rotates *)

(** What the configuration methods set. *)
Definition settings (w : FileLogWriter) :=
  ((filename w, format w, header w, trailer w, prefix w),
   (maxlines w, maxsize w, daily w, hour w, rotate w)).

(** No limit of lines or size and no daily or hourly rotation: the zero
    values of the struct literal, or what the setters were given. *)
Definition quiet (w : FileLogWriter) : Prop :=
  maxlines w <= 0 /\ maxsize w <= 0 /\ daily w = false /\ hour w = false.

(** The records as [write] formats them, one after the other. *)
Fixpoint texts {pkg : Package} (w : FileLogWriter) (rs : list LogRecord) : string :=
  match rs with
  | [] => EmptyString
  | r :: rest => record_text w r +:+ texts w rest
  end.

(** What holds of a quiet log in every state reached without a rotate
    signal and without failures: every record given to [write] was
    accepted, and the session holds what it held at first followed by
    their texts; after [Close], the file holds that and the trailer. *)
Record quiet_inv {pkg : Package} (w0 : FileLogWriter) (p x0 : string) (s : System) : Prop := {
  qi_faults : no_faults (snd (heap s));
  qi_settings : settings (fst (heap s)) = settings w0;
  qi_accepted : accepted (handled s) = map fst (handled s);
  qi_stream : closer s <> CloseDone ->
              stream (heap s) p (x0 +:+ texts w0 (map fst (handled s)));
  qi_done : closer s = CloseDone ->
            exists t, fs (snd (heap s)) !! p
                      = Some (x0 +:+ texts w0 (map fst (handled s))
                              +:+ FormatLogRecord (trailer w0) (record_at t))
}.

(* ===================================================================== *)
(** ** Concrete packages, worlds and runs used in the examples *)
(* ===================================================================== *)

(** A formatter that prints the template, then the message, then a line
    break; the empty template prints nothing. *)
Definition demo_format (fmt : string) (r : LogRecord) : string :=
  match fmt with
  | EmptyString => EmptyString
  | _ => fmt +:+ Message r +:+ nl
  end.

Definition demo_pkg : Package :=
  {| FormatLogRecord := demo_format; LogBufferLength := 2 |}.

Definition noon : Time := time_Date 2024 3 1 12 0 0.

Definition demo_record (m : string) : LogRecord := mkRecord 0 noon "main" m.

(** A world with the given files in which no operation fails. *)
Definition quiet_world (files : gmap string string) (now : nat -> Time) : World :=
  mkWorld files [] [] now 0 (fun _ => None) 0.

Definition empty_state : St := (new_struct EmptyString false, quiet_world ∅ (fun _ => 0)).

(** [NewFileLogWriter] followed by configuration calls. *)
Definition set_up (fname : string) (rot : bool) (cfg : M unit) (e : World) : St :=
  match NewFileLogWriter (pkg := demo_pkg) fname rot e with
  | Some (Some w, e') =>
      match cfg (w, e') with
      | Some (_, s) => s
      | None => empty_state
      end
  | _ => empty_state
  end.

(** The state a run of commands ends in. *)
Definition after {A : Type} (m : M A) (s : St) : St :=
  match m s with
  | Some (_, s') => s'
  | None => empty_state
  end.

(** A directory in which app.log and 998 of its archives of the hour
    after noon exist. *)
Definition crowded_files : gmap string string :=
  foldr (fun k m => <[archive_name "app.log" noon (Z.of_nat k) := EmptyString]> m)
        {[ "app.log" := "old" ]} (seq 1 998).

(** A log writer with retention and a limit of one line opened over that
    directory (which takes the last free name) after its first record. *)
Definition full_state : St :=
  after (write (pkg := demo_pkg) (demo_record "first"))
        (set_up "app.log" true (SetFormat "> " ;; SetRotateLines 1)
           (quiet_world crowded_files (fun _ => noon))).

(** A log writer on a disk that takes no byte: the file opens, the first
    write to it fails. *)
Definition full_disk_world : World :=
  mkWorld ∅ [] [] (fun _ => noon) 0
          (fun k => if (k =? 1)%nat then Some "no space left on device" else None) 0.
Definition full_disk_state : St := set_up "app.log" false (SetFormat "> ") full_disk_world.

(** A record too long for the buffer. *)
Definition long_record : LogRecord := demo_record (zeros 5000).



Definition full_disk_after : St :=
  after (writer_on_rec (pkg := demo_pkg) long_record) full_disk_state.

(** The system a schedule leads to (the start when it is not enabled). *)
Definition system_after (evs : list Event) (s : System) : System :=
  match run (pkg := demo_pkg) evs s with
  | Some s' => s'
  | None => s
  end.


(** A log writer without limits on an empty directory. *)
Definition plain_state : St :=
  set_up "app.log" false (SetFormat "> ") (quiet_world ∅ (fun _ => noon)).

Definition rec_a : LogRecord := demo_record "a".
Definition rec_b : LogRecord := demo_record "b".

(** A producer sends [a], the relay takes it, [Close] is called and both
    goroutines see the closed channel (the relay puts [a] back at the
    front of the list), a producer sends [b], and [wg.Wait()] returns. *)
Definition closing_run : list Event :=
  [EvLogWrite rec_a; EvRelayRecv; EvClose; EvRelayClose; EvWriterClose;
   EvLogWrite rec_b; EvCloseStep].

Definition closing_system : System :=
  system_after closing_run (spawned (fst plain_state) (snd plain_state)).

Definition closed_system : System :=
  system_after (repeat EvCloseStep 5) closing_system.

(** Both goroutines running over the full directory of [full_state]. *)
Definition full_system : System := spawned (fst full_state) (snd full_state).


(** What a call added to the log of file operations. *)
Definition added (before after : St) : list Syscall :=
  drop (length (syslog (snd before))) (syslog (snd after)).

(** A log writer with retention and a limit of one line, on an empty
    directory at noon, after its first record. *)
Definition one_line_state : St :=
  after (write (pkg := demo_pkg) (demo_record "first"))
        (set_up "app.log" true (SetFormat "> " ;; SetRotateLines 1)
           (quiet_world ∅ (fun _ => noon))).


(** The caller of [Close] about to take [a] from the list, the limit of
    one line being reached. *)
Definition draining_system : System :=
  system_after
    [EvLogWrite rec_a; EvRelayRecv; EvClose; EvRelayClose; EvWriterClose;
     EvCloseStep; EvCloseStep]
    (spawned (fst one_line_state) (snd one_line_state)).

Definition drained_system : System := system_after [EvCloseStep] draining_system.

(** A log writer just opened on an empty directory. *)
Definition opened_state : St :=
  set_up "app.log" false (ret tt) (quiet_world ∅ (fun _ => noon)).




(** A log writer with retention and a limit of three lines, just opened
    on an empty directory at noon. *)
Definition three_lines_state : St :=
  set_up "app.log" true (SetFormat "> " ;; SetRotateLines 3) (quiet_world ∅ (fun _ => noon)).

(** Two records go through the relay to the writer loop, then [Close]
    runs to its end. *)
Definition two_records_run : list Event :=
  [EvLogWrite rec_a; EvRelayRecv; EvRelaySend; EvWriterRec;
   EvLogWrite rec_b; EvRelayRecv; EvRelaySend; EvWriterRec;
   EvClose; EvRelayClose; EvWriterClose;
   EvCloseStep; EvCloseStep; EvCloseStep; EvCloseStep].

Definition written_system : System :=
  system_after two_records_run (spawned (fst plain_state) (snd plain_state)).




(** The writer loop has seen the closed channel; the relay still runs. *)
Definition writer_gone_system : System :=
  system_after [EvClose; EvWriterClose] (spawned (fst plain_state) (snd plain_state)).

Definition writer_gone_later : System :=
  system_after [EvLogWrite rec_a; EvRelayRecv; EvRelaySend] writer_gone_system.

(** A log writer without retention, with a header and a trailer. *)
Definition framed_state : St :=
  set_up "app.log" false (SetFormat "> " ;; SetHeadFoot (pkg := demo_pkg) "== " "-- ")
         (quiet_world ∅ (fun _ => noon)).


(** A log writer with retention and a limit of five bytes. *)
Definition five_bytes_state : St :=
  set_up "app.log" true (SetFormat "> " ;; SetRotateSize 5) (quiet_world ∅ (fun _ => noon)).

(** A record sent after [Close] has returned. *)
Definition late_system : System := system_after [EvLogWrite rec_a] written_system.

(** A clock that reads noon on 15 January 2024 once and noon on
    15 February 2024 from then on, and a log writer with daily rotation
    opened at its first reading. *)
Definition month_clock (k : nat) : Time :=
  if (k <? 1)%nat then time_Date 2024 1 15 12 0 0 else time_Date 2024 2 15 12 0 0.

Definition monthly_state : St :=
  set_up "app.log" true (SetFormat "> " ;; SetRotateDaily true) (quiet_world ∅ month_clock).

Definition monthly_after : St :=
  after (write (pkg := demo_pkg) (demo_record "first")) monthly_state.

(* ===================================================================== *)
(** ** Facts about strings and commands *)
(* ===================================================================== *)

Lemma str_app_nil_r (s : string) : s +:+ EmptyString = s.
Proof.
  induction s as [|c s IH]; [reflexivity|].
  change (String c (s +:+ EmptyString) = String c s). by rewrite IH.
Qed.

Lemma str_app_assoc (a b c : string) : (a +:+ b) +:+ c = a +:+ (b +:+ c).
Proof.
  induction a as [|x a IH]; [reflexivity|].
  change (String x ((a +:+ b) +:+ c) = String x (a +:+ (b +:+ c))). by rewrite IH.
Qed.

Lemma str_length_app (a b : string) :
  String.length (a +:+ b) = (String.length a + String.length b)%nat.
Proof.
  induction a as [|x a IH]; [reflexivity|].
  change (S (String.length (a +:+ b)) = S (String.length a + String.length b)). by rewrite IH.
Qed.

Lemma str_take_drop (n : nat) (s : string) : str_take n s +:+ str_drop n s = s.
Proof.
  revert s; induction n as [|n IH]; intros [|c s]; try reflexivity.
  change (String c (str_take n s +:+ str_drop n s) = String c s). by rewrite IH.
Qed.

Lemma str_length_drop (n : nat) (s : string) :
  String.length (str_drop n s) = (String.length s - n)%nat.
Proof. revert s; induction n as [|n IH]; intros [|c s]; simpl; auto. Qed.

Lemma str_length_0 (s : string) : String.length s = 0%nat -> s = EmptyString.
Proof. by destruct s. Qed.

Lemma bind_Some {A B : Type} (m : M A) (k : A -> M B) (s : St) (r : B * St) :
  bind m k s = Some r <-> exists a s1, m s = Some (a, s1) /\ k a s1 = Some r.
Proof.
  unfold bind. split.
  - destruct (m s) as [[a s1]|]; [eauto|discriminate].
  - intros (a & s1 & -> & H). exact H.
Qed.

Lemma set_bufW_id (w : FileLogWriter) : set_bufW (bufW w) w = w.
Proof. by destruct w. Qed.

Lemma set_bufW_twice (a b : option Writer) (w : FileLogWriter) :
  set_bufW a (set_bufW b w) = set_bufW a w.
Proof. reflexivity. Qed.


Lemma bufio_step_refl (s : St) : bufio_step s s.
Proof.
  split; auto.
  - by rewrite set_bufW_id.
  - exists []. by rewrite app_nil_r.
Qed.

Lemma bufio_step_trans (s1 s2 s3 : St) :
  bufio_step s1 s2 -> bufio_step s2 s3 -> bufio_step s1 s3.
Proof.
  intros [w1 lv1 c1 t1 f1 e1 o1 (l1 & y1 & z1) x1 k1] [w2 lv2 c2 t2 f2 e2 o2 (l2 & y2 & z2) x2 k2].
  split; try congruence; auto.
  - rewrite w2, w1. reflexivity.
  - lia.
  - exists (l1 ++ l2). rewrite y2, y1, app_assoc. split; [done|]. by apply Forall_app.
  - intros q Hq. rewrite x2, x1; auto. by rewrite w1.
Qed.

Lemma bufio_step_set_bufW (v : option Writer) (w : FileLogWriter) (e : World) :
  is_Some v -> bufio_step (w, e) (set_bufW v w, e).
Proof.
  intros Hv. split; simpl; auto.
  exists []. by rewrite app_nil_r.
Qed.

Lemma file_Write_step (p : string) (s s' : St) (r : option string) :
  file_Write p s = Some (r, s') -> bufio_step s s'.
Proof.
  destruct s as [w e]. unfold file_Write, bind, get_w; simpl.
  destruct (file w) as [f|] eqn:Hf; [|discriminate].
  destruct (f_closed f).
  - intros [= <- <-]. apply bufio_step_refl.
  - unfold next_fault, get_world, modify_world, log_syscall, ret, bind; simpl.
    destruct (fault e (ops e)); intros [= <- <-]; split; simpl; auto;
      try (by rewrite set_bufW_id); try lia;
      try (eexists [_]; split; [reflexivity|by repeat constructor]).
    + intros q Hq. apply lookup_insert_ne. unfold session_path in Hq. rewrite Hf in Hq.
      simpl in Hq. congruence.
    + intros q Hq. destruct (decide (f_path f = q)) as [->|Hne].
      * rewrite lookup_insert_eq. eauto.
      * by rewrite lookup_insert_ne.
Qed.

Lemma bufW_Flush_step (s s' : St) (r : option string) :
  bufW_Flush s = Some (r, s') -> bufio_step s s'.
Proof.
  destruct s as [w e]. unfold bufW_Flush. unfold bind at 1, get_w; simpl.
  destruct (bufW w) as [b|] eqn:Hb; [|discriminate].
  destruct (werr b).
  { intros [= <- <-]. apply bufio_step_refl. }
  destruct (String.length (wbuf b) =? 0)%nat.
  { intros [= <- <-]. apply bufio_step_refl. }
  intros H. apply bind_Some in H as (a & [w1 e1] & H1 & H).
  apply file_Write_step in H1.
  eapply bufio_step_trans; [exact H1|].
  destruct a; unfold bind, modify_w, ret in H; simpl in H; injection H as <- <-;
    by apply bufio_step_set_bufW.
Qed.

Lemma WriteString_loop_unfold (fuel : nat) (s : string) (nn : Z) (st : St) :
  WriteString_loop fuel s nn st =
  match bufW (fst st) with
  | None => None
  | Some b =>
      let avail := (MaxBufWriteSize - String.length (wbuf b))%nat in
      if (avail <? String.length s)%nat && negb (bool_decide (is_Some (werr b))) then
        match fuel with
        | O => None
        | S k =>
            match bufW_Flush (set_bufW (Some (mkWriter (wbuf b +:+ str_take avail s) (werr b)))
                                       (fst st), snd st) with
            | Some (_, st1) => WriteString_loop k (str_drop avail s) (nn + Z.of_nat avail) st1
            | None => None
            end
        end
      else
        match werr b with
        | Some msg => Some ((nn, Some msg), st)
        | None =>
            Some ((nn + Z.of_nat (String.length s), None),
                  (set_bufW (Some (mkWriter (wbuf b +:+ s) None)) (fst st), snd st))
        end
  end.
Proof.
  destruct st as [w e].
  destruct fuel; cbn [WriteString_loop]; unfold bind at 1, get_w; cbn [fst snd];
    (destruct (bufW w) as [b|]; [|reflexivity]);
    cbv zeta; destruct (_ && _); try reflexivity;
    destruct (werr b); reflexivity.
Qed.

Lemma WriteString_loop_step (fuel : nat) :
  forall (s : string) (nn : Z) (st st' : St) (r : Z * option string),
    WriteString_loop fuel s nn st = Some (r, st') -> bufio_step st st'.
Proof.
  induction fuel as [|k IH]; intros s nn [w e] st' r; rewrite WriteString_loop_unfold;
    cbn [fst snd]; (destruct (bufW w) as [b|] eqn:Hb; [|discriminate]);
    cbv zeta; destruct (_ && _).
  - discriminate.
  - destruct (werr b); intros [= <- <-];
      [apply bufio_step_refl|by apply bufio_step_set_bufW].
  - destruct (bufW_Flush _) as [[r1 s1]|] eqn:Hfl; [|discriminate].
    intros H. apply bufW_Flush_step in Hfl. apply IH in H.
    eapply bufio_step_trans; [|eapply bufio_step_trans; [exact Hfl|exact H]].
    by apply bufio_step_set_bufW.
  - destruct (werr b); intros [= <- <-];
      [apply bufio_step_refl|by apply bufio_step_set_bufW].
Qed.

Lemma bufW_WriteString_step (s : string) (st st' : St) (r : Z * option string) :
  bufW_WriteString s st = Some (r, st') -> bufio_step st st'.
Proof. apply WriteString_loop_step. Qed.

(** *** The buffered writer never panics on a log writer that has a session *)


Lemma bufio_step_live (s s' : St) : bufio_step s s' -> live (fst s) -> live (fst s').
Proof.
  intros H [Hf Hb]. split.
  - rewrite (bio_w _ _ H). exact Hf.
  - by apply (bio_live _ _ H).
Qed.

Lemma file_Write_total (p : string) (s : St) :
  is_Some (file (fst s)) -> exists r s', file_Write p s = Some (r, s').
Proof.
  destruct s as [w e]. intros [f Hf]. simpl in Hf.
  unfold file_Write, bind, get_w; simpl. rewrite Hf.
  destruct (f_closed f); [by eauto|].
  unfold next_fault, get_world, modify_world, log_syscall, ret, bind; simpl.
  destruct (fault e (ops e)); eauto.
Qed.

Lemma bufW_Flush_total (s : St) :
  live (fst s) -> exists r s', bufW_Flush s = Some (r, s').
Proof.
  destruct s as [w e]. intros [Hf [b Hb]]. simpl in Hf, Hb.
  unfold bufW_Flush. unfold bind at 1, get_w; simpl. rewrite Hb.
  destruct (werr b); [by eauto|].
  destruct (String.length (wbuf b) =? 0)%nat; [by eauto|].
  destruct (file_Write_total (wbuf b) (w, e) Hf) as (r & s' & Hw).
  unfold bind at 1. rewrite Hw. destruct r; unfold bind, modify_w, ret; simpl; eauto.
Qed.

(** After a flush the buffer is empty or the writer holds an error. *)
Lemma bufW_Flush_after (s s' : St) (r : option string) :
  bufW_Flush s = Some (r, s') ->
  exists b', bufW (fst s') = Some b' /\
    (is_Some (werr b') \/ wbuf b' = EmptyString).
Proof.
  destruct s as [w e]. unfold bufW_Flush. unfold bind at 1, get_w; simpl.
  destruct (bufW w) as [b|] eqn:Hb; [|discriminate].
  destruct (werr b) eqn:He.
  { intros [= <- <-]. exists b. rewrite He. eauto. }
  destruct (String.length (wbuf b) =? 0)%nat eqn:Hl.
  { intros [= <- <-]. exists b. split; [done|]. right.
    apply str_length_0. by apply Nat.eqb_eq. }
  intros H. apply bind_Some in H as (a & [w1 e1] & H1 & H).
  destruct a; unfold bind, modify_w, ret in H; simpl in H; injection H as <- <-;
    simpl; eauto.
Qed.

Lemma WriteString_loop_total_empty (fuel : nat) :
  forall (s : string) (nn : Z) (st : St) (b : Writer),
    live (fst st) -> bufW (fst st) = Some b ->
    is_Some (werr b) \/ (wbuf b = EmptyString /\ (String.length s < fuel + MaxBufWriteSize)%nat) ->
    exists r st', WriteString_loop fuel s nn st = Some (r, st').
Proof.
  induction fuel as [|k IH]; intros s nn [w e] b Hlive Hb Hc; cbn [fst] in Hb;
    rewrite WriteString_loop_unfold; cbn [fst snd]; rewrite Hb; cbv zeta.
  - destruct Hc as [[m Hm]|[Hw Hl]].
    + rewrite Hm. rewrite andb_false_r. by eauto.
    + rewrite Hw. replace (_ <? _)%nat with false.
      2:{ symmetry. apply Nat.ltb_ge. change (String.length EmptyString) with 0%nat.
          unfold MaxBufWriteSize in *. lia. }
      cbn [andb]. destruct (werr b); eauto.
  - destruct (_ && _) eqn:Hcond.
    2:{ destruct (werr b); eauto. }
    apply andb_true_iff in Hcond as [Hlt Hne].
    destruct Hc as [[m Hm]|[Hw Hl]].
    { rewrite Hm in Hne. by vm_compute in Hne. }
    rewrite Hw in *. apply Nat.ltb_lt in Hlt.
    set (w1 := set_bufW _ w).
    assert (Hl1 : live w1) by (destruct Hlive; split; simpl; eauto).
    destruct (bufW_Flush_total (w1, e) Hl1) as (r1 & s1 & Hf).
    rewrite Hf.
    destruct (bufW_Flush_after _ _ _ Hf) as (b' & Hb' & Hc').
    apply (IH _ _ s1 b'); auto.
    + eapply (bufio_step_live (w1, e)); [by eapply bufW_Flush_step|done].
    + destruct Hc' as [?|?]; [by left|right]. split; [done|].
      rewrite str_length_drop. change (String.length EmptyString) with 0%nat in *.
      unfold MaxBufWriteSize in *. lia.
Qed.

Lemma bufW_WriteString_total (s : string) (st : St) :
  live (fst st) -> exists r st', bufW_WriteString s st = Some (r, st').
Proof.
  destruct st as [w e]. intros Hlive. destruct (Hlive) as [Hf [b Hb]]. cbn [fst] in Hf, Hb.
  unfold bufW_WriteString. rewrite WriteString_loop_unfold. cbn [fst snd]. rewrite Hb. cbv zeta.
  destruct (_ && _).
  2:{ destruct (werr b); eauto. }
  set (w1 := set_bufW _ w).
  assert (Hl1 : live w1) by (split; simpl; eauto).
  destruct (bufW_Flush_total (w1, e) Hl1) as (r1 & s1 & Hfl).
  rewrite Hfl.
  destruct (bufW_Flush_after _ _ _ Hfl) as (b' & Hb' & Hc').
  apply (WriteString_loop_total_empty _ _ _ s1 b'); auto.
  - eapply (bufio_step_live (w1, e)); [by eapply bufW_Flush_step|done].
  - destruct Hc' as [?|?]; [by left|right]. split; [done|].
    rewrite str_length_drop. lia.
Qed.

(** *** The buffered writer when no file operation fails *)


Lemma session_live (s : St) (p d b : string) : session s p d b -> live (fst s).
Proof. intros (Hf & Hb & _). split; eauto. Qed.

Lemma file_Write_ok (x : string) (w : FileLogWriter) (e : World) (p d b : string) :
  session (w, e) p d b -> no_faults e ->
  exists e', file_Write x (w, e) = Some (None, (w, e')) /\
             fs e' = <[p := d +:+ x]> (fs e).
Proof.
  intros (Hf & Hb & Hd) Hnf. cbn [fst snd] in *.
  unfold file_Write, bind, get_w; cbn [fst snd]. rewrite Hf. cbn [f_closed f_path].
  unfold next_fault, get_world, modify_world, log_syscall, ret, bind; cbn [fst snd].
  rewrite Hnf. eexists. split; [reflexivity|]. cbn [fs set_fs set_syslog set_ops].
  unfold contents. by rewrite Hd.
Qed.

Lemma bufW_Flush_ok (w : FileLogWriter) (e : World) (p d b : string) :
  session (w, e) p d b -> no_faults e ->
  exists e', bufW_Flush (w, e) = Some (None, (set_bufW (Some (mkWriter EmptyString None)) w, e')) /\
             fs e' = <[p := d +:+ b]> (fs e).
Proof.
  intros Hs Hnf. destruct (Hs) as (Hf & Hb & Hd). cbn [fst snd] in *.
  unfold bufW_Flush. unfold bind at 1, get_w; cbn [fst snd]. rewrite Hb. cbn [werr wbuf].
  destruct (String.length b =? 0)%nat eqn:Hl.
  - apply Nat.eqb_eq, str_length_0 in Hl. subst b. exists e. split.
    + unfold ret. rewrite <- Hb. by rewrite set_bufW_id.
    + rewrite str_app_nil_r. symmetry. by apply insert_id.
  - destruct (file_Write_ok b w e p d b Hs Hnf) as (e' & Hw & Hfs).
    exists e'. unfold bind at 1. rewrite Hw. split; [reflexivity|exact Hfs].
Qed.

Lemma WriteString_loop_ok (fuel : nat) :
  forall (s : string) (nn : Z) (w : FileLogWriter) (e : World) (p d b : string)
         (r : Z * option string) (st' : St),
    session (w, e) p d b -> no_faults e ->
    WriteString_loop fuel s nn (w, e) = Some (r, st') ->
    exists d' b',
      r = (nn + Z.of_nat (String.length s), None) /\
      fst st' = set_bufW (Some (mkWriter b' None)) w /\
      fs (snd st') = <[p := d']> (fs e) /\
      d' +:+ b' = d +:+ b +:+ s.
Proof.
  induction fuel as [|k IH]; intros s nn w e p d b r st' Hs Hnf;
    destruct (Hs) as (Hf & Hb & Hd); cbn [fst snd] in *;
    rewrite WriteString_loop_unfold; cbn [fst snd]; rewrite Hb; cbn [werr wbuf]; cbv zeta;
    destruct (_ && _) eqn:Hcond; try discriminate.
  - intros [= <- <-]. exists d, (b +:+ s). cbn [fst snd]. repeat split.
    symmetry. by apply insert_id.
  - set (avail := (MaxBufWriteSize - String.length b)%nat) in *.
    set (w1 := set_bufW _ w).
    assert (Hs1 : session (w1, e) p d (b +:+ str_take avail s)) by (by repeat split).
    destruct (bufW_Flush_ok _ _ _ _ _ Hs1 Hnf) as (e1 & Hfl & Hfs1).
    rewrite Hfl. intros H.
    assert (Hs2 : session (set_bufW (Some (mkWriter EmptyString None)) w1, e1) p
                    (d +:+ (b +:+ str_take avail s)) EmptyString).
    { repeat split; [exact Hf|]. cbn [snd]. rewrite Hfs1. apply lookup_insert_eq. }
    assert (Hnf1 : no_faults e1).
    { intros j. apply bufW_Flush_step in Hfl. pose proof (bio_fault _ _ Hfl) as Hflt.
      cbn [snd] in Hflt. rewrite Hflt. apply Hnf. }
    destruct (IH _ _ _ _ _ _ _ _ _ Hs2 Hnf1 H) as (d' & b' & -> & Hw' & Hfs' & Happ).
    exists d', b'. repeat split.
    + f_equal. apply andb_true_iff in Hcond as [Hlt _]. apply Nat.ltb_lt in Hlt.
      rewrite str_length_drop. lia.
    + exact Hw'.
    + rewrite Hfs', Hfs1. apply insert_insert_eq.
    + rewrite Happ. rewrite !str_app_assoc. cbn [fst]. f_equal. f_equal.
      change (EmptyString +:+ str_drop avail s) with (str_drop avail s).
      apply str_take_drop.
  - intros [= <- <-]. exists d, (b +:+ s). cbn [fst snd]. repeat split.
    symmetry. by apply insert_id.
Qed.

(** With no fault the buffered writer takes all of [s]: what the file
    holds plus what is buffered grows by exactly [s]. *)
Lemma bufW_WriteString_ok (s : string) (w : FileLogWriter) (e : World) (p d b : string) :
  session (w, e) p d b -> no_faults e ->
  exists d' b' e',
    bufW_WriteString s (w, e)
      = Some ((Z.of_nat (String.length s), None), (set_bufW (Some (mkWriter b' None)) w, e')) /\
    fs e' = <[p := d']> (fs e) /\
    d' +:+ b' = d +:+ b +:+ s /\
    bufio_step (w, e) (set_bufW (Some (mkWriter b' None)) w, e').
Proof.
  intros Hs Hnf.
  destruct (bufW_WriteString_total s (w, e) (session_live _ _ _ _ Hs)) as (r & [w' e'] & H).
  pose proof (bufW_WriteString_step _ _ _ _ H) as Hstep.
  destruct (WriteString_loop_ok _ _ _ _ _ _ _ _ _ _ Hs Hnf H) as (d' & b' & -> & Hw & Hfs & Happ).
  cbn [fst snd] in *. subst w'. exists d', b', e'. split; [exact H|]. split; [exact Hfs|]. split; [exact Happ|exact Hstep].
Qed.

(** *** Rotations as seen in the log of file operations *)


Lemma opens_app (l1 l2 : list Syscall) : opens (l1 ++ l2) = (opens l1 + opens l2)%nat.
Proof. unfold opens. by rewrite omap_app, length_app. Qed.

Lemma renames_app (l1 l2 : list Syscall) : renames (l1 ++ l2) = renames l1 ++ renames l2.
Proof. unfold renames. apply omap_app. Qed.

Lemma writes_no_opens (l : list Syscall) : Forall is_SysWrite l -> opens l = 0%nat.
Proof.
  induction 1 as [|c l Hc _ IH]; [reflexivity|].
  destruct c; done.
Qed.

Lemma writes_no_renames (l : list Syscall) : Forall is_SysWrite l -> renames l = [].
Proof.
  induction 1 as [|c l Hc _ IH]; [reflexivity|].
  destruct c; done.
Qed.

Lemma bufio_step_opens (s s' : St) :
  bufio_step s s' -> opens (syslog (snd s')) = opens (syslog (snd s)).
Proof.
  intros H. destruct (bio_syslog _ _ H) as (l & -> & Hl).
  rewrite opens_app, (writes_no_opens _ Hl). lia.
Qed.

Lemma bufio_step_renames (s s' : St) :
  bufio_step s s' -> renames (syslog (snd s')) = renames (syslog (snd s)).
Proof.
  intros H. destruct (bio_syslog _ _ H) as (l & -> & Hl).
  by rewrite renames_app, (writes_no_renames _ Hl), app_nil_r.
Qed.

Lemma bufio_step_no_faults (s s' : St) :
  bufio_step s s' -> no_faults (snd s) -> no_faults (snd s').
Proof. intros H Hnf k. rewrite (bio_fault _ _ H). apply Hnf. Qed.


Lemma bufio_step_config (s s' : St) : bufio_step s s' -> config (fst s') = config (fst s).
Proof. intros H. by rewrite (bio_w _ _ H). Qed.

Lemma bufio_step_counts (s s' : St) :
  bufio_step s s' -> counts (fst s') = counts (fst s) /\ opendate (fst s') = opendate (fst s)
                     /\ file (fst s') = file (fst s).
Proof. intros H. by rewrite (bio_w _ _ H). Qed.


(** *** [closeFile] *)

Section MethodFacts.
Context {pkg : Package}.

Lemma time_Now_eq (w : FileLogWriter) (e : World) :
  time_Now (w, e) = Some (clock e (ticks e), (w, set_ticks (S (ticks e)) e)).
Proof. reflexivity. Qed.

Lemma report_eq (msg : string) (w : FileLogWriter) (e : World) :
  report msg (w, e) = Some (tt, (w, set_stderr (stderr e ++ [report_line w msg]) e)).
Proof. reflexivity. Qed.

Lemma closeFile_nil (w : FileLogWriter) (e : World) :
  file w = None -> closeFile (w, e) = Some (tt, (w, e)).
Proof. intros H. unfold closeFile, bind, get_w; cbn [fst snd]. by rewrite H. Qed.

(** What [closeFile] does on a handle [f], whatever fails on the way. *)
Lemma closeFile_effect (w w' : FileLogWriter) (e e' : World) (f : File) :
  file w = Some f ->
  closeFile (w, e) = Some (tt, (w', e')) ->
  exists s1 : St,
    bufio_step (w, set_ticks (S (ticks e)) e) s1 /\
    w' = set_file (Some (mkFile (f_path f) true)) (fst s1) /\
    (exists l, stderr e' = stderr (snd s1) ++ l) /\
    fs e' = fs (snd s1) /\ clock e' = clock (snd s1) /\ fault e' = fault (snd s1) /\
    ticks e' = ticks (snd s1) /\
    syslog e' = syslog (snd s1) ++ (if f_closed f then [] else [SysClose (f_path f)]).
Proof.
  intros Hf. unfold closeFile. unfold bind at 1, get_w; cbn [fst snd]. rewrite Hf.
  unfold bind at 1. rewrite time_Now_eq.
  intros H. apply bind_Some in H as (r & s1 & HW & H).
  apply bufW_WriteString_step in HW.
  apply bind_Some in H as (err & s2 & HF & H).
  assert (Hs2 : bufio_step s1 s2).
  { destruct (snd r); [|by eapply bufW_Flush_step].
    injection HF as <- <-. apply bufio_step_refl. }
  apply bind_Some in H as (u & [w3 e3] & HR & H).
  pose proof (bufio_step_trans _ _ _ HW Hs2) as H12.
  assert (Hf2 : file (fst s2) = Some f).
  { destruct (bufio_step_counts _ _ H12) as (_ & _ & ->). exact Hf. }
  assert (H3 : w3 = fst s2 /\ (exists l, stderr e3 = stderr (snd s2) ++ l) /\ fs e3 = fs (snd s2) /\
               clock e3 = clock (snd s2) /\ fault e3 = fault (snd s2) /\ ticks e3 = ticks (snd s2) /\
               syslog e3 = syslog (snd s2)).
  { destruct s2 as [w2 e2]. destruct err.
    - rewrite report_eq in HR. injection HR as ? ?; subst. cbn. repeat split; eauto.
    - injection HR as ? ?; subst. repeat split; auto. exists []. by rewrite app_nil_r. }
  destruct H3 as (-> & Herr & Hfs & Hcl & Hfl & Htk & Hsl).
  exists s2. split; [exact H12|].
  unfold file_Close, bind, get_w in H; cbn [fst snd] in H. rewrite Hf2 in H.
  destruct (f_closed f); unfold ret, log_syscall, modify_world, modify_w in H; cbn [fst snd] in H;
    injection H as <- <-; cbn; rewrite ?app_nil_r, ?Hsl; repeat split; auto.
Qed.

Lemma closeFile_total (s : St) : live (fst s) -> exists s', closeFile s = Some (tt, s').
Proof.
  destruct s as [w e]. intros Hlive. destruct (Hlive) as [[f Hf] _]. cbn [fst] in *.
  unfold closeFile. unfold bind at 1, get_w; cbn [fst snd]. rewrite Hf.
  unfold bind at 1. rewrite time_Now_eq.
  destruct (bufW_WriteString_total (FormatLogRecord (trailer w) (record_at (clock e (ticks e))))
              (w, set_ticks (S (ticks e)) e) Hlive) as (r & s1 & HW).
  unfold bind at 1. rewrite HW.
  pose proof (bufio_step_live _ _ (bufW_WriteString_step _ _ _ _ HW) Hlive) as Hl1.
  assert (exists err s2, (match snd r with None => bufW_Flush | Some msg => ret (Some msg) end) s1
                         = Some (err, s2) /\ live (fst s2)) as (err & s2 & HF & Hl2).
  { destruct (snd r).
    - eexists _, _. split; [reflexivity|done].
    - destruct (bufW_Flush_total s1 Hl1) as (err & s2 & HF). exists err, s2. split; [done|].
      eapply bufio_step_live; [by eapply bufW_Flush_step|done]. }
  unfold bind at 1. rewrite HF.
  assert (exists s3, (match err with Some msg => report msg | None => ret tt end) s2 = Some (tt, s3)
                     /\ fst s3 = fst s2) as (s3 & HR & Hw3).
  { destruct s2 as [w2 e2]. destruct err; [rewrite report_eq|]; eexists; split; reflexivity. }
  unfold bind at 1. rewrite HR.
  unfold file_Close, bind, get_w; cbn [fst snd]. rewrite Hw3.
  destruct Hl2 as [[f2 ->] _].
  destruct (f_closed f2); unfold ret, log_syscall, modify_world, modify_w; cbn [fst snd]; eauto.
Qed.

(** *** The search for a free archive name *)

Lemma find_free_loop_spec (files : gmap string string) (p : string) (t : Time) (fuel : nat) :
  forall (num : Z) (fname : string),
    num + Z.of_nat fuel = 1000 ->
    let res := find_free_loop files p t fuel num fname true in
    if snd res then
      forall k, num <= k <= 999 -> Lstat_ok files (archive_name p t k) = true
    else
      exists k, num <= k <= 999 /\ fst res = archive_name p t k /\
                Lstat_ok files (archive_name p t k) = false /\
                forall j, num <= j < k -> Lstat_ok files (archive_name p t j) = true.
Proof.
  induction fuel as [|n IH]; intros num fname Hn; cbn [find_free_loop].
  - cbn [snd]. intros k Hk. lia.
  - replace (num <=? 999) with true by (symmetry; apply Z.leb_le; lia).
    cbn [andb]. destruct (Lstat_ok files (archive_name p t num)) eqn:Hl.
    + assert (Hn' : (num + 1) + Z.of_nat n = 1000) by lia.
      specialize (IH (num + 1) (archive_name p t num) Hn'). cbv zeta in IH.
      destruct (snd (find_free_loop _ _ _ _ _ _ _)).
      * intros k Hk. destruct (decide (k = num)) as [->|]; [done|]. apply IH. lia.
      * destruct IH as (k & Hk & Hfst & Hfree & Hmin). exists k. repeat split; auto; try lia.
        intros j Hj. destruct (decide (j = num)) as [->|]; [done|]. apply Hmin. lia.
    + destruct n; cbn [find_free_loop andb fst snd];
        (exists num; repeat split; auto; try lia).
Qed.

(** [find_free] reports failure exactly when the 999 names all exist;
    otherwise it yields the name with the smallest free number. *)
Lemma find_free_spec (files : gmap string string) (p : string) (t : Time) :
  if snd (find_free files p t) then
    forall k, 1 <= k <= 999 -> Lstat_ok files (archive_name p t k) = true
  else
    exists k, 1 <= k <= 999 /\ fst (find_free files p t) = archive_name p t k /\
              Lstat_ok files (archive_name p t k) = false /\
              forall j, 1 <= j < k -> Lstat_ok files (archive_name p t j) = true.
Proof. apply (find_free_loop_spec files p t 999 1 EmptyString). reflexivity. Qed.

(** More fuel than 999 changes nothing: the bound is in the loop test. *)
Lemma find_free_loop_fuel (files : gmap string string) (p : string) (t : Time) (extra : nat) :
  find_free_loop files p t (999 + extra) 1 EmptyString true = find_free files p t.
Proof.
  unfold find_free.
  assert (H : forall fuel num fname b, num + Z.of_nat fuel = 1000 ->
            find_free_loop files p t (fuel + extra) num fname b
            = find_free_loop files p t fuel num fname b).
  { induction fuel as [|n IH]; intros num fname b Hn.
    - cbn [Nat.add find_free_loop]. destruct extra; [reflexivity|]. cbn [find_free_loop].
      replace (num <=? 999) with false by (symmetry; apply Z.leb_gt; lia).
      by rewrite andb_false_r.
    - cbn [Nat.add find_free_loop]. destruct (b && _); [|reflexivity]. apply IH. lia. }
  apply H. reflexivity.
Qed.

Lemma closeFile_facts (w w1 : FileLogWriter) (e e1 : World) (f : File) :
  file w = Some f -> is_Some (bufW w) ->
  closeFile (w, e) = Some (tt, (w1, e1)) ->
  w1 = set_file (Some (mkFile (f_path f) true)) (set_bufW (bufW w1) w) /\
  is_Some (bufW w1) /\
  clock e1 = clock e /\ fault e1 = fault e /\ ticks e1 = S (ticks e) /\
  (exists l, stderr e1 = stderr e ++ l) /\
  (exists l, syslog e1 = syslog e ++ l /\ opens l = 0%nat /\ renames l = []) /\
  (forall q, is_Some (fs e !! q) -> is_Some (fs e1 !! q)) /\
  (forall q, f_path f <> q -> fs e1 !! q = fs e !! q).
Proof.
  intros Hf Hb H.
  destruct (closeFile_effect _ _ _ _ _ Hf H)
    as ([w2 e2] & Hstep & -> & Herr & Hfs & Hcl & Hfl & Htk & Hsl).
  cbn [fst snd] in *.
  destruct Hstep as [Hw2 Hlv Hc2 Ht2 Hf2 He2 _ (l & Hl & HlW) Hx2 Hk2]. cbn [fst snd] in *.
  repeat split.
  - rewrite Hw2 at 1. reflexivity.
  - by apply Hlv.
  - by rewrite Hcl.
  - by rewrite Hfl.
  - by rewrite Htk.
  - destruct Herr as (l' & ->). rewrite He2. eauto.
  - eexists. rewrite Hsl, Hl, <- app_assoc. split; [reflexivity|].
    rewrite opens_app, renames_app, (writes_no_opens _ HlW), (writes_no_renames _ HlW).
    by destruct (f_closed f).
  - intros q Hq. rewrite Hfs. by apply Hk2.
  - intros q Hq. rewrite Hfs. apply Hx2. unfold session_path.
    rewrite Hf. cbn. congruence.
Qed.


Lemma newFile_effect (fd : File) (now : Time) (w w' : FileLogWriter) (e e' : World) :
  newFile fd now (w, e) = Some (tt, (w', e')) ->
  bufio_step (set_file (Some fd) (set_bufW (Some (mkWriter EmptyString None)) w), e) (w', e').
Proof.
  unfold newFile. unfold bind at 1 2 3, modify_w, get_w; cbn [fst snd].
  intros H. apply bind_Some in H as (r & s1 & HW & H). injection H as <-.
  by apply bufW_WriteString_step in HW.
Qed.

Lemma newFile_total (fd : File) (now : Time) (s : St) :
  exists s', newFile fd now s = Some (tt, s').
Proof.
  destruct s as [w e].
  unfold newFile. unfold bind at 1 2 3, modify_w, get_w; cbn [fst snd].
  match goal with |- context [bind (bufW_WriteString ?x) _ ?s] =>
    destruct (bufW_WriteString_total x s) as (r & s1 & HW) end.
  { split; cbn; eauto. }
  unfold bind at 1. rewrite HW. unfold ret. eauto.
Qed.

Lemma archive_old_effect (t : Time) (w w' : FileLogWriter) (e e' : World) (aerr : option string) :
  archive_old t (w, e) = Some (aerr, (w', e')) ->
  w' = w /\ clock e' = clock e /\ fault e' = fault e /\ ticks e' = ticks e /\
  stderr e' = stderr e /\
  exists l, syslog e' = syslog e ++ l /\ opens l = 0%nat /\
    (renames l = [] \/
     exists k, 1 <= k <= 999 /\ aerr = None /\
               renames l = [(filename w, archive_name (filename w) t k)]).
Proof.
  unfold archive_old. unfold bind at 1, get_w; cbn [fst snd].
  destruct (rotate w).
  2:{ intros [= <- <- <-]. repeat split. exists []. rewrite app_nil_r. auto. }
  unfold bind at 1, get_world; cbn [fst snd].
  destruct (Lstat_ok (fs e) (filename w)).
  2:{ intros [= <- <- <-]. repeat split. exists []. rewrite app_nil_r. auto. }
  pose proof (find_free_spec (fs e) (filename w) t) as Hff.
  destruct (snd (find_free (fs e) (filename w) t)).
  { intros [= <- <- <-]. repeat split. exists []. rewrite app_nil_r. auto. }
  destruct Hff as (k & Hk & Hname & _).
  unfold os_Rename, next_fault, log_syscall, bind, get_world, modify_world, ret; cbn [fst snd].
  destruct (fault e (ops e)); cbn [fst snd fs set_ops].
  { intros [= <- <- <-]. repeat split. eexists [_]. split; [reflexivity|]. auto. }
  destruct (fs e !! filename w).
  - intros [= <- <- <-]. repeat split. eexists [_]. split; [reflexivity|]. split; [done|].
    right. exists k. rewrite Hname. auto.
  - intros [= <- <- <-]. repeat split. eexists [_]. split; [reflexivity|]. auto.
Qed.

Lemma os_OpenFile_effect (p : string) (w w' : FileLogWriter) (e e' : World) (r : File + string) :
  os_OpenFile p (w, e) = Some (r, (w', e')) ->
  w' = w /\ clock e' = clock e /\ fault e' = fault e /\ ticks e' = ticks e /\
  stderr e' = stderr e /\
  match r with
  | inl fd => fd = mkFile p false /\ syslog e' = syslog e ++ [SysOpen p true]
  | inr _ => syslog e' = syslog e ++ [SysOpen p false] /\ fs e' = fs e
  end.
Proof.
  unfold os_OpenFile, next_fault, log_syscall, bind, get_world, modify_world, ret; cbn [fst snd].
  destruct (fault e (ops e)); intros [= <- <- <-]; by repeat split.
Qed.

Lemma archive_old_total (t : Time) (s : St) : exists r s', archive_old t s = Some (r, s').
Proof.
  destruct s as [w e].
  unfold archive_old. unfold bind at 1, get_w; cbn [fst snd].
  destruct (rotate w); [|by eauto].
  unfold bind at 1, get_world; cbn [fst snd].
  destruct (Lstat_ok (fs e) (filename w)); [|by eauto].
  destruct (snd (find_free _ _ _)); [by eauto|].
  unfold os_Rename, next_fault, log_syscall, bind, get_world, modify_world, ret; cbn [fst snd].
  destruct (fault e (ops e)); cbn [fst snd fs set_ops]; [by eauto|].
  destruct (fs e !! filename w); eauto.
Qed.

Lemma os_OpenFile_total (p : string) (s : St) : exists r s', os_OpenFile p s = Some (r, s').
Proof.
  destruct s as [w e].
  unfold os_OpenFile, next_fault, log_syscall, bind, get_world, modify_world, ret; cbn [fst snd].
  destruct (fault e (ops e)); eauto.
Qed.

(** What [intRotate] does on a log writer that has a session, whatever
    fails on the way: two readings of the clock; on success one more open,
    the counts at zero and the open date at the second reading; on failure
    the counts and the open date as they were. *)
Lemma intRotate_effect (last : bool) (w w' : FileLogWriter) (e e' : World) (f : File)
    (err : option string) :
  file w = Some f -> is_Some (bufW w) ->
  intRotate last (w, e) = Some (err, (w', e')) ->
  let now := clock e (S (ticks e)) in
  config w' = config w /\ live w' /\
  clock e' = clock e /\ fault e' = fault e /\ ticks e' = S (S (ticks e)) /\
  (exists l, stderr e' = stderr e ++ l) /\
  (exists l, syslog e' = syslog e ++ l /\
     opens l = match err with Some _ => 0%nat | None => 1%nat end /\
     (renames l = [] \/
      exists k, 1 <= k <= 999 /\
        renames l = [(filename w, archive_name (filename w) (lastTime_of last now) k)])) /\
  match err with
  | Some _ => counts w' = counts w /\ opendate w' = opendate w
  | None => counts w' = (0, 0) /\ opendate w' = (Day now, Hour now) /\
            f_closed <$> file w' = Some false
  end.
Proof.
  intros Hf Hb H now. unfold intRotate in H.
  apply bind_Some in H as ([] & [w1 e1] & HC & H).
  destruct (closeFile_facts _ _ _ _ _ Hf Hb HC)
    as (Hw1 & Hb1 & Hc1 & Hf1 & Ht1 & He1 & (l1 & Hl1 & Ho1 & Hr1) & _ & _).
  unfold bind at 1 in H. rewrite time_Now_eq in H.
  rewrite Hc1, Ht1 in H. fold now in H.
  apply bind_Some in H as (aerr & [w2 e2] & HA & H).
  apply archive_old_effect in HA as (-> & Hc2 & Hf2 & Ht2 & He2 & (l2 & Hl2 & Ho2 & Hr2)).
  cbn [clock fault ticks stderr syslog set_ticks] in *.
  assert (Hcfg : config w1 = config w) by (by rewrite Hw1).
  assert (Hfn : filename w1 = filename w) by (by rewrite Hw1).
  assert (Hcnt : counts w1 = counts w /\ opendate w1 = opendate w) by (by rewrite Hw1).
  assert (Hren : renames (l1 ++ l2) = [] \/
     exists k, 1 <= k <= 999 /\
        renames (l1 ++ l2) = [(filename w, archive_name (filename w) (lastTime_of last now) k)]).
  { rewrite renames_app, Hr1. cbn [app]. rewrite <- Hfn.
    destruct Hr2 as [?|(k & ? & _ & ?)]; [by left|right; eauto]. }
  destruct aerr as [msg|].
  { injection H as <- <- <-. split_and!.
    - exact Hcfg.
    - rewrite Hw1. split; cbn; eauto.
    - congruence.
    - congruence.
    - congruence.
    - rewrite He2. exact He1.
    - exists (l1 ++ l2). rewrite Hl2, Hl1, <- app_assoc, opens_app, Ho1, Ho2. auto.
    - apply Hcnt.
    - apply Hcnt. }
  unfold bind at 1, get_w in H; cbn [fst snd] in H.
  apply bind_Some in H as (r & [w3 e3] & HO & H).
  apply os_OpenFile_effect in HO as (-> & Hc3 & Hf3 & Ht3 & He3 & Hr).
  destruct r as [fd|msg].
  2:{ injection H as <- <- <-. destruct Hr as [Hl3 _]. split_and!.
    - exact Hcfg.
    - rewrite Hw1. split; cbn; eauto.
    - congruence.
    - congruence.
    - congruence.
    - rewrite He3, He2. exact He1.
    - exists ((l1 ++ l2) ++ [SysOpen (filename w1) false]).
      rewrite Hl3, Hl2, Hl1, <- !app_assoc. split; [reflexivity|].
      rewrite !app_assoc, opens_app, opens_app, Ho1, Ho2, renames_app, app_nil_r. auto.
    - apply Hcnt.
    - apply Hcnt. }
  destruct Hr as [-> Hl3].
  apply bind_Some in H as ([] & [w4 e4] & HN & H).
  apply newFile_effect in HN.
  unfold bind, modify_w, ret in H; cbn [fst snd] in H. injection H as <- <- <-.
  pose proof (bufio_step_config _ _ HN) as Hcfg4.
  pose proof (bufio_step_counts _ _ HN) as (_ & _ & Hfile4).
  destruct HN as [_ Hlv Hc4 Ht4 Hf4 He4 _ (l4 & Hl4 & HlW) _ _]. cbn [fst snd] in *.
  split_and!.
  - change (config w4 = config w). rewrite Hcfg4. exact Hcfg.
  - split; cbn; [rewrite Hfile4; eauto|apply Hlv; eauto].
  - congruence.
  - congruence.
  - congruence.
  - rewrite He4, He3, He2. exact He1.
  - exists (((l1 ++ l2) ++ [SysOpen (filename w1) true]) ++ l4).
    rewrite Hl4, Hl3, Hl2, Hl1, <- !app_assoc. split; [reflexivity|].
    rewrite !app_assoc.
    rewrite opens_app, opens_app, opens_app, Ho1, Ho2, (writes_no_opens _ HlW).
    split; [reflexivity|].
    rewrite renames_app, renames_app, (writes_no_renames _ HlW), !app_nil_r. exact Hren.
  - reflexivity.
  - reflexivity.
  - cbn. by rewrite Hfile4.
Qed.

(** *** The methods when no file operation fails *)

Lemma closeFile_ok (w : FileLogWriter) (e : World) (p d b : string) :
  session (w, e) p d b -> no_faults e ->
  exists e',
    closeFile (w, e)
      = Some (tt, (set_file (Some (mkFile p true)) (set_bufW (Some (mkWriter EmptyString None)) w), e')) /\
    fs e' = <[p := d +:+ b +:+ FormatLogRecord (trailer w) (record_at (clock e (ticks e)))]> (fs e) /\
    clock e' = clock e /\ fault e' = fault e /\ ticks e' = S (ticks e) /\
    stderr e' = stderr e /\
    exists l, syslog e' = syslog e ++ l ++ [SysClose p] /\ Forall is_SysWrite l.
Proof.
  intros Hs Hnf. destruct (Hs) as (Hf & Hb & Hd). cbn [fst snd] in *.
  unfold closeFile. unfold bind at 1, get_w; cbn [fst snd]. rewrite Hf.
  unfold bind at 1. rewrite time_Now_eq.
  set (T := FormatLogRecord _ _).
  set (e0 := set_ticks _ e).
  assert (Hs0 : session (w, e0) p d b) by done.
  destruct (bufW_WriteString_ok T w e0 p d b Hs0 Hnf) as (d1 & b1 & e1 & HW & Hfs1 & Happ1 & Hst1).
  unfold bind at 1. rewrite HW. cbn [snd].
  set (w1 := set_bufW _ w) in *.
  assert (Hs1 : session (w1, e1) p d1 b1).
  { repeat split; [exact Hf|]. cbn [snd]. rewrite Hfs1. apply lookup_insert_eq. }
  assert (Hnf1 : no_faults e1) by (by apply (bufio_step_no_faults _ _ Hst1)).
  destruct (bufW_Flush_ok w1 e1 p d1 b1 Hs1 Hnf1) as (e2 & HF & Hfs2).
  unfold bind at 1. rewrite HF.
  pose proof (bufW_Flush_step _ _ _ HF) as Hst2.
  unfold file_Close, bind, get_w, ret; cbn [fst snd].
  change (file (set_bufW (Some (mkWriter EmptyString None)) w1)) with (file w). rewrite Hf.
  cbn [f_closed f_path]. unfold log_syscall, modify_world, modify_w; cbn [fst snd].
  eexists. split; [reflexivity|].
  destruct Hst1 as [_ _ Hc1 Ht1 Hfl1 He1 _ (l1 & Hl1 & HlW1) _ _].
  destruct Hst2 as [_ _ Hc2 Ht2 Hfl2 He2 _ (l2 & Hl2 & HlW2) _ _].
  unfold e0 in *. clear e0.
  cbn [fst snd clock fault ticks stderr syslog fs set_syslog set_ticks] in *.
  split_and!.
  - rewrite Hfs2, Hfs1, insert_insert_eq, Happ1. reflexivity.
  - congruence.
  - congruence.
  - congruence.
  - congruence.
  - exists (l1 ++ l2). rewrite Hl2, Hl1, <- !app_assoc. split; [reflexivity|].
    by apply Forall_app.
Qed.

Lemma session_lookup (w : FileLogWriter) (e : World) (p d b : string) :
  session (w, e) p d b -> fs e !! p = Some d.
Proof. by intros (_ & _ & H). Qed.

Lemma newFile_ok (now : Time) (w : FileLogWriter) (e : World) (p d : string) :
  fs e !! p = Some d -> no_faults e ->
  exists d' b' e',
    newFile (mkFile p false) now (w, e)
      = Some (tt, (set_file (Some (mkFile p false)) (set_bufW (Some (mkWriter b' None)) w), e')) /\
    fs e' = <[p := d']> (fs e) /\
    d' +:+ b' = d +:+ FormatLogRecord (header w) (record_at now) /\
    clock e' = clock e /\ fault e' = fault e /\ ticks e' = ticks e /\ stderr e' = stderr e /\
    exists l, syslog e' = syslog e ++ l /\ Forall is_SysWrite l.
Proof.
  intros Hd Hnf.
  unfold newFile. unfold bind at 1 2 3, modify_w, get_w; cbn [fst snd].
  set (w0 := set_bufW _ (set_file _ w)).
  assert (Hs0 : session (w0, e) p d EmptyString) by done.
  destruct (bufW_WriteString_ok (FormatLogRecord (header w0) (record_at now)) w0 e p d EmptyString
              Hs0 Hnf) as (d1 & b1 & e1 & HW & Hfs1 & Happ1 & Hst1).
  unfold bind at 1. rewrite HW. unfold ret.
  exists d1, b1, e1. split; [reflexivity|].
  destruct Hst1 as [_ _ Hc1 Ht1 Hfl1 He1 _ (l1 & Hl1 & HlW1) _ _].
  cbn [fst snd] in *. split_and!; eauto.
Qed.

Lemma os_Rename_ok (a b c : string) (w : FileLogWriter) (e : World) :
  fault e (ops e) = None -> fs e !! a = Some c ->
  os_Rename a b (w, e)
  = Some (None, (w, set_syslog (syslog e ++ [SysRename a b true])
                      (set_fs (<[b := c]> (delete a (fs e))) (set_ops (S (ops e)) e)))).
Proof.
  intros Hflt Ha.
  unfold os_Rename, next_fault, log_syscall, bind, get_world, modify_world, ret; cbn [fst snd].
  rewrite Hflt. cbn [fs set_ops]. rewrite Ha. reflexivity.
Qed.

Lemma os_OpenFile_ok (p : string) (w : FileLogWriter) (e : World) :
  fault e (ops e) = None ->
  os_OpenFile p (w, e)
  = Some (inl (mkFile p false),
          (w, set_syslog (syslog e ++ [SysOpen p true])
                (set_fs (<[p := contents (fs e) p]> (fs e)) (set_ops (S (ops e)) e)))).
Proof.
  intros Hflt.
  unfold os_OpenFile, next_fault, log_syscall, bind, get_world, modify_world, ret; cbn [fst snd].
  rewrite Hflt. reflexivity.
Qed.

Lemma find_free_not_self (files : gmap string string) (p : string) (t : Time) :
  is_Some (files !! p) -> snd (find_free files p t) = false -> fst (find_free files p t) <> p.
Proof.
  intros [c Hp] Hgo Heq. pose proof (find_free_spec files p t) as Hff.
  rewrite Hgo in Hff. destruct Hff as (k & _ & Hname & Hfree & _).
  rewrite <- Hname, Heq in Hfree. unfold Lstat_ok in Hfree. by rewrite Hp in Hfree.
Qed.

(** A rotation in which nothing fails, in full: the old session ends with
    the trailer and is flushed; with retention the file moves to the free
    name [find_free] yields and a new, empty file takes its place; the new
    session starts with the header, the counts at zero and the open date
    at the time of the rotation. *)
Lemma intRotate_ok (last : bool) (w : FileLogWriter) (e : World) (p d b : string) :
  session (w, e) p d b -> filename w = p -> no_faults e ->
  let now := clock e (S (ticks e)) in
  let old := d +:+ b +:+ FormatLogRecord (trailer w) (record_at (clock e (ticks e))) in
  let fs1 := <[p := old]> (fs e) in
  let found := find_free fs1 p (lastTime_of last now) in
  rotate w && snd found = false ->
  exists d' b' e',
    intRotate last (w, e)
      = Some (None, (set_counts 0 0 (set_opendate (Day now) (Hour now)
                       (set_file (Some (mkFile p false))
                          (set_bufW (Some (mkWriter b' None)) w))), e')) /\
    fs e' = <[p := d']> (if rotate w then <[fst found := old]> (delete p fs1) else fs1) /\
    d' +:+ b' = (if rotate w then EmptyString else old)
                +:+ FormatLogRecord (header w) (record_at now) /\
    clock e' = clock e /\ fault e' = fault e /\ ticks e' = S (S (ticks e)) /\
    stderr e' = stderr e /\
    renames (syslog e') = renames (syslog e) ++ (if rotate w then [(p, fst found)] else []) /\
    opens (syslog e') = S (opens (syslog e)).
Proof.
  intros Hs Hfn Hnf now old fs1 found Hgo.
  destruct (closeFile_ok w e p d b Hs Hnf)
    as (e1 & HC & Hfs1 & Hc1 & Hfl1 & Ht1 & He1 & (l1 & Hl1 & HlW1)).
  fold old in Hfs1. fold fs1 in Hfs1.
  unfold intRotate. unfold bind at 1. rewrite HC.
  unfold bind at 1. rewrite time_Now_eq. rewrite Hc1, Ht1. fold now.
  set (wc := set_file _ _).
  set (e1' := set_ticks _ e1).
  assert (Hp1 : fs1 !! p = Some old) by apply lookup_insert_eq.
  assert (Hnf1 : no_faults e1') by (intros k; cbn; rewrite Hfl1; apply Hnf).
  (* the archive step *)
  assert (HA : exists e2,
    archive_old (lastTime_of last now) (wc, e1') = Some (None, (wc, e2)) /\
    fs e2 = (if rotate w then <[fst found := old]> (delete p fs1) else fs1) /\
    clock e2 = clock e /\ fault e2 = fault e /\ ticks e2 = S (S (ticks e)) /\
    stderr e2 = stderr e /\
    syslog e2 = syslog e1 ++ (if rotate w then [SysRename p (fst found) true] else [])).
  { unfold archive_old. unfold bind at 1, get_w; cbn [fst snd].
    change (rotate wc) with (rotate w). change (filename wc) with (filename w). rewrite Hfn.
    destruct (rotate w).
    2:{ exists e1'. unfold ret. rewrite app_nil_r. unfold e1'.
        cbn [fs clock fault ticks stderr syslog set_ticks]. split_and!; auto. }
    cbn [andb] in Hgo.
    unfold bind at 1, get_world; cbn [fst snd].
    change (fs e1') with (fs e1). rewrite Hfs1.
    unfold Lstat_ok at 1. rewrite Hp1. fold found. rewrite Hgo.
    unfold bind at 1. rewrite (os_Rename_ok p (fst found) old);
      [|apply Hnf1|change (fs e1') with (fs e1); by rewrite Hfs1].
    unfold ret. eexists. split; [reflexivity|].
    cbn [fs clock fault ticks stderr syslog set_syslog set_fs set_ops set_ticks e1'].
    unfold e1'. cbn [fs clock fault ticks stderr syslog set_syslog set_fs set_ops set_ticks].
    rewrite Hfs1. split_and!; auto. }
  destruct HA as (e2 & HA & Hfs2 & Hc2 & Hfl2 & Ht2 & He2 & Hl2).
  unfold bind at 1. rewrite HA.
  unfold bind at 1, get_w; cbn [fst snd]. change (filename wc) with (filename w). rewrite Hfn.
  (* the new file has the old contents without retention, none with it *)
  set (kept := if rotate w then EmptyString else old).
  assert (Hkept : contents (fs e2) p = kept).
  { unfold contents, kept. rewrite Hfs2. destruct (rotate w); [|by rewrite Hp1].
    cbn [andb] in Hgo. rewrite lookup_insert_ne, lookup_delete_eq; [done|].
    apply find_free_not_self; [by rewrite Hp1|exact Hgo]. }
  assert (Hnf2 : no_faults e2) by (intros k; rewrite Hfl2; apply Hnf).
  unfold bind at 1. rewrite os_OpenFile_ok by apply Hnf2. rewrite Hkept.
  set (e3 := set_syslog _ _).
  assert (Hp3 : fs e3 !! p = Some kept) by apply lookup_insert_eq.
  assert (Hnf3 : no_faults e3) by exact Hnf2.
  destruct (newFile_ok now wc e3 p kept Hp3 Hnf3)
    as (d' & b' & e4 & HN & Hfs4 & Happ4 & Hc4 & Hfl4 & Ht4 & He4 & (l4 & Hl4 & HlW4)).
  unfold bind at 1. rewrite HN.
  unfold bind, modify_w, ret; cbn [fst snd].
  exists d', b', e4. split; [reflexivity|].
  cbn [fs clock fault ticks stderr syslog set_syslog set_fs set_ops e3] in *.
  split_and!.
  - rewrite Hfs4. unfold e3. cbn [fs set_syslog set_fs]. rewrite insert_insert_eq, Hfs2. reflexivity.
  - exact Happ4.
  - congruence.
  - congruence.
  - congruence.
  - congruence.
  - rewrite Hl4. unfold e3. cbn [syslog set_syslog set_fs set_ops].
    rewrite Hl2, Hl1, !renames_app, (writes_no_renames _ HlW1), (writes_no_renames _ HlW4).
    cbn [renames omap app]. rewrite !app_nil_r. by destruct (rotate w).
  - rewrite Hl4. unfold e3. cbn [syslog set_syslog set_fs set_ops].
    rewrite Hl2, Hl1, !opens_app, (writes_no_opens _ HlW1), (writes_no_opens _ HlW4).
    destruct (rotate w); cbn; lia.
Qed.

(** *** [write] *)

Lemma rotate_if_effect (c last : bool) (w w' : FileLogWriter) (e e' : World)
    (err : option string) :
  live w ->
  rotate_if c last (w, e) = Some (err, (w', e')) ->
  let now := clock e (S (ticks e)) in
  config w' = config w /\ live w' /\
  clock e' = clock e /\ fault e' = fault e /\
  ticks e' = (if c then S (S (ticks e)) else ticks e) /\
  (exists l, stderr e' = stderr e ++ l ++
                         match err with Some msg => [report_line w msg] | None => [] end) /\
  (exists l, syslog e' = syslog e ++ l /\
     opens l = match err with Some _ => 0%nat | None => if c then 1%nat else 0%nat end /\
     (renames l = [] \/
      exists k, 1 <= k <= 999 /\
        renames l = [(filename w, archive_name (filename w) (lastTime_of last now) k)])) /\
  match err with
  | Some _ => c = true /\ counts w' = counts w /\ opendate w' = opendate w
  | None => if c then counts w' = (0, 0) /\ opendate w' = (Day now, Hour now)
            else w' = w /\ e' = e
  end.
Proof.
  intros Hlive H now. unfold rotate_if in H. destruct c.
  2:{ injection H as <- <- <-. split_and!; auto.
      - exists []. by rewrite app_nil_r.
      - exists []. rewrite app_nil_r. auto. }
  apply bind_Some in H as (err1 & [w1 e1] & HR & H).
  destruct (Hlive) as [[f Hf] Hb].
  destruct (intRotate_effect _ _ _ _ _ _ _ Hf Hb HR)
    as (Hcfg & Hlv & Hc & Hfl & Ht & (ls & Hs) & Hlog & Hcase).
  destruct err1 as [msg|].
  - unfold bind in H. rewrite report_eq in H. injection H as <- <- <-.
    cbn [stderr set_stderr clock fault ticks syslog]. split_and!; auto.
    + exists ls. rewrite Hs, <- app_assoc. do 3 f_equal. unfold report_line.
      assert (filename w1 = filename w) as -> by (by injection Hcfg). reflexivity.
    + apply Hcase.
    + apply Hcase.
  - injection H as <- <- <-. split_and!; auto.
    + exists ls. by rewrite app_nil_r.
    + apply Hcase.
    + apply Hcase.
Qed.

Lemma perform_write_effect (r : LogRecord) (w w' : FileLogWriter) (e e' : World) (x : WriteExit) :
  perform_write r (w, e) = Some (x, (w', e')) ->
  exists w1 e1, bufio_step (w, e) (w1, e1) /\
    match x with
    | Written n =>
        w' = set_counts (wrap_int (maxlines_curlines w + 1)) (wrap_int (maxsize_cursize w + n)) w1 /\
        e' = e1
    | WriteFailed msg => w' = w1 /\ e' = set_stderr (stderr e1 ++ [report_line w msg]) e1
    | RotateFailed _ => False
    end.
Proof.
  unfold perform_write. unfold bind at 1, get_w; cbn [fst snd].
  intros H. apply bind_Some in H as (res & [w1 e1] & HW & H).
  apply bufW_WriteString_step in HW. exists w1, e1. split; [exact HW|].
  pose proof (bufio_step_counts _ _ HW) as (Hcnt & _). cbn [fst] in Hcnt.
  pose proof (bufio_step_config _ _ HW) as Hcfg. cbn [fst] in Hcfg.
  destruct (snd res) as [msg|].
  - unfold bind in H. rewrite report_eq in H. injection H as <- <- <-. split; [done|].
    unfold report_line. assert (filename w1 = filename w) as -> by (by injection Hcfg). done.
  - unfold bind, modify_w, ret in H; cbn [fst snd] in H. injection H as <- <- <-.
    injection Hcnt as -> ->. done.
Qed.

Lemma perform_write_total (r : LogRecord) (s : St) :
  live (fst s) -> exists x s', perform_write r s = Some (x, s').
Proof.
  destruct s as [w e]. intros Hlive.
  unfold perform_write. unfold bind at 1, get_w; cbn [fst snd].
  destruct (bufW_WriteString_total (record_text w r) (w, e) Hlive) as (res & [w1 e1] & HW).
  unfold bind at 1. rewrite HW. destruct (snd res).
  - unfold bind. rewrite report_eq. eauto.
  - unfold bind, modify_w, ret. eauto.
Qed.

Lemma intRotate_total (last : bool) (s : St) :
  live (fst s) -> exists err s', intRotate last s = Some (err, s').
Proof.
  destruct s as [w e]. intros Hlive.
  destruct (closeFile_total (w, e) Hlive) as ([w1 e1] & HC).
  unfold intRotate. unfold bind at 1. rewrite HC.
  unfold bind at 1. rewrite time_Now_eq.
  destruct (archive_old_total (lastTime_of last (clock e1 (ticks e1)))
              (w1, set_ticks (S (ticks e1)) e1)) as (aerr & s2 & HA).
  unfold bind at 1. rewrite HA. destruct aerr; [by eauto|].
  unfold bind at 1, get_w; cbn [fst snd].
  destruct (os_OpenFile_total (filename (fst s2)) s2) as (r & s3 & HO).
  unfold bind at 1. rewrite HO. destruct r as [fd|msg]; [|by eauto].
  destruct (newFile_total fd (clock e1 (ticks e1)) s3) as (s4 & HN).
  unfold bind at 1. rewrite HN. unfold bind, modify_w, ret. eauto.
Qed.

Lemma rotate_if_total (c last : bool) (s : St) :
  live (fst s) -> exists err s', rotate_if c last s = Some (err, s').
Proof.
  intros Hlive. unfold rotate_if. destruct c; [|by eauto].
  destruct (intRotate_total last s Hlive) as (err & [w1 e1] & HR).
  unfold bind at 1. rewrite HR. destruct err; [|by eauto].
  unfold bind. rewrite report_eq. eauto.
Qed.

(** The checks taken apart. *)
Lemma rotation_checks_inv (w w' : FileLogWriter) (e e' : World) (err : option string) :
  rotation_checks (w, e) = Some (err, (w', e')) ->
  exists err1 w1 e1,
    rotate_if (size_or_lines_due w) false (w, e) = Some (err1, (w1, e1)) /\
    match err1 with
    | Some m => err = Some m /\ w' = w1 /\ e' = e1
    | None =>
        let now := clock e1 (ticks e1) in
        exists err2 w2 e2,
          rotate_if (daily_due w1 now) true (w1, set_ticks (S (ticks e1)) e1)
            = Some (err2, (w2, e2)) /\
          match err2 with
          | Some m => err = Some m /\ w' = w2 /\ e' = e2
          | None => rotate_if (hour_due w2 now) true (w2, e2) = Some (err, (w', e'))
          end
    end.
Proof.
  unfold rotation_checks. unfold bind at 1, get_w; cbn [fst snd].
  intros H. apply bind_Some in H as (err1 & [w1 e1] & H1 & H).
  exists err1, w1, e1. split; [exact H1|].
  destruct err1; [by injection H as <- <- <-|].
  unfold bind at 1 in H. rewrite time_Now_eq in H.
  unfold bind at 1, get_w in H; cbn [fst snd] in H.
  apply bind_Some in H as (err2 & [w2 e2] & H2 & H).
  exists err2, w2, e2. split; [exact H2|].
  destruct err2; [by injection H as <- <- <-|].
  unfold bind at 1, get_w in H; cbn [fst snd] in H. exact H.
Qed.

Lemma write_inv (r : LogRecord) (s s' : St) (x : WriteExit) :
  write r s = Some (x, s') ->
  exists err s1, rotation_checks s = Some (err, s1) /\
    match err with
    | Some m => x = RotateFailed m /\ s' = s1
    | None => perform_write r s1 = Some (x, s')
    end.
Proof.
  unfold write. intros H. apply bind_Some in H as (err & s1 & H1 & H).
  exists err, s1. split; [exact H1|]. destruct err; [by injection H as <- <-|exact H].
Qed.

Lemma method_step_refl (s : St) : method_step s s.
Proof. split; auto; exists []; by rewrite app_nil_r. Qed.

Lemma method_step_trans (s1 s2 s3 : St) :
  method_step s1 s2 -> method_step s2 s3 -> method_step s1 s3.
Proof.
  intros [a1 b1 c1 d1 (l1 & x1) (m1 & y1)] [a2 b2 c2 d2 (l2 & x2) (m2 & y2)].
  split; try congruence.
  - lia.
  - exists (l1 ++ l2). by rewrite x2, x1, app_assoc.
  - exists (m1 ++ m2). by rewrite y2, y1, app_assoc.
Qed.

Lemma bufio_method_step (s s' : St) : bufio_step s s' -> method_step s s'.
Proof.
  intros H. pose proof (bufio_step_config _ _ H).
  destruct H as [_ _ Hc Ht Hf He _ (l & Hl & _) _ _]. split; auto.
  - lia.
  - exists []. by rewrite app_nil_r.
  - eauto.
Qed.

Lemma rotate_if_step (c last : bool) (s s' : St) (err : option string) :
  live (fst s) -> rotate_if c last s = Some (err, s') -> method_step s s' /\ live (fst s').
Proof.
  destruct s as [w e], s' as [w' e']. intros Hlive H.
  destruct (rotate_if_effect _ _ _ _ _ _ _ Hlive H)
    as (Hcfg & Hlv & Hc & Hfl & Ht & (ls & Hs) & (l & Hl & _) & _).
  split; [|exact Hlv]. split; cbn [fst snd]; auto.
  - rewrite Ht. destruct c; lia.
  - eauto.
  - eauto.
Qed.

Lemma perform_write_step (r : LogRecord) (s s' : St) (x : WriteExit) :
  live (fst s) -> perform_write r s = Some (x, s') -> method_step s s' /\ live (fst s').
Proof.
  destruct s as [w e], s' as [w' e']. intros Hlive H.
  destruct (perform_write_effect _ _ _ _ _ _ H) as (w1 & e1 & Hb & Hx).
  pose proof (bufio_method_step _ _ Hb) as Hm.
  pose proof (bufio_step_live _ _ Hb Hlive) as Hl1. cbn [fst] in Hl1.
  destruct x as [m|m|n]; [done| |]; destruct Hx as [-> ->].
  - split; [|exact Hl1]. eapply method_step_trans; [exact Hm|].
    split; cbn; auto. + eauto. + exists []. by rewrite app_nil_r.
  - split; [|exact Hl1]. eapply method_step_trans; [exact Hm|].
    split; cbn; auto; exists []; by rewrite app_nil_r.
Qed.

Lemma rotation_checks_step (s s' : St) (err : option string) :
  live (fst s) -> rotation_checks s = Some (err, s') -> method_step s s' /\ live (fst s').
Proof.
  destruct s as [w e], s' as [w' e']. intros Hlive H.
  apply rotation_checks_inv in H as (err1 & w1 & e1 & H1 & H).
  destruct (rotate_if_step _ _ _ _ _ Hlive H1) as [Hm1 Hl1].
  destruct err1; [by destruct H as (_ & -> & ->)|]. cbv zeta in H.
  destruct H as (err2 & w2 & e2 & H2 & H).
  assert (Hm1' : method_step (w, e) (w1, set_ticks (S (ticks e1)) e1)).
  { destruct Hm1 as [a b c d f g]. split; cbn [fst snd] in *; auto. cbn. lia. }
  destruct (rotate_if_step _ _ (w1, set_ticks (S (ticks e1)) e1) _ _ Hl1 H2) as [Hm2 Hl2].
  pose proof (method_step_trans _ _ _ Hm1' Hm2) as Hm12.
  destruct err2; [by destruct H as (_ & -> & ->)|].
  destruct (rotate_if_step _ _ _ _ _ Hl2 H) as [Hm3 Hl3].
  split; [|exact Hl3]. by eapply method_step_trans.
Qed.

Lemma rotation_checks_total (s : St) :
  live (fst s) -> exists err s', rotation_checks s = Some (err, s').
Proof.
  destruct s as [w e]. intros Hlive.
  unfold rotation_checks. unfold bind at 1, get_w; cbn [fst snd].
  destruct (rotate_if_total (size_or_lines_due w) false (w, e) Hlive) as (err1 & [w1 e1] & H1).
  unfold bind at 1. rewrite H1.
  destruct (rotate_if_step _ _ _ _ _ Hlive H1) as (_ & Hl1).
  destruct err1; [by eauto|].
  unfold bind at 1. rewrite time_Now_eq.
  unfold bind at 1, get_w; cbn [fst snd].
  set (now := clock e1 (ticks e1)).
  destruct (rotate_if_total (daily_due w1 now) true (w1, set_ticks (S (ticks e1)) e1) Hl1)
    as (err2 & [w2 e2] & H2).
  unfold bind at 1. rewrite H2.
  destruct (rotate_if_step _ _ (w1, set_ticks (S (ticks e1)) e1) _ _ Hl1 H2) as (_ & Hl2).
  destruct err2; [by eauto|].
  unfold bind at 1, get_w; cbn [fst snd].
  apply (rotate_if_total (hour_due w2 now) true (w2, e2) Hl2).
Qed.

(** [write] returns on every log writer that has a session. *)
Lemma write_total (r : LogRecord) (s : St) :
  live (fst s) -> exists x s', write r s = Some (x, s').
Proof.
  intros Hlive. destruct (rotation_checks_total s Hlive) as (err & s1 & H1).
  unfold write. unfold bind at 1. rewrite H1.
  destruct (rotation_checks_step _ _ _ Hlive H1) as (_ & Hl1).
  destruct err; [by eauto|]. apply (perform_write_total r s1 Hl1).
Qed.

(** [write] leaves the channels, the list and the configuration alone and
    keeps the session. *)
Lemma write_step (r : LogRecord) (s s' : St) (x : WriteExit) :
  live (fst s) -> write r s = Some (x, s') -> method_step s s' /\ live (fst s').
Proof.
  intros Hlive H. apply write_inv in H as (err & s1 & H1 & H).
  destruct (rotation_checks_step _ _ _ Hlive H1) as [Hm1 Hl1].
  destruct err; [by destruct H as (_ & ->)|].
  destruct (perform_write_step _ _ _ _ Hl1 H) as [Hm2 Hl2].
  split; [|exact Hl2]. by eapply method_step_trans.
Qed.


Lemma report_line_config (w w' : FileLogWriter) (m : string) :
  config w' = config w -> report_line w' m = report_line w m.
Proof. intros H. unfold report_line. by assert (filename w' = filename w) as -> by (by injection H). Qed.

(** What the checks leave behind: a report when they fail; the counts as
    they were when no rotation completed, at zero when one did. *)
Lemma rotation_checks_effect (w w' : FileLogWriter) (e e' : World) (err : option string) :
  live w -> rotation_checks (w, e) = Some (err, (w', e')) ->
  (exists l, stderr e' = stderr e ++ l ++
                         match err with Some m => [report_line w m] | None => [] end) /\
  (exists lg, syslog e' = syslog e ++ lg /\
     ((opens lg = 0%nat /\ counts w' = counts w /\ opendate w' = opendate w) \/
      ((1 <= opens lg)%nat /\ counts w' = (0, 0)))).
Proof.
  intros Hlive H.
  apply rotation_checks_inv in H as (err1 & w1 & e1 & H1 & H).
  destruct (rotate_if_effect _ _ _ _ _ _ _ Hlive H1)
    as (Hcfg1 & Hl1 & _ & _ & _ & (ls1 & Hs1) & (lg1 & Hg1 & Ho1 & _) & Hcase1).
  assert (J1 : (opens lg1 = 0%nat /\ counts w1 = counts w /\ opendate w1 = opendate w) \/
               ((1 <= opens lg1)%nat /\ counts w1 = (0, 0))).
  { destruct err1; [left; destruct Hcase1 as (_ & ? & ?); by rewrite Ho1|].
    destruct (size_or_lines_due w).
    - right. rewrite Ho1. split; [lia|apply Hcase1].
    - left. destruct Hcase1 as [-> _]. by rewrite Ho1. }
  destruct err1 as [m1|].
  { destruct H as (-> & -> & ->). split; [by exists ls1|by exists lg1]. }
  cbv zeta in H. destruct H as (err2 & w2 & e2 & H2 & H).
  destruct (rotate_if_effect _ _ _ _ _ _ _ Hl1 H2)
    as (Hcfg2 & Hl2 & _ & _ & _ & (ls2 & Hs2) & (lg2 & Hg2 & Ho2 & _) & Hcase2).
  cbn [stderr syslog set_ticks] in Hs2, Hg2.
  assert (J2 : (opens (lg1 ++ lg2) = 0%nat /\ counts w2 = counts w /\ opendate w2 = opendate w) \/
               ((1 <= opens (lg1 ++ lg2))%nat /\ counts w2 = (0, 0))).
  { rewrite opens_app, Ho2. destruct err2.
    - destruct Hcase2 as (_ & -> & ->). destruct J1 as [(? & ? & ?)|(? & ?)]; [left|right]; auto with lia.
    - destruct (daily_due w1 _).
      + right. split; [lia|apply Hcase2].
      + destruct Hcase2 as [-> _]. destruct J1 as [(? & ? & ?)|(? & ?)]; [left|right]; auto with lia. }
  destruct err2 as [m2|].
  { destruct H as (-> & -> & ->). split.
    - exists (ls1 ++ ls2). rewrite Hs2, Hs1, app_nil_r, (report_line_config _ _ _ Hcfg1).
      by rewrite <- !app_assoc.
    - exists (lg1 ++ lg2). rewrite Hg2, Hg1, <- app_assoc. auto. }
  destruct (rotate_if_effect _ _ _ _ _ _ _ Hl2 H)
    as (Hcfg3 & Hl3 & _ & _ & _ & (ls3 & Hs3) & (lg3 & Hg3 & Ho3 & _) & Hcase3).
  split.
  - exists (ls1 ++ ls2 ++ ls3). rewrite Hs3, Hs2, Hs1, !app_nil_r.
    assert (Hcfg12 : config w2 = config w) by congruence.
    destruct err; rewrite ?(report_line_config _ _ _ Hcfg12); by rewrite <- !app_assoc.
  - exists ((lg1 ++ lg2) ++ lg3). rewrite Hg3, Hg2, Hg1, <- !app_assoc. split; [done|].
    rewrite !app_assoc, opens_app, Ho3. destruct err.
    + destruct Hcase3 as (_ & -> & ->).
      destruct J2 as [(? & ? & ?)|(? & ?)]; [left|right]; auto with lia.
    + destruct (hour_due w2 _).
      * right. split; [lia|apply Hcase3].
      * destruct Hcase3 as [-> _].
        destruct J2 as [(? & ? & ?)|(? & ?)]; [left|right]; auto with lia.
Qed.

(* ===================================================================== *)
(** ** A buffered write that fails (lines 134-138) *)
(* ===================================================================== *)

(** C9.  When the buffered write of a record fails, [write] reports the
    error, does not touch the line and byte counters (they are as the
    rotation checks of the same call left them: unchanged when no rotation
    completed, zero when one did), leaves the channels and the list alone,
    so the record is not taken up again, and the writer loop goes round
    again. *)
Theorem write_failure_not_counted (r : LogRecord) (w w' : FileLogWriter) (e e' : World)
    (msg : string) (l : Loop) :
  live w ->
  writer_on_rec r (w, e) = Some ((l, WriteFailed msg), (w', e')) ->
  l = Continue /\
  config w' = config w /\
  (exists pre, stderr e' = stderr e ++ pre ++ [report_line w msg]) /\
  (exists lg, syslog e' = syslog e ++ lg /\
     ((opens lg = 0%nat /\ counts w' = counts w) \/
      ((1 <= opens lg)%nat /\ counts w' = (0, 0)))).
Proof.
  intros Hlive H. unfold writer_on_rec in H.
  apply bind_Some in H as (x & s1 & HW & H). unfold ret in H. injection H as ? ? ?; subst.
  split; [reflexivity|].
  destruct (write_step _ (w, e) _ _ Hlive HW) as [Hm _].
  split; [apply (ms_config _ _ Hm)|].
  apply write_inv in HW as (err & [w1 e1] & HC & HP).
  destruct err as [m|]; [by destruct HP|].
  destruct (rotation_checks_step (w, e) _ _ Hlive HC) as [Hm1 _].
  destruct (rotation_checks_effect _ _ _ _ _ Hlive HC) as ((ls & Hs) & (lg & Hg & J)).
  destruct (perform_write_effect _ _ _ _ _ _ HP) as (w2 & e2 & Hb & -> & ->).
  pose proof (bufio_step_counts _ _ Hb) as (Hcnt & _).
  destruct Hb as [_ _ _ _ _ He _ (lw & Hlw & HlW) _ _]. cbn [fst snd] in *.
  split.
  - exists ls. cbn [stderr set_stderr]. rewrite He, Hs, app_nil_r, <- app_assoc.
    by rewrite (report_line_config _ _ _ (ms_config _ _ Hm1)).
  - exists (lg ++ lw). cbn [syslog set_stderr]. rewrite Hlw, Hg, <- app_assoc.
    split; [reflexivity|]. rewrite opens_app, (writes_no_opens _ HlW), Nat.add_0_r, Hcnt.
    destruct J as [(? & ? & _)|(? & ?)]; auto.
Qed.

(* ===================================================================== *)
(** ** Opening the first session, and [SetHeadFoot] (lines 310-316) *)
(* ===================================================================== *)

(** The first rotation, on the struct that has no file yet. *)
Lemma intRotate_first (last : bool) (w w' : FileLogWriter) (e e' : World) :
  file w = None -> no_faults e ->
  intRotate last (w, e) = Some (None, (w', e')) ->
  let now := clock e (ticks e) in
  exists kept d' b',
    session (w', e') (filename w) d' b' /\
    d' +:+ b' = kept +:+ FormatLogRecord (header w) (record_at now) /\
    w' = set_counts 0 0 (set_opendate (Day now) (Hour now)
           (set_file (Some (mkFile (filename w) false))
              (set_bufW (Some (mkWriter b' None)) w))) /\
    clock e' = clock e /\ fault e' = fault e /\ ticks e' = S (ticks e) /\
    stderr e' = stderr e.
Proof.
  intros Hf Hnf H now. unfold intRotate in H.
  unfold bind at 1 in H. rewrite (closeFile_nil _ _ Hf) in H.
  unfold bind at 1 in H. rewrite time_Now_eq in H. fold now in H.
  apply bind_Some in H as (aerr & [w2 e2] & HA & H).
  apply archive_old_effect in HA as (-> & Hc2 & Hf2 & Ht2 & He2 & _).
  cbn [clock fault ticks stderr set_ticks] in *.
  destruct aerr; [discriminate|].
  unfold bind at 1, get_w in H; cbn [fst snd] in H.
  assert (Hnf2 : no_faults e2) by (intros k; rewrite Hf2; apply Hnf).
  unfold bind at 1 in H. rewrite os_OpenFile_ok in H by apply Hnf2.
  set (e3 := set_syslog _ _) in H.
  set (kept := contents (fs e2) (filename w)) in *.
  assert (Hp3 : fs e3 !! filename w = Some kept) by apply lookup_insert_eq.
  destruct (newFile_ok now w e3 (filename w) kept Hp3 Hnf2)
    as (d' & b' & e4 & HN & Hfs4 & Happ4 & Hc4 & Hfl4 & Ht4 & He4 & _).
  unfold bind at 1 in H. rewrite HN in H.
  unfold bind, modify_w, ret in H; cbn [fst snd] in H. injection H as <- <-.
  exists kept, d', b'. split_and!.
  - repeat split. cbn [snd]. rewrite Hfs4. apply lookup_insert_eq.
  - exact Happ4.
  - reflexivity.
  - by rewrite Hc4.
  - by rewrite Hfl4.
  - by rewrite Ht4.
  - by rewrite He4.
Qed.

(** What [NewFileLogWriter] returns when nothing fails: a log writer with
    an open session that starts with the formatted header (the empty
    template of the struct literal), no line counted, empty channels and
    two goroutines to wait for. *)
Lemma NewFileLogWriter_ok (fname : string) (rot : bool) (e0 e : World) (w : FileLogWriter) :
  no_faults e0 ->
  NewFileLogWriter fname rot e0 = Some (Some w, e) ->
  exists kept d b,
    session (w, e) fname d b /\
    d +:+ b = kept +:+ FormatLogRecord EmptyString (record_at (clock e0 (ticks e0))) /\
    config w = config (set_wg 2 (new_struct fname rot)) /\
    counts w = (0, 0) /\
    opendate w = (Day (clock e0 (ticks e0)), Hour (clock e0 (ticks e0))) /\
    clock e = clock e0 /\ fault e = fault e0 /\ ticks e = S (ticks e0) /\ stderr e = stderr e0.
Proof.
  intros Hnf H. unfold NewFileLogWriter in H.
  destruct (intRotate false (new_struct fname rot, e0)) as [[[m|] [w1 e1]]|] eqn:HR;
    [destruct (report m (w1, e1)) as [[? ?]|]; discriminate| |discriminate].
  injection H as <- <-.
  destruct (intRotate_first false (new_struct fname rot) _ _ _ eq_refl Hnf HR)
    as (kept & d & b & Hs & Happ & -> & Hc & Hfl & Ht & He).
  exists kept, d, b. split_and!; auto.
Qed.

(** C10.  [SetHeadFoot] on a session in which no line is counted installs
    the two templates and at once hands the new header, formatted with the
    time of the call, to the buffered writer, after whatever the session
    holds already; when a line is counted it installs the templates and
    writes nothing.  A session opened by [NewFileLogWriter] holds the
    header of the previous template (the empty one) already, so the new
    header comes in addition to it. *)
Theorem SetHeadFoot_writes_header (head foot : string) :
  (forall w e p d b,
     session (w, e) p d b -> no_faults e -> maxlines_curlines w = 0 ->
     exists d' b' e',
       SetHeadFoot head foot (w, e)
         = Some (tt, (set_bufW (Some (mkWriter b' None)) (set_headfoot head foot w), e')) /\
       fs e' = <[p := d']> (fs e) /\
       d' +:+ b' = d +:+ b +:+ FormatLogRecord head (record_at (clock e (ticks e)))) /\
  (forall w e,
     maxlines_curlines w <> 0 ->
     SetHeadFoot head foot (w, e) = Some (tt, (set_headfoot head foot w, e))) /\
  (forall fname rot e0 w e,
     no_faults e0 -> NewFileLogWriter fname rot e0 = Some (Some w, e) ->
     exists kept d b d' b' e',
       session (w, e) fname d b /\
       d +:+ b = kept +:+ FormatLogRecord EmptyString (record_at (clock e0 (ticks e0))) /\
       SetHeadFoot head foot (w, e)
         = Some (tt, (set_bufW (Some (mkWriter b' None)) (set_headfoot head foot w), e')) /\
       fs e' = <[fname := d']> (fs e) /\
       d' +:+ b' = kept +:+ FormatLogRecord EmptyString (record_at (clock e0 (ticks e0)))
                   +:+ FormatLogRecord head (record_at (clock e0 (S (ticks e0))))).
Proof.
  assert (Hzero : forall w e p d b,
     session (w, e) p d b -> no_faults e -> maxlines_curlines w = 0 ->
     exists d' b' e',
       SetHeadFoot head foot (w, e)
         = Some (tt, (set_bufW (Some (mkWriter b' None)) (set_headfoot head foot w), e')) /\
       fs e' = <[p := d']> (fs e) /\
       d' +:+ b' = d +:+ b +:+ FormatLogRecord head (record_at (clock e (ticks e)))).
  { intros w e p d b Hs Hnf Hz.
    unfold SetHeadFoot. unfold bind at 1 2, modify_w, get_w; cbn [fst snd].
    change (maxlines_curlines (set_headfoot head foot w)) with (maxlines_curlines w).
    rewrite Hz. cbn [Z.eqb].
    unfold bind at 1. rewrite time_Now_eq.
    set (w0 := set_headfoot head foot w). set (e0 := set_ticks _ e).
    assert (Hs0 : session (w0, e0) p d b) by (destruct Hs as (? & ? & ?); by repeat split).
    destruct (bufW_WriteString_ok (FormatLogRecord (header w0) (record_at (clock e (ticks e))))
                w0 e0 p d b Hs0 Hnf) as (d' & b' & e' & HW & Hfs & Happ & _).
    unfold bind at 1. rewrite HW. unfold ret. exists d', b', e'. by split_and!. }
  split; [exact Hzero|]. split.
  - intros w e Hnz.
    unfold SetHeadFoot. unfold bind at 1 2, modify_w, get_w; cbn [fst snd].
    change (maxlines_curlines (set_headfoot head foot w)) with (maxlines_curlines w).
    by destruct (Z.eqb_spec (maxlines_curlines w) 0).
  - intros fname rot e0 w e Hnf HN.
    destruct (NewFileLogWriter_ok _ _ _ _ _ Hnf HN)
      as (kept & d & b & Hs & Happ & _ & Hcnt & _ & Hc & Hfl & Ht & _).
    assert (Hnf' : no_faults e) by (intros k; rewrite Hfl; apply Hnf).
    assert (Hz : maxlines_curlines w = 0) by (by injection Hcnt).
    destruct (Hzero w e fname d b Hs Hnf' Hz) as (d' & b' & e' & HS & Hfs & Happ').
    exists kept, d, b, d', b', e'. split_and!; auto.
    rewrite Happ', Hc, Ht. rewrite <- str_app_assoc, Happ. by rewrite str_app_assoc.
Qed.

(* ===================================================================== *)
(** ** How often [write] rotates (lines 108-130) *)
(* ===================================================================== *)









(* ===================================================================== *)
(** ** The archive name and the full directory (lines 250-271) *)
(* ===================================================================== *)

Lemma Lstat_ok_insert_same (files : gmap string string) (p q v d : string) :
  files !! p = Some d -> Lstat_ok (<[p := v]> files) q = Lstat_ok files q.
Proof.
  intros Hp. unfold Lstat_ok. destruct (decide (p = q)) as [<-|Hne].
  - by rewrite lookup_insert_eq, Hp.
  - by rewrite lookup_insert_ne.
Qed.

Lemma find_free_ext (f1 f2 : gmap string string) (p : string) (t : Time) :
  (forall q, Lstat_ok f1 q = Lstat_ok f2 q) -> find_free f1 p t = find_free f2 p t.
Proof.
  intros H. unfold find_free.
  assert (G : forall fuel num fname b,
            find_free_loop f1 p t fuel num fname b = find_free_loop f2 p t fuel num fname b).
  { induction fuel as [|n IH]; intros num fname b; cbn [find_free_loop]; [done|].
    destruct (b && _); [|done]. rewrite H. apply IH. }
  apply G.
Qed.

(** The smallest free number is the one [find_free] takes. *)
Lemma find_free_smallest (files : gmap string string) (p : string) (t : Time) (k : Z) :
  1 <= k <= 999 ->
  Lstat_ok files (archive_name p t k) = false ->
  (forall j, 1 <= j < k -> Lstat_ok files (archive_name p t j) = true) ->
  find_free files p t = (archive_name p t k, false).
Proof.
  intros Hk Hfree Hmin. pose proof (find_free_spec files p t) as H.
  destruct (find_free files p t) as [name [|]]; cbn [fst snd] in H.
  - rewrite H in Hfree by done. done.
  - destruct H as (k' & Hk' & -> & Hfree' & Hmin').
    destruct (Z.lt_trichotomy k k') as [Hlt|[->|Hgt]]; [|done|].
    + rewrite Hmin' in Hfree by lia. done.
    + rewrite Hmin in Hfree' by lia. done.
Qed.

Lemma find_free_exhausted (files : gmap string string) (p : string) (t : Time) :
  (forall k, 1 <= k <= 999 -> Lstat_ok files (archive_name p t k) = true) ->
  snd (find_free files p t) = true.
Proof.
  intros Hall. pose proof (find_free_spec files p t) as H.
  destruct (snd (find_free files p t)); [done|].
  destruct H as (k & Hk & _ & Hfree & _). rewrite Hall in Hfree by done. done.
Qed.

(** A rotation over a full directory fails with the error of line 262,
    whatever else fails or not. *)
Lemma intRotate_exhausted (last : bool) (w : FileLogWriter) (e : World) :
  live w -> rotate w = true ->
  Lstat_ok (fs e) (filename w) = true ->
  (forall k, 1 <= k <= 999 ->
     Lstat_ok (fs e) (archive_name (filename w) (lastTime_of last (clock e (S (ticks e)))) k)
     = true) ->
  exists s', intRotate last (w, e) = Some (Some (no_free_number (filename w)), s').
Proof.
  intros Hlive Hrot Hp Hall. destruct (Hlive) as [[f Hf] Hb].
  destruct (closeFile_total (w, e) Hlive) as ([w1 e1] & HC).
  destruct (closeFile_facts _ _ _ _ _ Hf Hb HC)
    as (Hw1 & _ & Hc1 & _ & Ht1 & _ & _ & Hex & _).
  unfold intRotate. unfold bind at 1. rewrite HC.
  unfold bind at 1. rewrite time_Now_eq. rewrite Hc1, Ht1.
  unfold bind at 1, archive_old. unfold bind at 1, get_w; cbn [fst snd].
  assert (rotate w1 = rotate w) as -> by (by rewrite Hw1).
  assert (filename w1 = filename w) as -> by (by rewrite Hw1).
  rewrite Hrot. unfold bind at 1, get_world; cbn [fst snd fs set_ticks].
  assert (Hlater : forall q, Lstat_ok (fs e) q = true -> Lstat_ok (fs e1) q = true).
  { intros q. unfold Lstat_ok. destruct (fs e !! q) eqn:Hq; [|done]. intros _.
    destruct (Hex q) as [c ->]; eauto. }
  rewrite (Hlater _ Hp).
  rewrite find_free_exhausted by (intros k Hk; apply Hlater, Hall, Hk).
  unfold ret. eauto.
Qed.


(* ===================================================================== *)
(** ** The first rotation of a call of [write], and its stamp *)
(* ===================================================================== *)

Lemma rotate_if_true_inv (last : bool) (s s' : St) (err : option string) :
  rotate_if true last s = Some (err, s') ->
  exists s1, intRotate last s = Some (err, s1) /\
             match err with
             | Some m => report m s1 = Some (tt, s')
             | None => s' = s1
             end.
Proof.
  unfold rotate_if. intros H. apply bind_Some in H as (ierr & s1 & HR & H).
  destruct ierr as [m|].
  - apply bind_Some in H as ([] & s2 & Hrep & H). injection H as <- <-. eauto.
  - injection H as <- <-. eauto.
Qed.

Lemma rotate_if_false_eq (last : bool) (s : St) : rotate_if false last s = Some (None, s).
Proof. reflexivity. Qed.

(** The rotation a call of [write] starts with when a check is due: in the
    mode of the check, on the state the call found (one reading of the
    clock later when lines and size were not due); when it fails the call
    ends, when it goes through the rest of the call is a method step. *)
Lemma write_first_rotation (r : LogRecord) (w w' : FileLogWriter) (e e' : World)
    (x : WriteExit) :
  live w -> write r (w, e) = Some (x, (w', e')) ->
  let t0 := clock e (ticks e) in
  size_or_lines_due w || daily_due w t0 || hour_due w t0 = true ->
  let last := negb (size_or_lines_due w) in
  let e0 := if size_or_lines_due w then e else set_ticks (S (ticks e)) e in
  exists err w1 e1,
    intRotate last (w, e0) = Some (err, (w1, e1)) /\
    match err with
    | Some m => x = RotateFailed m
    | None => method_step (w1, e1) (w', e')
    end.
Proof.
  intros Hlive HW t0 Hdue last e0.
  apply write_inv in HW as (err & [wc ec] & HC & HP).
  assert (HPW : forall s3, live (fst s3) ->
            match err with
            | Some m => x = RotateFailed m /\ (w', e') = s3
            | None => perform_write r s3 = Some (x, (w', e'))
            end -> err = None -> method_step s3 (w', e')).
  { intros s3 Hl3 H ->. by destruct (perform_write_step _ _ _ _ Hl3 H). }
  apply rotation_checks_inv in HC as (err1 & w1 & e1 & H1 & HC).
  subst last e0. destruct (size_or_lines_due w) eqn:Hd1; cbn [negb orb] in *.
  - (* lines or size *)
    apply rotate_if_true_inv in H1 as ([wi ei] & HR & H1).
    exists err1, wi, ei. split; [exact HR|].
    destruct err1 as [m|]; [by destruct HC as (-> & _); destruct HP|].
    injection H1 as -> ->. cbv zeta in HC. destruct HC as (err2 & w2 & e2 & H2 & HC).
    destruct (Hlive) as [[f Hf] Hb].
    destruct (intRotate_effect _ _ _ _ _ _ _ Hf Hb HR) as (_ & Hl1 & _).
    destruct (rotate_if_step _ _ (wi, set_ticks (S (ticks ei)) ei) _ _ Hl1 H2) as [Hm2 Hl2].
    assert (Hm1 : method_step (wi, ei) (wi, set_ticks (S (ticks ei)) ei)).
    { split; cbn; auto; try lia; exists []; by rewrite app_nil_r. }
    destruct err2 as [m2|].
    { destruct HC as (-> & -> & ->). destruct HP as [_ [= -> ->]].
      by eapply method_step_trans. }
    destruct (rotate_if_step _ _ (w2, e2) _ _ Hl2 HC) as [Hm3 Hl3].
    eapply method_step_trans; [exact Hm1|]. eapply method_step_trans; [exact Hm2|].
    destruct err as [m3|]; [by destruct HP as [_ [= -> ->]]|].
    eapply method_step_trans; [exact Hm3|]. by apply HPW.
  - (* the day or the hour *)
    rewrite rotate_if_false_eq in H1. injection H1 as <- <- <-.
    cbv zeta in HC. fold t0 in HC. destruct HC as (err2 & w2 & e2 & H2 & HC).
    destruct (daily_due w t0) eqn:Hd2; cbn [orb] in Hdue.
    + apply rotate_if_true_inv in H2 as ([wi ei] & HR & H2).
      exists err2, wi, ei. split; [exact HR|].
      destruct err2 as [m|]; [by destruct HC as (-> & _); destruct HP|].
      injection H2 as -> ->.
      destruct (Hlive) as [[f Hf] Hb].
      destruct (intRotate_effect _ _ _ _ _ _ _ Hf Hb HR) as (_ & Hl2 & _).
      destruct (rotate_if_step _ _ (wi, ei) _ _ Hl2 HC) as [Hm3 Hl3].
      destruct err as [m3|]; [by destruct HP as [_ [= -> ->]]|].
      eapply method_step_trans; [exact Hm3|]. by apply HPW.
    + rewrite rotate_if_false_eq in H2. injection H2 as <- <- <-.
      rewrite Hdue in HC.
      apply rotate_if_true_inv in HC as ([wi ei] & HR & HC).
      exists err, wi, ei. split; [exact HR|].
      destruct err as [m|]; [by destruct HP|].
      injection HC as -> ->. destruct (Hlive) as [[f Hf] Hb].
      destruct (intRotate_effect _ _ _ _ _ _ _ Hf Hb HR) as (_ & Hl3 & _).
      by apply (HPW (wi, ei)).
Qed.




(* ===================================================================== *)
(** ** The shutdown sequence (lines 65-92) *)
(* ===================================================================== *)

Lemma closer_takes_inv (r : LogRecord) (h : St) (pc : ClosePC) (s s' : System) :
  live (fst h) -> closer_takes r h pc s = Some s' ->
  exists x, write r h = Some (x, heap s') /\
    method_step h (heap s') /\ live (fst (heap s')) /\
    s' = mkSystem (heap s') (relay s) (writer_running s) pc (sent s) (handled s ++ [(r, x)]).
Proof.
  intros Hlive H. unfold closer_takes in H.
  destruct (write r h) as [[x h']|] eqn:HW; [|discriminate]. injection H as <-.
  destruct (write_step _ _ _ _ Hlive HW) as [Hm Hl]. exists x. by split_and!.
Qed.

Lemma closer_takes_total (r : LogRecord) (h : St) (pc : ClosePC) (s : System) :
  live (fst h) -> exists s', closer_takes r h pc s = Some s'.
Proof.
  intros Hlive. unfold closer_takes.
  destruct (write_total r h Hlive) as (x & h' & ->). eauto.
Qed.

Lemma config_fields (w w' : FileLogWriter) :
  config w' = config w ->
  inRec w' = inRec w /\ rec w' = rec w /\ msgQ w' = msgQ w /\ closeCh w' = closeCh w /\
  wg w' = wg w.
Proof. intros H. injection H as ?. by split_and!. Qed.

Lemma run_app (evs1 evs2 : list Event) (s : System) :
  run (evs1 ++ evs2) s = match run evs1 s with Some s' => run evs2 s' | None => None end.
Proof.
  revert s. induction evs1 as [|ev evs IH]; intros s; cbn [run app]; [done|].
  destruct (step ev s); [apply IH|done].
Qed.

Lemma bind_eq {A B : Type} (m : M A) (k : A -> M B) (s s1 : St) (a : A) :
  m s = Some (a, s1) -> bind m k s = k a s1.
Proof. intros H. unfold bind. by rewrite H. Qed.

(** The first loop of [Close]: what [rec] buffers, oldest first. *)
Lemma close_drains_rec (l : list LogRecord) :
  forall s, closer s = CloseDrainRec -> rec (fst (heap s)) = l -> live (fst (heap s)) ->
  exists s',
    run (repeat EvCloseStep (length l)) s = Some s' /\
    drain_loop set_rec l (heap s) = Some (tt, heap s') /\
    closer s' = CloseDrainRec /\ rec (fst (heap s')) = [] /\
    msgQ (fst (heap s')) = msgQ (fst (heap s)) /\
    inRec (fst (heap s')) = inRec (fst (heap s)) /\
    live (fst (heap s')) /\
    map fst (handled s') = map fst (handled s) ++ l /\
    relay s' = relay s /\ writer_running s' = writer_running s /\ sent s' = sent s.
Proof.
  induction l as [|r rest IH]; intros [[w e] rl wr pc snt hd] Hpc Hrec Hlive; cbn [heap fst closer] in *.
  - exists (mkSystem (w, e) rl wr pc snt hd). cbn. rewrite app_nil_r. by split_and!.
  - subst pc. cbn [length repeat run step closer heap fst snd]. rewrite Hrec.
    set (s0 := mkSystem _ _ _ _ _ _).
    assert (Hl0 : live (fst (set_rec rest w, e))) by (destruct Hlive; by split).
    destruct (closer_takes_total r (set_rec rest w, e) CloseDrainRec s0 Hl0) as (s1 & Hs1).
    rewrite Hs1.
    destruct (closer_takes_inv _ _ _ _ _ Hl0 Hs1) as (x & HW & Hm & Hl1 & Heq).
    destruct (config_fields _ _ (ms_config _ _ Hm)) as (Hin & Hrc & Hq & _ & _).
    cbn [fst] in Hin, Hrc, Hq.
    destruct (IH s1) as (s' & Hrun & Hdl & Hpc' & Hrec' & Hq' & Hin' & Hl' & Hh' & Hrl' & Hwr' & Hsn');
      [by rewrite Heq|exact Hrc|exact Hl1|].
    exists s'. split_and!; auto.
    + cbn [drain_loop]. unfold bind at 1, modify_w; cbn [fst snd].
      unfold bind at 1. rewrite HW. exact Hdl.
    + by rewrite Hq', Hq.
    + by rewrite Hin', Hin.
    + rewrite Hh', Heq. cbn [handled]. rewrite map_app. cbn. by rewrite <- app_assoc.
    + by rewrite Hrl', Heq.
    + by rewrite Hwr', Heq.
    + by rewrite Hsn', Heq.
Qed.

(** The second loop: the list, front to back, nothing removed. *)
Lemma close_walks_msgQ (cursor : list LogRecord) :
  forall s, closer s = CloseDrainQ cursor -> live (fst (heap s)) ->
  exists s',
    run (repeat EvCloseStep (length cursor)) s = Some s' /\
    walk_msgQ cursor (heap s) = Some (tt, heap s') /\
    closer s' = CloseDrainQ [] /\
    rec (fst (heap s')) = rec (fst (heap s)) /\
    inRec (fst (heap s')) = inRec (fst (heap s)) /\
    live (fst (heap s')) /\
    map fst (handled s') = map fst (handled s) ++ cursor /\
    relay s' = relay s /\ writer_running s' = writer_running s /\ sent s' = sent s.
Proof.
  induction cursor as [|r rest IH]; intros [[w e] rl wr pc snt hd] Hpc Hlive;
    cbn [heap fst closer] in *.
  - exists (mkSystem (w, e) rl wr pc snt hd). cbn. rewrite app_nil_r. by split_and!.
  - subst pc. cbn [length repeat run step closer heap fst snd].
    set (s0 := mkSystem _ _ _ _ _ _).
    assert (Hl0 : live (fst (w, e))) by exact Hlive.
    destruct (closer_takes_total r (w, e) (CloseDrainQ rest) s0 Hl0) as (s1 & Hs1).
    rewrite Hs1.
    destruct (closer_takes_inv _ _ _ _ _ Hl0 Hs1) as (x & HW & Hm & Hl1 & Heq).
    destruct (config_fields _ _ (ms_config _ _ Hm)) as (Hin & Hrc & _ & _ & _).
    cbn [fst] in Hin, Hrc.
    destruct (IH s1) as (s' & Hrun & Hdl & Hpc' & Hrec' & Hin' & Hl' & Hh' & Hrl' & Hwr' & Hsn');
      [by rewrite Heq|exact Hl1|].
    exists s'. split_and!; auto.
    + cbn [walk_msgQ]. unfold bind at 1. rewrite HW. exact Hdl.
    + by rewrite Hrec', Hrc.
    + by rewrite Hin', Hin.
    + rewrite Hh', Heq. cbn [handled]. rewrite map_app. cbn. by rewrite <- app_assoc.
    + by rewrite Hrl', Heq.
    + by rewrite Hwr', Heq.
    + by rewrite Hsn', Heq.
Qed.

(** The third loop: the backlog of [inRec], when no producer sends
    meanwhile. *)
Lemma close_drains_inRec (l : list LogRecord) :
  forall s, closer s = CloseDrainIn -> inRec (fst (heap s)) = l -> live (fst (heap s)) ->
  exists s',
    run (repeat EvCloseStep (length l)) s = Some s' /\
    drain_loop set_inRec l (heap s) = Some (tt, heap s') /\
    closer s' = CloseDrainIn /\ inRec (fst (heap s')) = [] /\
    live (fst (heap s')) /\
    map fst (handled s') = map fst (handled s) ++ l /\
    relay s' = relay s /\ writer_running s' = writer_running s /\ sent s' = sent s.
Proof.
  induction l as [|r rest IH]; intros [[w e] rl wr pc snt hd] Hpc Hrec Hlive;
    cbn [heap fst closer] in *.
  - exists (mkSystem (w, e) rl wr pc snt hd). cbn. rewrite app_nil_r. by split_and!.
  - subst pc. cbn [length repeat run step closer heap fst snd]. rewrite Hrec.
    set (s0 := mkSystem _ _ _ _ _ _).
    assert (Hl0 : live (fst (set_inRec rest w, e))) by (destruct Hlive; by split).
    destruct (closer_takes_total r (set_inRec rest w, e) CloseDrainIn s0 Hl0) as (s1 & Hs1).
    rewrite Hs1.
    destruct (closer_takes_inv _ _ _ _ _ Hl0 Hs1) as (x & HW & Hm & Hl1 & Heq).
    destruct (config_fields _ _ (ms_config _ _ Hm)) as (Hin & _).
    cbn [fst] in Hin.
    destruct (IH s1) as (s' & Hrun & Hdl & Hpc' & Hrec' & Hl' & Hh' & Hrl' & Hwr' & Hsn');
      [by rewrite Heq|exact Hin|exact Hl1|].
    exists s'. split_and!; auto.
    + cbn [drain_loop]. unfold bind at 1, modify_w; cbn [fst snd].
      unfold bind at 1. rewrite HW. exact Hdl.
    + rewrite Hh', Heq. cbn [handled]. rewrite map_app. cbn. by rewrite <- app_assoc.
    + by rewrite Hrl', Heq.
    + by rewrite Hwr', Heq.
    + by rewrite Hsn', Heq.
Qed.

(** C4, as the code has it.  Once [wg.Wait()] has returned, and with no
    producer sending meanwhile, [Close] runs to its end: it writes what
    [rec] still buffers, then the list from front to back, then the backlog
    of the entry channel [inRec], each through [write], and then closes the
    file session, the handle being closed by the last step.  The steps of
    the caller of [Close] and the sequential [Close_drain] agree. *)
Theorem Close_drain_order (s : System) :
  closer s = CloseDrainRec -> live (fst (heap s)) ->
  exists n s' h1,
    run (repeat EvCloseStep n) s = Some s' /\
    closer s' = CloseDone /\
    (drain_rec ;; drain_msgQ ;; drain_inRec) (heap s) = Some (tt, h1) /\
    closeFile h1 = Some (tt, heap s') /\
    Close_drain (heap s) = Some (tt, heap s') /\
    map fst (handled s')
      = map fst (handled s) ++ rec (fst (heap s)) ++ msgQ (fst (heap s)) ++ inRec (fst (heap s)) /\
    f_closed <$> file (fst (heap s')) = Some true.
Proof.
  intros Hpc Hlive.
  destruct (close_drains_rec _ s Hpc eq_refl Hlive)
    as (s1 & Hrun1 & Hd1 & Hpc1 & Hrec1 & Hq1 & Hin1 & Hl1 & Hh1 & _).
  (* rec is empty: on to the list *)
  set (s2 := mkSystem (heap s1) (relay s1) (writer_running s1) (CloseDrainQ (msgQ (fst (heap s1))))
                      (sent s1) (handled s1)).
  assert (Hstep2 : step EvCloseStep s1 = Some s2).
  { cbn [step]. by rewrite Hpc1, Hrec1. }
  destruct (close_walks_msgQ _ s2 eq_refl Hl1)
    as (s3 & Hrun3 & Hd3 & Hpc3 & Hrec3 & Hin3 & Hl3 & Hh3 & _).
  cbn [heap handled] in Hd3, Hrec3, Hin3, Hh3.
  (* the list is walked: on to inRec *)
  set (s4 := mkSystem (heap s3) (relay s3) (writer_running s3) CloseDrainIn (sent s3) (handled s3)).
  assert (Hstep4 : step EvCloseStep s3 = Some s4).
  { cbn [step]. by rewrite Hpc3. }
  destruct (close_drains_inRec _ s4 eq_refl eq_refl Hl3)
    as (s5 & Hrun5 & Hd5 & Hpc5 & Hrec5 & Hl5 & Hh5 & _).
  cbn [heap handled] in Hd5, Hh5.
  (* inRec is empty: close the file *)
  destruct (closeFile_total (heap s5) Hl5) as (h6 & HC).
  set (s6 := mkSystem h6 (relay s5) (writer_running s5) CloseDone (sent s5) (handled s5)).
  assert (Hstep6 : step EvCloseStep s5 = Some s6).
  { cbn [step]. by rewrite Hpc5, Hrec5, HC. }
  exists (length (rec (fst (heap s))) + S (length (msgQ (fst (heap s1)))
            + S (length (inRec (fst (heap s3))) + 1)))%nat, s6, (heap s5).
  assert (H1 : drain_rec (heap s) = Some (tt, heap s1)).
  { unfold drain_rec, bind, get_w. cbv beta iota. exact Hd1. }
  assert (H2 : drain_msgQ (heap s1) = Some (tt, heap s3)).
  { unfold drain_msgQ, bind, get_w. cbv beta iota. exact Hd3. }
  assert (H3 : drain_inRec (heap s3) = Some (tt, heap s5)).
  { unfold drain_inRec, bind, get_w. cbv beta iota. exact Hd5. }
  assert (Hdrains : (drain_rec ;; drain_msgQ ;; drain_inRec) (heap s) = Some (tt, heap s5)).
  { rewrite (bind_eq _ _ _ _ _ H1), (bind_eq _ _ _ _ _ H2). exact H3. }
  split_and!.
  - rewrite repeat_app, run_app, Hrun1. cbn [repeat run]. rewrite Hstep2.
    rewrite repeat_app, run_app, Hrun3. cbn [repeat run]. rewrite Hstep4.
    rewrite repeat_app, run_app. change (heap s3) with (heap s4). rewrite Hrun5.
    cbn [repeat run Nat.add]. by rewrite Hstep6.
  - reflexivity.
  - exact Hdrains.
  - exact HC.
  - unfold Close_drain.
    rewrite (bind_eq _ _ _ _ _ H1), (bind_eq _ _ _ _ _ H2), (bind_eq _ _ _ _ _ H3).
    exact HC.
  - change (handled s6) with (handled s5). rewrite Hh5.
    change (handled s4) with (handled s3). rewrite Hh3.
    change (handled s2) with (handled s1). rewrite Hh1.
    change (heap s4) with (heap s3). change (heap s2) with (heap s1) in Hin3.
    rewrite Hin3, Hq1, Hin1, <- !app_assoc. reflexivity.
  - change (heap s6) with h6. destruct (heap s5) as [w5 e5]. destruct h6 as [w6 e6].
    destruct Hl5 as [[f Hf] Hb]. cbn [fst] in *.
    destruct (closeFile_facts _ _ _ _ _ Hf Hb HC) as (Hw6 & _). rewrite Hw6. reflexivity.
Qed.
(* ===================================================================== *)
(** ** The writer loop and a failing rotation (lines 203-226) *)
(* ===================================================================== *)

(** C3, as the code has it.  When the rotation requested through
    [Rotate()] fails, the writer loop reports the error and returns (line
    214): the goroutine is gone, its [wg.Done()] has run, and no record,
    tick or rotate signal is taken by it any more.  A rotation that fails
    inside [write] is different: the loop goes round again. *)
Theorem rotate_signal_failure_ends_writer_loop (s : System) (msg : string) (h' : St) :
  writer_running s = true ->
  intRotate false (heap s) = Some (Some msg, h') ->
  (exists s',
     step EvWriterRot s = Some s' /\
     writer_running s' = false /\
     stderr (snd (heap s')) = stderr (snd h') ++ [report_line (fst h') msg] /\
     wg (fst (heap s')) = pred (wg (fst h')) /\
     step EvWriterRec s' = None /\ step EvWriterTick s' = None /\
     step EvWriterRot s' = None /\ step EvRelayToWriter s' = None) /\
  (forall s1, step EvWriterRec s = Some s1 -> writer_running s1 = true).
Proof.
  intros Hrun Hrot. split.
  - unfold step at 1. rewrite Hrun. unfold writer_on_rot.
    rewrite (bind_eq _ _ _ _ _ Hrot).
    unfold bind, report, get_w, modify_world, ret. cbv beta iota. cbn [fst snd].
    eexists. split; [reflexivity|].
    destruct h' as [w1 e1]. cbn [heap writer_running wg_Done fst snd stderr set_stderr wg set_wg].
    split_and!; try reflexivity.
    unfold step. cbn [relay writer_running].
    destruct (relay s) as [[[m|] [|]]|]; try reflexivity.
    match goal with |- match ?x with _ => _ end = _ => destruct x; reflexivity end.
  - intros s1 H. unfold step in H. rewrite Hrun in H.
    destruct (rec (fst (heap s))) as [|r rest]; [discriminate|].
    unfold writer_takes in H.
    destruct (writer_on_rec r _) as [[[l x] h1]|]; [|discriminate].
    injection H as <-. exact Hrun.
Qed.
(* ===================================================================== *)
(** ** The drain of [Close] goes through [write] (lines 69-89) *)
(* ===================================================================== *)

Lemma next_drained_step (s : System) (r : LogRecord) (h : St) (pc : ClosePC) :
  next_drained s = Some (r, h, pc) -> step EvCloseStep s = closer_takes r h pc s.
Proof.
  unfold next_drained, step. destruct (closer s) as [| | |[|r' rest]| |]; try discriminate.
  - destruct (rec (fst (heap s))); [discriminate|]. by intros [= -> <- <-].
  - by intros [= -> <- <-].
  - destruct (inRec (fst (heap s))); [discriminate|]. by intros [= -> <- <-].
Qed.

(** C2, as the code has it.  Every record the drain of [Close] takes, from
    [rec], from the list or from [inRec], is written by [write], with its
    rotation checks: the step is always possible, and when a limit is
    reached or the day or the hour has changed, the drain rotates (the
    file is opened anew) or the rotation fails and the record is dropped. *)
Theorem Close_drain_applies_thresholds (s : System) (r : LogRecord) (h : St) (pc : ClosePC) :
  next_drained s = Some (r, h, pc) -> live (fst h) ->
  let t0 := clock (snd h) (ticks (snd h)) in
  exists s' x lg,
    step EvCloseStep s = Some s' /\
    write r h = Some (x, heap s') /\
    handled s' = handled s ++ [(r, x)] /\
    closer s' = pc /\
    syslog (snd (heap s')) = syslog (snd h) ++ lg /\
    (size_or_lines_due (fst h) || daily_due (fst h) t0 || hour_due (fst h) t0 = true ->
     (exists m, x = RotateFailed m) \/ (1 <= opens lg)%nat).
Proof.
  intros Hnext Hlive t0. rewrite (next_drained_step _ _ _ _ Hnext).
  destruct (closer_takes_total r h pc s Hlive) as (s' & Hs').
  destruct (closer_takes_inv _ _ _ _ _ Hlive Hs') as (x & HW & Hm & Hl' & Heq).
  destruct (ms_syslog _ _ Hm) as (lg & Hlg).
  exists s', x, lg. split_and!; auto.
  - by rewrite Heq.
  - by rewrite Heq.
  - intros Hdue. destruct h as [w e], (heap s') as [w' e']. cbn [fst snd] in *.
    destruct (write_first_rotation _ _ _ _ _ _ Hlive HW Hdue) as (err & w1 & e1 & HR & Hcase).
    destruct err as [m|]; [left; eauto|right].
    destruct Hlive as [[f Hf] Hb].
    destruct (intRotate_effect _ _ _ _ _ _ _ Hf Hb HR)
      as (_ & _ & _ & _ & _ & _ & (l1 & Hl1 & Ho1 & _) & _).
    destruct (ms_syslog _ _ Hcase) as (l2 & Hl2). cbn [snd] in Hl2.
    assert (He0 : syslog (if size_or_lines_due w then e else set_ticks (S (ticks e)) e)
                  = syslog e) by (by destruct (size_or_lines_due w)).
    rewrite Hl1, He0, Hlg, <- app_assoc in Hl2. apply app_inv_head in Hl2. subst lg.
    rewrite opens_app, Ho1. lia.
Qed.
(* ===================================================================== *)
(** ** Checking a range of numbers by computation *)
(* ===================================================================== *)

Lemma all_upto (P : Z -> bool) (n : nat) :
  forallb (fun i => P (Z.of_nat i)) (seq 1 n) = true ->
  forall k, 1 <= k <= Z.of_nat n -> P k = true.
Proof.
  intros H k Hk. rewrite forallb_forall in H.
  specialize (H (Z.to_nat k)). rewrite Z2Nat.id in H by lia.
  apply H, in_seq. lia.
Qed.
(* ===================================================================== *)
(** ** [write] when nothing fails (lines 107-143) *)
(* ===================================================================== *)

Lemma perform_write_ok (r : LogRecord) (w : FileLogWriter) (e : World) (p d b : string) :
  session (w, e) p d b -> no_faults e ->
  let text := record_text w r in
  exists d' b' e',
    perform_write r (w, e)
      = Some (Written (Z.of_nat (String.length text)),
              (set_counts (wrap_int (maxlines_curlines w + 1))
                          (wrap_int (maxsize_cursize w + Z.of_nat (String.length text)))
                          (set_bufW (Some (mkWriter b' None)) w), e')) /\
    fs e' = <[p := d']> (fs e) /\
    d' +:+ b' = d +:+ b +:+ text /\
    bufio_step (w, e) (set_bufW (Some (mkWriter b' None)) w, e').
Proof.
  intros Hs Hnf text.
  destruct (bufW_WriteString_ok text w e p d b Hs Hnf) as (d' & b' & e' & HW & Hfs & Happ & Hst).
  exists d', b', e'. split; [|by split_and!].
  unfold perform_write. unfold bind at 1, get_w; cbn [fst snd]. fold text.
  unfold bind at 1. rewrite HW. cbn [fst snd].
  unfold bind, modify_w, ret; cbn [fst snd]. reflexivity.
Qed.

(** A record that needs no rotation: one reading of the clock, then the
    text joins what the session holds. *)
Lemma write_plain (r : LogRecord) (w : FileLogWriter) (e : World) (p x : string) :
  stream (w, e) p x -> no_faults e ->
  size_or_lines_due w = false -> daily w = false -> hour w = false ->
  exists w' e',
    write r (w, e) = Some (Written (Z.of_nat (String.length (record_text w r))), (w', e')) /\
    stream (w', e') p (x +:+ record_text w r) /\
    config w' = config w /\
    maxlines_curlines w' = wrap_int (maxlines_curlines w + 1) /\
    (forall q, q <> p -> fs e' !! q = fs e !! q) /\
    clock e' = clock e /\ fault e' = fault e /\ ticks e' = S (ticks e) /\
    stderr e' = stderr e /\
    renames (syslog e') = renames (syslog e) /\ opens (syslog e') = opens (syslog e).
Proof.
  intros (d & b & Hs & Hx) Hnf Hdue Hd Hh.
  set (e0 := set_ticks (S (ticks e)) e).
  assert (Hs0 : session (w, e0) p d b) by exact Hs.
  assert (Hnf0 : no_faults e0) by exact Hnf.
  destruct (perform_write_ok r w e0 p d b Hs0 Hnf0) as (d' & b' & e' & HP & Hfs & Happ & Hst).
  eexists _, e'. split.
  { unfold write, rotation_checks. unfold bind at 1 2, get_w; cbn [fst snd].
    rewrite Hdue. unfold rotate_if at 1. unfold bind at 1, ret at 1.
    unfold bind at 1. rewrite time_Now_eq. unfold bind at 1 2, get_w; cbn [fst snd].
    unfold daily_due. rewrite Hd. cbn [andb rotate_if].
    unfold ret at 1. unfold bind at 1; cbn [fst snd].
    unfold hour_due. rewrite Hh. cbn [andb rotate_if].
    unfold ret at 1. fold e0. exact HP. }
  destruct Hs as (Hf & Hb & Hp). cbn [fst snd] in *.
  split_and!.
  - exists d', b'. split; [|by rewrite Happ, <- Hx, str_app_assoc].
    split_and!; cbn [fst snd]; [exact Hf|reflexivity|by rewrite Hfs, lookup_insert_eq].
  - reflexivity.
  - reflexivity.
  - intros q Hq. rewrite Hfs. by rewrite lookup_insert_ne.
  - apply (bio_clock _ _ Hst).
  - apply (bio_fault _ _ Hst).
  - apply (bio_ticks _ _ Hst).
  - apply (bio_stderr _ _ Hst).
  - apply (bufio_step_renames _ _ Hst).
  - apply (bufio_step_opens _ _ Hst).
Qed.

Lemma wrap_int_1 : wrap_int (0 + 1) = 1.
Proof. reflexivity. Qed.

(** A record that finds the limit of lines or size reached, with
    retention and a free archive name: the session ends with the trailer
    and moves to the archive, a new one starts with the header, and the
    record is its first line. *)
Lemma write_rotating (r : LogRecord) (w : FileLogWriter) (e : World) (p x : string) :
  stream (w, e) p x -> no_faults e -> filename w = p -> rotate w = true ->
  size_or_lines_due w = true -> daily w = false -> hour w = false ->
  let stamp := clock e (S (ticks e)) in
  let found := find_free (fs e) p stamp in
  snd found = false ->
  exists w' e',
    write r (w, e) = Some (Written (Z.of_nat (String.length (record_text w r))), (w', e')) /\
    stream (w', e') p (FormatLogRecord (header w) (record_at stamp) +:+ record_text w r) /\
    config w' = config w /\
    maxlines_curlines w' = 1 /\
    fst found <> p /\
    fs e' !! fst found
      = Some (x +:+ FormatLogRecord (trailer w) (record_at (clock e (ticks e)))) /\
    (forall q, q <> p -> q <> fst found -> fs e' !! q = fs e !! q) /\
    clock e' = clock e /\ fault e' = fault e /\ ticks e' = S (S (S (ticks e))) /\
    stderr e' = stderr e /\
    renames (syslog e') = renames (syslog e) ++ [(p, fst found)] /\
    opens (syslog e') = S (opens (syslog e)).
Proof.
  intros (d & b & Hs & Hx) Hnf Hfn Hrot Hdue Hd Hh stamp found Hfree.
  pose proof (session_lookup _ _ _ _ _ Hs) as Hp.
  set (old := d +:+ b +:+ FormatLogRecord (trailer w) (record_at (clock e (ticks e)))).
  set (fs1 := <[p := old]> (fs e)).
  assert (Hff : find_free fs1 p stamp = found).
  { apply find_free_ext. intros q. by apply (Lstat_ok_insert_same _ _ _ _ d). }
  destruct (intRotate_ok false w e p d b Hs Hfn Hnf)
    as (d1 & b1 & e1 & HR & Hfs1 & Happ1 & Hc1 & Hfl1 & Ht1 & He1 & Hren1 & Ho1).
  { fold old. fold fs1. cbn [lastTime_of]. fold stamp. by rewrite Hff, Hfree, andb_false_r. }
  fold old in Hfs1, Hren1. fold fs1 in Hfs1, Hren1. cbn [lastTime_of] in Hfs1, Hren1.
  fold stamp in Hfs1, Hren1, HR, Happ1. rewrite Hff, Hrot in Hfs1, Hren1.
  rewrite Hrot in Happ1.
  set (w1 := set_counts 0 0 _) in HR.
  set (e2 := set_ticks (S (ticks e1)) e1).
  assert (Hne : fst found <> p).
  { rewrite <- Hff. apply find_free_not_self; [|by rewrite Hff].
    unfold fs1. rewrite lookup_insert_eq. eauto. }
  assert (Hs2 : session (w1, e2) p d1 b1).
  { split_and!; cbn [fst snd]; try reflexivity. unfold e2. cbn [fs set_ticks].
    by rewrite Hfs1, lookup_insert_eq. }
  assert (Hnf2 : no_faults e2) by (intros k; unfold e2; cbn; rewrite Hfl1; apply Hnf).
  destruct (perform_write_ok r w1 e2 p d1 b1 Hs2 Hnf2) as (d' & b' & e' & HP & Hfs & Happ & Hst).
  change (record_text w1 r) with (record_text w r) in *.
  eexists _, e'. split.
  { unfold write, rotation_checks. unfold bind at 1 2, get_w; cbn [fst snd].
    rewrite Hdue. unfold rotate_if at 1. unfold bind at 1 2. rewrite HR.
    unfold ret at 1. unfold bind at 1. rewrite time_Now_eq.
    unfold bind at 1 2, get_w; cbn [fst snd].
    unfold daily_due. change (daily w1) with (daily w). rewrite Hd. cbn [andb rotate_if].
    unfold ret at 1. unfold bind at 1; cbn [fst snd].
    unfold hour_due. change (hour w1) with (hour w). rewrite Hh. cbn [andb rotate_if].
    unfold ret at 1. fold e2. exact HP. }
  split_and!.
  - exists d', b'. split.
    + split_and!; cbn [fst snd]; try reflexivity. by rewrite Hfs, lookup_insert_eq.
    + rewrite Happ, <- str_app_assoc, Happ1. reflexivity.
  - reflexivity.
  - reflexivity.
  - exact Hne.
  - rewrite Hfs. unfold e2; cbn [fs set_ticks]. rewrite Hfs1.
    rewrite lookup_insert_ne by done. rewrite lookup_insert_ne by done.
    rewrite lookup_insert_eq. unfold old. by rewrite <- Hx, str_app_assoc.
  - intros q Hq1 Hq2. rewrite Hfs. unfold e2; cbn [fs set_ticks]. rewrite Hfs1.
    rewrite !lookup_insert_ne by done. rewrite lookup_delete_ne by done.
    unfold fs1. by rewrite lookup_insert_ne.
  - pose proof (bio_clock _ _ Hst) as H. cbn [snd] in H. rewrite H. exact Hc1.
  - pose proof (bio_fault _ _ Hst) as H. cbn [snd] in H. rewrite H. exact Hfl1.
  - pose proof (bio_ticks _ _ Hst) as H. cbn [snd] in H. rewrite H.
    unfold e2; cbn [ticks set_ticks]. by rewrite Ht1.
  - pose proof (bio_stderr _ _ Hst) as H. cbn [snd] in H. rewrite H. exact He1.
  - pose proof (bufio_step_renames _ _ Hst) as H. cbn [snd] in H. rewrite H. exact Hren1.
  - pose proof (bufio_step_opens _ _ Hst) as H. cbn [snd] in H. rewrite H. exact Ho1.
Qed.
(* ===================================================================== *)
(** ** Rotation on the number of lines *)
(* ===================================================================== *)

Lemma wrap_int_small (z : Z) : - 2 ^ 63 <= z < 2 ^ 63 -> wrap_int z = z.
Proof. intros H. unfold wrap_int. rewrite Z.mod_small; lia. Qed.

Lemma str_app_inv_head (a b c : string) : a +:+ b = a +:+ c -> b = c.
Proof. induction a as [|x a IH]; cbn; [done|]. intros [= H]. by apply IH. Qed.

Lemma archive_name_1_2 (p : string) (t : Time) : archive_name p t 1 <> archive_name p t 2.
Proof.
  unfold archive_name. intros H.
  apply str_app_inv_head in H. apply str_app_inv_head in H.
  vm_compute in H. discriminate H.
Qed.

Lemma first_free (files : gmap string string) (p : string) (t : Time) :
  files !! archive_name p t 1 = None -> find_free files p t = (archive_name p t 1, false).
Proof.
  intros H. apply find_free_smallest; [lia| |intros j Hj; lia].
  unfold Lstat_ok. by rewrite H.
Qed.

(** With one archive [a1] in a directory that had none, the first or the
    second name is free. *)
Lemma second_free (files files' : gmap string string) (p a1 : string) (t : Time) :
  (forall k, 1 <= k <= 2 -> files !! archive_name p t k = None) ->
  is_Some (files !! p) -> is_Some (files' !! a1) ->
  (forall q, q <> p -> q <> a1 -> files' !! q = files !! q) ->
  exists k, 1 <= k <= 2 /\ find_free files' p t = (archive_name p t k, false) /\
            archive_name p t k <> a1.
Proof.
  intros Hnone [c Hp] [c1 Ha1] Hframe.
  assert (Hnp : forall k, 1 <= k <= 2 -> archive_name p t k <> p).
  { intros k Hk Heq. specialize (Hnone k Hk). rewrite Heq, Hp in Hnone. done. }
  destruct (decide (archive_name p t 1 = a1)) as [Heq|Hne].
  - exists 2. split; [lia|].
    assert (Hne2 : archive_name p t 2 <> a1).
    { rewrite <- Heq. intros H. by apply (archive_name_1_2 p t). }
    split; [|exact Hne2].
    apply find_free_smallest; [lia| |].
    + unfold Lstat_ok. rewrite Hframe by (auto; apply Hnp; lia). by rewrite Hnone by lia.
    + intros j Hj. assert (j = 1) as -> by lia. unfold Lstat_ok. by rewrite Heq, Ha1.
  - exists 1. split; [lia|]. split; [|exact Hne].
    apply first_free. rewrite Hframe by (auto; apply Hnp; lia). apply Hnone. lia.
Qed.

Lemma lines_only_config (w w' : FileLogWriter) (p : string) (m c c' : Z) :
  lines_only w p m c -> config w' = config w -> maxlines_curlines w' = c' ->
  lines_only w' p m c' /\ record_text w' = record_text w /\
  header w' = header w /\ trailer w' = trailer w.
Proof.
  intros (H1 & H2 & H3 & H4 & H5 & H6 & H7) Hc Hl. unfold config in Hc.
  injection Hc as _ _ _ _ _ Hfn Hfmt Hhd Htr Hpre Hml Hms Hdl Hhr Hrt.
  unfold lines_only, record_text. rewrite Hfn, Hfmt, Hpre, Hml, Hms, Hdl, Hhr, Hrt.
  by split_and!.
Qed.

Lemma lines_not_due (w : FileLogWriter) (p : string) (m c : Z) :
  lines_only w p m c -> c < m -> size_or_lines_due w = false.
Proof.
  intros (_ & _ & H3 & H4 & _ & _ & H7) Hc. unfold size_or_lines_due.
  rewrite H3, H4, H7. replace (m <=? c) with false by (symmetry; apply Z.leb_gt; lia).
  by rewrite andb_false_r.
Qed.

Lemma lines_due (w : FileLogWriter) (p : string) (m : Z) :
  lines_only w p m m -> 0 < m -> size_or_lines_due w = true.
Proof.
  intros (_ & _ & H3 & H4 & _ & _ & H7) Hc. unfold size_or_lines_due.
  rewrite H3, H7. replace (0 <? m) with true by (symmetry; apply Z.ltb_lt; lia).
  by rewrite Z.leb_refl.
Qed.

(** A record below the limit: it is written and counted. *)
Lemma write_counts_line (r : LogRecord) (w : FileLogWriter) (e : World) (p x : string)
    (m c : Z) :
  stream (w, e) p x -> no_faults e -> lines_only w p m c -> 0 <= c < m -> m < 2 ^ 63 ->
  exists w' e',
    write r (w, e) = Some (Written (Z.of_nat (String.length (record_text w r))), (w', e')) /\
    stream (w', e') p (x +:+ record_text w r) /\
    no_faults e' /\ lines_only w' p m (c + 1) /\ config w' = config w /\
    (forall q, q <> p -> fs e' !! q = fs e !! q) /\
    clock e' = clock e /\ ticks e' = S (ticks e) /\
    renames (syslog e') = renames (syslog e) /\ opens (syslog e') = opens (syslog e).
Proof.
  intros Hs Hnf Hlo Hc Hm.
  destruct (Hlo) as (_ & _ & _ & _ & Hd & Hh & Hcur).
  destruct (write_plain r w e p x Hs Hnf (lines_not_due _ _ _ _ Hlo (proj2 Hc)) Hd Hh)
    as (w' & e' & HW & Hs' & Hcfg & Hl & Hfr & Hcl & Hfl & Ht & _ & Hrn & Ho).
  exists w', e'. split_and!; auto.
  - intros k. rewrite Hfl. apply Hnf.
  - apply (lines_only_config w w' p m c); auto.
    rewrite Hl, Hcur. apply wrap_int_small. lia.
Qed.

(** A record at the limit: the log is rotated, the record is the first
    line of the new file. *)
Lemma write_rotates_line (r : LogRecord) (w : FileLogWriter) (e : World) (p x : string)
    (m : Z) (a : string) :
  stream (w, e) p x -> no_faults e -> lines_only w p m m -> 0 < m ->
  find_free (fs e) p (clock e (S (ticks e))) = (a, false) ->
  exists w' e',
    write r (w, e) = Some (Written (Z.of_nat (String.length (record_text w r))), (w', e')) /\
    stream (w', e') p
      (FormatLogRecord (header w) (record_at (clock e (S (ticks e)))) +:+ record_text w r) /\
    no_faults e' /\ lines_only w' p m 1 /\ config w' = config w /\
    a <> p /\
    fs e' !! a = Some (x +:+ FormatLogRecord (trailer w) (record_at (clock e (ticks e)))) /\
    (forall q, q <> p -> q <> a -> fs e' !! q = fs e !! q) /\
    clock e' = clock e /\ ticks e' = S (S (S (ticks e))) /\
    renames (syslog e') = renames (syslog e) ++ [(p, a)] /\
    opens (syslog e') = S (opens (syslog e)).
Proof.
  intros Hs Hnf Hlo Hm Hff.
  destruct (Hlo) as (Hfn & Hrot & _ & _ & Hd & Hh & Hcur).
  destruct (write_rotating r w e p x Hs Hnf Hfn Hrot (lines_due _ _ _ Hlo Hm) Hd Hh)
    as (w' & e' & HW & Hs' & Hcfg & Hl & Hne & Ha & Hfr & Hcl & Hfl & Ht & _ & Hrn & Ho).
  { by rewrite Hff. }
  rewrite Hff in Hne, Ha, Hfr, Hrn. cbn [fst] in *.
  exists w', e'. split_and!; auto.
  - intros k. rewrite Hfl. apply Hnf.
  - by apply (lines_only_config w w' p m m).
Qed.

Lemma write_all_cons (r : LogRecord) (rest : list LogRecord) (s s' s'' : St)
    (x : WriteExit) (xs : list WriteExit) :
  write r s = Some (x, s') -> write_all rest s' = Some (xs, s'') ->
  write_all (r :: rest) s = Some (x :: xs, s'').
Proof.
  intros H1 H2. cbn [write_all]. rewrite (bind_eq _ _ _ _ _ H1).
  by rewrite (bind_eq _ _ _ _ _ H2).
Qed.

Lemma config_texts (w w' : FileLogWriter) :
  config w' = config w ->
  record_text w' = record_text w /\ header w' = header w /\ trailer w' = trailer w.
Proof.
  unfold config. intros Hc. injection Hc as _ _ _ _ _ Hfn Hfmt Hhd Htr Hpre _ _ _ _ _.
  unfold record_text. by rewrite Hfmt, Hpre.
Qed.

(** C8.  A log writer that keeps old logs and rotates on lines only, with
    the limit 3 and no line counted yet, in a directory without archives
    under the names the two rotations try, nothing failing.  Seven records
    written one after the other are all accepted and cause exactly two
    rotations, before the fourth and before the seventh: the first archive
    holds what the
    session held followed by the records 1 to 3 and the trailer, the
    second the header, the records 4 to 6 and the trailer, and the log
    itself the header and record 7, with one line counted. *)
Theorem seven_records_limit_three (r1 r2 r3 r4 r5 r6 r7 : LogRecord) (w : FileLogWriter)
    (e : World) (p x : string) :
  let T := record_text w in
  let time n := clock e (ticks e + n)%nat in
  stream (w, e) p x -> no_faults e -> lines_only w p 3 0 ->
  fs e !! archive_name p (time 4%nat) 1 = None ->
  (forall k, 1 <= k <= 2 -> fs e !! archive_name p (time 9%nat) k = None) ->
  let H t := FormatLogRecord (header w) (record_at t) in
  let F t := FormatLogRecord (trailer w) (record_at t) in
  exists w' e' a1 a2,
    write_all [r1; r2; r3; r4; r5; r6; r7] (w, e)
      = Some (map (fun r => Written (Z.of_nat (String.length (T r))))
                  [r1; r2; r3; r4; r5; r6; r7], (w', e')) /\
    renames (syslog e') = renames (syslog e) ++ [(p, a1); (p, a2)] /\
    opens (syslog e') = S (S (opens (syslog e))) /\
    a1 = archive_name p (time 4%nat) 1 /\
    (exists k, 1 <= k <= 2 /\ a2 = archive_name p (time 9%nat) k) /\
    a1 <> a2 /\ a1 <> p /\ a2 <> p /\
    fs e' !! a1 = Some (x +:+ T r1 +:+ T r2 +:+ T r3 +:+ F (time 3%nat)) /\
    fs e' !! a2 = Some (H (time 4%nat) +:+ T r4 +:+ T r5 +:+ T r6 +:+ F (time 8%nat)) /\
    stream (w', e') p (H (time 9%nat) +:+ T r7) /\
    maxlines_curlines w' = 1.
Proof.
  intros T time Hs Hnf Hlo Hnone4 Hnone9 H F.
  assert (Hp : is_Some (fs e !! p)).
  { destruct Hs as (d & b & (_ & _ & Hd) & _). cbn [fst snd] in Hd. eauto. }
  assert (Hnp : archive_name p (time 4%nat) 1 <> p).
  { intros Heq. rewrite Heq in Hnone4. destruct Hp as [c Hp]. by rewrite Hp in Hnone4. }
  (* records 1 to 3 *)
  destruct (write_counts_line r1 w e p x 3 0 Hs Hnf Hlo)
    as (w1 & e1 & HW1 & Hs1 & Hnf1 & Hlo1 & Hcfg1 & Hfr1 & Hcl1 & Ht1 & Hrn1 & Ho1); [lia|lia|].
  destruct (config_texts _ _ Hcfg1) as (HT1 & HH1 & HF1).
  destruct (write_counts_line r2 w1 e1 p _ 3 1 Hs1 Hnf1 Hlo1)
    as (w2 & e2 & HW2 & Hs2 & Hnf2 & Hlo2 & Hcfg2 & Hfr2 & Hcl2 & Ht2 & Hrn2 & Ho2); [lia|lia|].
  rewrite Hcfg1 in Hcfg2. destruct (config_texts _ _ Hcfg2) as (HT2 & HH2 & HF2).
  destruct (write_counts_line r3 w2 e2 p _ 3 2 Hs2 Hnf2 Hlo2)
    as (w3 & e3 & HW3 & Hs3 & Hnf3 & Hlo3 & Hcfg3 & Hfr3 & Hcl3 & Ht3 & Hrn3 & Ho3); [lia|lia|].
  rewrite Hcfg2 in Hcfg3. destruct (config_texts _ _ Hcfg3) as (HT3 & HH3 & HF3).
  (* record 4: the first rotation *)
  set (a1 := archive_name p (time 4%nat) 1).
  assert (Hc3 : clock e3 = clock e) by congruence.
  assert (Hk3 : ticks e3 = (ticks e + 3)%nat) by lia.
  assert (Hfr03 : forall q, q <> p -> fs e3 !! q = fs e !! q).
  { intros q Hq. by rewrite Hfr3, Hfr2, Hfr1. }
  assert (Hff1 : find_free (fs e3) p (clock e3 (S (ticks e3))) = (a1, false)).
  { rewrite Hc3, Hk3. replace (S (ticks e + 3)) with (ticks e + 4)%nat by lia.
    apply first_free. rewrite Hfr03 by exact Hnp. exact Hnone4. }
  change (2 + 1) with 3 in Hlo3.
  destruct (write_rotates_line r4 w3 e3 p _ 3 a1 Hs3 Hnf3 Hlo3)
    as (w4 & e4 & HW4 & Hs4 & Hnf4 & Hlo4 & Hcfg4 & Hne1 & Ha1 & Hfr4 & Hcl4 & Ht4 & Hrn4 & Ho4);
    [lia|exact Hff1|].
  rewrite Hcfg3 in Hcfg4. destruct (config_texts _ _ Hcfg4) as (HT4 & HH4 & HF4).
  (* records 5 and 6 *)
  destruct (write_counts_line r5 w4 e4 p _ 3 1 Hs4 Hnf4 Hlo4)
    as (w5 & e5 & HW5 & Hs5 & Hnf5 & Hlo5 & Hcfg5 & Hfr5 & Hcl5 & Ht5 & Hrn5 & Ho5); [lia|lia|].
  rewrite Hcfg4 in Hcfg5. destruct (config_texts _ _ Hcfg5) as (HT5 & HH5 & HF5).
  destruct (write_counts_line r6 w5 e5 p _ 3 2 Hs5 Hnf5 Hlo5)
    as (w6 & e6 & HW6 & Hs6 & Hnf6 & Hlo6 & Hcfg6 & Hfr6 & Hcl6 & Ht6 & Hrn6 & Ho6); [lia|lia|].
  rewrite Hcfg5 in Hcfg6. destruct (config_texts _ _ Hcfg6) as (HT6 & HH6 & HF6).
  (* record 7: the second rotation *)
  assert (Hc6 : clock e6 = clock e) by congruence.
  assert (Hk6 : ticks e6 = (ticks e + 8)%nat) by lia.
  assert (Ha16 : fs e6 !! a1 = fs e4 !! a1).
  { by rewrite Hfr6, Hfr5. }
  rewrite Ha1 in Ha16.
  assert (Hfr06 : forall q, q <> p -> q <> a1 -> fs e6 !! q = fs e !! q).
  { intros q Hq1 Hq2. by rewrite Hfr6, Hfr5, Hfr4, Hfr03. }
  destruct (second_free (fs e) (fs e6) p a1 (time 9%nat)) as (k & Hk & Hff2 & Hne12);
    [exact Hnone9|exact Hp|by rewrite Ha16|exact Hfr06|].
  set (a2 := archive_name p (time 9%nat) k) in *.
  change (2 + 1) with 3 in Hlo6.
  destruct (write_rotates_line r7 w6 e6 p _ 3 a2 Hs6 Hnf6 Hlo6)
    as (w7 & e7 & HW7 & Hs7 & Hnf7 & Hlo7 & Hcfg7 & Hne2 & Ha2 & Hfr7 & Hcl7 & Ht7 & Hrn7 & Ho7);
    [lia| |].
  { rewrite Hc6, Hk6. replace (S (ticks e + 8)) with (ticks e + 9)%nat by lia. exact Hff2. }
  exists w7, e7, a1, a2.
  rewrite HT1 in *. rewrite HT2 in *. rewrite HT3 in *. rewrite HT4 in *. rewrite HT5 in *.
  rewrite HT6 in *.
  split_and!.
  - cbn [map].
    eapply write_all_cons; [exact HW1|]. eapply write_all_cons; [exact HW2|].
    eapply write_all_cons; [exact HW3|]. eapply write_all_cons; [exact HW4|].
    eapply write_all_cons; [exact HW5|]. eapply write_all_cons; [exact HW6|].
    eapply write_all_cons; [exact HW7|]. reflexivity.
  - rewrite Hrn7, Hrn6, Hrn5, Hrn4, Hrn3, Hrn2, Hrn1, <- app_assoc. reflexivity.
  - lia.
  - reflexivity.
  - exists k. by split.
  - intros Heq. by apply Hne12.
  - exact Hne1.
  - exact Hne2.
  - rewrite Hfr7 by auto. rewrite Ha16, HF3, Hc3, Hk3. unfold F, time, T.
    by rewrite !str_app_assoc.
  - rewrite Ha2, HF6, HH3, Hc6, Hk6, Hc3, Hk3. unfold H, F, time, T.
    replace (S (ticks e + 3)) with (ticks e + 4)%nat by lia.
    by rewrite !str_app_assoc.
  - rewrite HH6, Hc6, Hk6 in Hs7.
    replace (S (ticks e + 8)) with (ticks e + 9)%nat in Hs7 by lia. exact Hs7.
  - by destruct Hlo7 as (_ & _ & _ & _ & _ & _ & ?).
Qed.
(* ===================================================================== *)
(** ** The full directory *)
(* ===================================================================== *)

(** In [full_state] the log and every archive name of the hour exist, and
    the limit of lines is reached. *)
Lemma full_state_facts :
  live (fst full_state) /\
  rotate (fst full_state) = true /\
  Lstat_ok (fs (snd full_state)) (filename (fst full_state)) = true /\
  (forall k, 1 <= k <= 999 ->
     Lstat_ok (fs (snd full_state))
       (archive_name (filename (fst full_state))
          (lastTime_of false (clock (snd full_state) (S (ticks (snd full_state))))) k) = true) /\
  size_or_lines_due (fst full_state) = true.
Proof.
  split_and!.
  - split; vm_compute; eauto.
  - vm_compute; reflexivity.
  - vm_compute; reflexivity.
  - apply (all_upto (fun k => Lstat_ok (fs (snd full_state))
                       (archive_name (filename (fst full_state))
                          (lastTime_of false
                             (clock (snd full_state) (S (ticks (snd full_state))))) k)) 999).
    vm_compute. reflexivity.
  - vm_compute; reflexivity.
Qed.
(* ===================================================================== *)
(** ** The order of the records (lines 61-92 and 174-226) *)
(* ===================================================================== *)

Lemma writer_on_rot_frame (h h' : St) (l : Loop) :
  live (fst h) -> writer_on_rot h = Some (l, h') ->
  config (fst h') = config (fst h) /\ live (fst h').
Proof.
  intros Hlive H. destruct h as [w e]. unfold writer_on_rot in H.
  apply bind_Some in H as (err & [w1 e1] & HR & H).
  destruct (Hlive) as [[f Hf] Hb]. cbn [fst] in *.
  destruct (intRotate_effect _ _ _ _ _ _ _ Hf Hb HR) as (Hcfg & Hl1 & _).
  destruct err as [m|].
  - apply bind_Some in H as ([] & s2 & Hrep & H). injection H as _ <-.
    rewrite report_eq in Hrep. injection Hrep as <-. by split.
  - injection H as _ <-. by split.
Qed.

Lemma writer_on_tick_frame (h h' : St) (l : Loop) :
  live (fst h) -> writer_on_tick h = Some (l, h') ->
  config (fst h') = config (fst h) /\ live (fst h').
Proof.
  intros Hlive H. unfold writer_on_tick in H. unfold bind at 1 in H.
  destruct (bufW_Flush h) as [[err [w1 e1]]|] eqn:HF; [|discriminate].
  pose proof (bufW_Flush_step _ _ _ HF) as Hst.
  pose proof (bufio_step_config _ _ Hst) as Hc.
  pose proof (bufio_step_live _ _ Hst Hlive) as Hl. cbn [fst] in *.
  destruct err as [m|].
  - unfold bind in H. rewrite report_eq in H. injection H as _ <-. by split.
  - injection H as _ <-. by split.
Qed.

Lemma writer_takes_inv (r : LogRecord) (h : St) (s s' : System) :
  live (fst h) -> writer_takes r h s = Some s' ->
  exists x, write r h = Some (x, heap s') /\
    config (fst (heap s')) = config (fst h) /\ live (fst (heap s')) /\
    s' = mkSystem (heap s') (relay s) (writer_running s) (closer s) (sent s)
                  (handled s ++ [(r, x)]).
Proof.
  intros Hlive H. unfold writer_takes, writer_on_rec in H.
  destruct (bind (write r) _ h) as [[[l x] h']|] eqn:HB; [|discriminate].
  injection H as <-. apply bind_Some in HB as (x' & h1 & HW & HB). injection HB as _ <- <-.
  destruct (write_step _ _ _ _ Hlive HW) as [Hm Hl]. exists x'.
  split_and!; auto. apply (ms_config _ _ Hm).
Qed.

Lemma closeFile_frame (h h' : St) :
  live (fst h) -> closeFile h = Some (tt, h') ->
  config (fst h') = config (fst h) /\ live (fst h').
Proof.
  intros Hlive H. destruct h as [w e], h' as [w' e']. destruct (Hlive) as [[f Hf] Hb].
  cbn [fst] in *.
  destruct (closeFile_facts _ _ _ _ _ Hf Hb H) as (Hw & Hb' & _).
  rewrite Hw. split; [reflexivity|]. split; cbn; eauto.
Qed.

Lemma live_same_file (w w' : FileLogWriter) :
  file w' = file w -> bufW w' = bufW w -> live w -> live w'.
Proof. intros Hf Hb [H1 H2]. split; congruence. Qed.

(** A step that touches only the file, the buffered writer or the
    counters keeps the invariant. *)
Lemma sys_inv_heap (s : System) (h' : St) :
  sys_inv s -> config (fst h') = config (fst (heap s)) -> live (fst h') ->
  sys_inv (with_heap h' s).
Proof.
  intros [Hlive Hord Hwg Hpast] Hcfg Hl'.
  destruct (config_fields _ _ Hcfg) as (Hin & Hrec & Hq & _ & Hwg').
  split; unfold with_heap, running in *; cbn [heap relay writer_running closer sent handled fst].
  - exact Hl'.
  - rewrite <- Hord. unfold in_flight. cbn [heap relay closer fst]. by rewrite Hin, Hrec, Hq.
  - by rewrite Hwg'.
  - exact Hpast.
Qed.

(** [write] took the record that was first in line. *)
Lemma sys_inv_taken (s : System) (h' : St) (r : LogRecord) (x : WriteExit) (pc : ClosePC)
    (rl : option Relay) (rest : list LogRecord) :
  sys_inv s -> config (fst h') = config (fst (heap s)) -> live (fst h') ->
  in_flight s = r :: rest ->
  in_flight (mkSystem h' rl (writer_running s) pc (sent s) (handled s ++ [(r, x)])) = rest ->
  running (mkSystem h' rl (writer_running s) pc (sent s) (handled s ++ [(r, x)])) = running s ->
  (past_wait pc = true -> past_wait (closer s) = true) ->
  sys_inv (mkSystem h' rl (writer_running s) pc (sent s) (handled s ++ [(r, x)])).
Proof.
  intros [Hlive Hord Hwg Hpast] Hcfg Hl' Hfl Hfl' Hrun Hpc.
  destruct (config_fields _ _ Hcfg) as (_ & _ & _ & _ & Hwg').
  split.
  - exact Hl'.
  - rewrite Hfl'. cbn [handled sent]. rewrite map_app, <- Hord, Hfl, <- app_assoc. reflexivity.
  - rewrite Hrun. cbn [heap fst]. by rewrite Hwg'.
  - rewrite Hrun. cbn [closer]. intros H. apply Hpast, Hpc, H.
Qed.

Ltac not_past Hpast :=
  exfalso; specialize (Hpast eq_refl); unfold running in Hpast;
  cbn [relay writer_running] in Hpast;
  repeat match type of Hpast with context [if ?b then _ else _] => destruct b end;
  cbn in Hpast; lia.

Ltac past_absurd Hpast Hp :=
  exfalso; specialize (Hpast Hp); unfold running in Hpast;
  cbn [relay writer_running] in Hpast;
  repeat match type of Hpast with context [match ?b with _ => _ end] => destruct b end;
  cbn in Hpast; lia.

(** Every step keeps the invariant. *)
Lemma step_inv (ev : Event) (s s' : System) : sys_inv s -> step ev s = Some s' -> sys_inv s'.
Proof.
  intros Hinv H. pose proof Hinv as [Hlive Hord Hwg Hpast].
  destruct s as [[w e] rl wr pc snt hd].
  cbn [heap fst snd relay writer_running closer sent handled] in *.
  destruct ev; unfold step in H; cbn [heap fst snd relay writer_running closer sent handled] in H.
  - (* a send on inRec *)
    destruct (_ <? _)%nat; [|discriminate]. injection H as <-.
    split; cbn [heap fst snd relay writer_running closer sent handled].
    + by apply (live_same_file w).
    + rewrite <- Hord, <- app_assoc. f_equal. unfold in_flight.
      cbn [heap fst closer relay rec msgQ inRec set_inRec].
      destruct pc; by rewrite <- ?app_assoc.
    + exact Hwg.
    + exact Hpast.
  - (* a send on inRec that meets the relay *)
    destruct rl as [l|]; [|discriminate]. destruct (inRec w) eqn:Hin; [|discriminate].
    assert (Hpc : past_wait pc = false).
    { destruct (past_wait pc) eqn:E; [|done]. not_past Hpast. }
    unfold relay_recv in H. destruct (r_msg l) as [m|] eqn:Hm; injection H as <-.
    all: split; cbn [heap fst snd relay writer_running closer sent handled];
      [by apply (live_same_file w)| |exact Hwg|exact Hpast].
    all: rewrite <- Hord, <- app_assoc; f_equal; unfold in_flight;
      cbn [heap fst closer relay r_msg rec msgQ inRec set_msgQ]; rewrite ?Hm, Hin.
    all: destruct pc; try discriminate Hpc; rewrite ?app_nil_r, <- ?app_assoc; try done.
    all: destruct (msgQ w); cbn; by rewrite <- ?app_assoc.
  - (* a send on inRec that meets the drain of Close *)
    destruct pc; try discriminate. destruct (inRec w) eqn:Hin; [|discriminate].
    set (s0 := mkSystem _ _ _ _ _ _) in H.
    destruct (closer_takes_inv r (w, e) CloseDrainIn s0 s' Hlive H) as (x & HW & Hm & Hl' & ->).
    subst s0. cbn [relay writer_running sent handled].
    split; cbn [heap fst snd relay writer_running closer sent handled].
    + exact Hl'.
    + destruct (config_fields _ _ (ms_config _ _ Hm)) as (Hin' & _).
      unfold in_flight in *. cbn [heap fst closer] in *. rewrite Hin', Hin.
      rewrite Hin, app_nil_r in Hord. by rewrite map_app, Hord, app_nil_r.
    + destruct (config_fields _ _ (ms_config _ _ Hm)) as (_ & _ & _ & _ & Hwg').
      by rewrite Hwg'.
    + exact Hpast.
  - (* the relay receives *)
    destruct rl as [l|]; [|discriminate]. destruct (inRec w) as [|info rest] eqn:Hin; [discriminate|].
    assert (Hpc : past_wait pc = false).
    { destruct (past_wait pc) eqn:E; [|done]. not_past Hpast. }
    unfold relay_recv in H. cbn [msgQ set_inRec] in H.
    destruct (r_msg l) as [m|] eqn:Hm; injection H as <-.
    all: split; cbn [heap fst snd relay writer_running closer sent handled];
      [by apply (live_same_file w)| |exact Hwg|exact Hpast].
    all: rewrite <- Hord; f_equal; unfold in_flight;
      cbn [heap fst closer relay r_msg rec msgQ inRec set_msgQ set_inRec]; rewrite ?Hm, Hin.
    all: destruct pc; try discriminate Hpc; rewrite <- ?app_assoc; try done.
    all: destruct (msgQ w); cbn; by rewrite <- ?app_assoc.
  - (* the relay sends into rec *)
    destruct rl as [[[m|] [|]]|]; try discriminate.
    destruct (_ <? _)%nat; [|discriminate].
    assert (Hpc : past_wait pc = false).
    { destruct (past_wait pc) eqn:E; [|done]. not_past Hpast. }
    unfold relay_sent in H. cbn [msgQ set_rec r_outCh] in H.
    destruct (msgQ w) as [|m' q] eqn:Hq; injection H as <-.
    all: split; cbn [heap fst snd relay writer_running closer sent handled];
      [by apply (live_same_file w)| |exact Hwg|exact Hpast].
    all: rewrite <- Hord; f_equal; unfold in_flight;
      cbn [heap fst closer relay r_msg rec msgQ inRec set_msgQ set_rec]; rewrite ?Hq.
    all: destruct pc; try discriminate Hpc; cbn; by rewrite <- ?app_assoc.
  - (* the relay hands a record to the writer loop *)
    destruct rl as [[[m|] [|]]|]; try discriminate.
    destruct (rec w) eqn:Hrec; [|discriminate]. destruct wr; [|discriminate].
    assert (Hpc : past_wait pc = false).
    { destruct (past_wait pc) eqn:E; [|done]. not_past Hpast. }
    unfold relay_sent in H. cbn [r_outCh] in H.
    destruct (msgQ w) as [|m' q] eqn:Hq.
    all: match type of H with writer_takes _ ?h ?s0 = _ =>
           destruct (writer_takes_inv m h s0 s') as (x & HW & Hcfg & Hl' & ->);
             [by apply (live_same_file w)|exact H|] end.
    all: cbn [relay writer_running closer sent handled fst] in *.
    all: destruct (config_fields _ _ Hcfg) as (Hin' & Hrec' & Hq' & _ & Hwg').
    all: cbn [inRec rec msgQ wg set_msgQ] in *.
    all: split; cbn [heap fst snd relay writer_running closer sent handled];
      [exact Hl'| |by rewrite Hwg'|exact Hpast].
    all: rewrite <- Hord, map_app, <- app_assoc; f_equal; unfold in_flight;
      cbn [heap fst closer relay r_msg]; rewrite Hin', Hrec', Hq', Hrec, ?Hq.
    all: destruct pc; try discriminate Hpc; reflexivity.
  - (* the relay sees the closed channel *)
    destruct rl as [l|]; [|discriminate]. destruct (closeCh w); [|discriminate].
    injection H as <-.
    assert (Hpc : past_wait pc = false).
    { destruct (past_wait pc) eqn:E; [|done]. not_past Hpast. }
    unfold relay_close. unfold running in *. cbn [relay writer_running] in *.
    split; cbn [heap fst snd relay writer_running closer sent handled].
    + destruct (r_msg l); by apply (live_same_file w).
    + rewrite <- Hord; f_equal; unfold in_flight; cbn [heap fst closer relay].
      destruct (r_msg l); cbn [rec msgQ inRec set_wg set_msgQ];
        destruct pc; try discriminate Hpc; reflexivity.
    + unfold running; cbn [relay writer_running].
      destruct (r_msg l); cbn [wg set_wg set_msgQ]; rewrite Hwg; reflexivity.
    + rewrite Hpc. discriminate.
  - (* a rotation is requested *)
    destruct wr; [|discriminate].
    destruct (writer_on_rot (w, e)) as [[[|] h']|] eqn:HR; [| |discriminate]; injection H as <-.
    + destruct (writer_on_rot_frame (w, e) h' _ Hlive HR) as [Hcfg Hl'].
      by apply (sys_inv_heap _ h' Hinv).
    + destruct (writer_on_rot_frame (w, e) h' _ Hlive HR) as [Hcfg Hl'].
      destruct (config_fields _ _ Hcfg) as (Hin' & Hrec' & Hq' & _ & Hwg').
      cbn [fst] in *. unfold wg_Done.
      split; cbn [heap fst snd relay writer_running closer sent handled].
      * by apply (live_same_file (fst h')).
      * rewrite <- Hord; f_equal; unfold in_flight; cbn [heap fst closer relay].
        cbn [rec msgQ inRec set_wg]. by rewrite Hin', Hrec', Hq'.
      * unfold running in *; cbn [relay writer_running wg set_wg] in *.
        rewrite Hwg', Hwg. lia.
      * intros Hp. past_absurd Hpast Hp.
  - (* the writer loop receives *)
    destruct wr; [|discriminate]. destruct (rec w) as [|r rest] eqn:Hrec; [discriminate|].
    assert (Hpc : past_wait pc = false).
    { destruct (past_wait pc) eqn:E; [|done]. not_past Hpast. }
    match type of H with writer_takes _ ?h ?s0 = _ =>
      destruct (writer_takes_inv r h s0 s') as (x & HW & Hcfg & Hl' & ->);
        [by apply (live_same_file w)|exact H|] end.
    cbn [relay writer_running closer sent handled fst] in *.
    destruct (config_fields _ _ Hcfg) as (Hin' & Hrec' & Hq' & _ & Hwg').
    cbn [inRec rec msgQ wg set_rec] in *.
    split; cbn [heap fst snd relay writer_running closer sent handled];
      [exact Hl'| |by rewrite Hwg'|exact Hpast].
    rewrite <- Hord, map_app, <- app_assoc; f_equal; unfold in_flight;
      cbn [heap fst closer relay]; rewrite Hin', Hrec', Hq', Hrec.
    destruct pc; try discriminate Hpc; reflexivity.
  - (* the ticker fires *)
    destruct wr; [|discriminate].
    destruct (writer_on_tick (w, e)) as [[l h']|] eqn:HT; [|discriminate]. injection H as <-.
    destruct (writer_on_tick_frame (w, e) h' _ Hlive HT) as [Hcfg Hl'].
    by apply (sys_inv_heap _ h' Hinv).
  - (* the writer loop sees the closed channel *)
    destruct wr; [|discriminate]. destruct (closeCh w); [|discriminate]. injection H as <-.
    unfold wg_Done.
    split; cbn [heap fst snd relay writer_running closer sent handled].
    + by apply (live_same_file w).
    + rewrite <- Hord; f_equal.
    + unfold running in *; cbn [relay writer_running wg set_wg] in *. rewrite Hwg. lia.
    + intros Hp. past_absurd Hpast Hp.
  - (* Close is called *)
    destruct pc; try discriminate. injection H as <-.
    split; cbn [heap fst snd relay writer_running closer sent handled].
    + by apply (live_same_file w).
    + rewrite <- Hord; f_equal.
    + exact Hwg.
    + discriminate.
  - (* Close goes on *)
    destruct pc as [| | |[|r rest]| |]; try discriminate.
    + (* wg.Wait() returns *)
      destruct (wg w =? 0)%nat eqn:Hz; [|discriminate]. injection H as <-.
      apply Nat.eqb_eq in Hz.
      split; cbn [heap fst snd relay writer_running closer sent handled];
        [exact Hlive|exact Hord|exact Hwg|].
      intros _. rewrite Hz in Hwg. symmetry. exact Hwg.
    + (* the first loop *)
      specialize (Hpast eq_refl).
      assert (Hrl : rl = None).
      { unfold running in Hpast. cbn [relay] in Hpast. destruct rl; [lia|done]. }
      subst rl. destruct (rec w) as [|r rest] eqn:Hrec.
      * injection H as <-.
        split; cbn [heap fst snd relay writer_running closer sent handled];
          [exact Hlive| |exact Hwg|by intros _].
        rewrite <- Hord. f_equal. unfold in_flight. cbn [heap fst closer relay].
        by rewrite Hrec.
      * match type of H with closer_takes _ ?h ?c ?s0 = _ =>
          destruct (closer_takes_inv r h c s0 s') as (x & HW & Hm & Hl' & ->);
            [by apply (live_same_file w)|exact H|] end.
        cbn [relay writer_running closer sent handled fst] in *.
        destruct (config_fields _ _ (ms_config _ _ Hm)) as (Hin' & Hrec' & Hq' & _ & Hwg').
        cbn [fst inRec rec msgQ wg set_rec] in *.
        split; cbn [heap fst snd relay writer_running closer sent handled];
          [exact Hl'| |by rewrite Hwg'|by intros _].
        rewrite <- Hord, map_app, <- app_assoc; f_equal; unfold in_flight;
          cbn [heap fst closer relay]. by rewrite Hin', Hrec', Hq', Hrec.
    + (* the list is walked *)
      injection H as <-.
      split; cbn [heap fst snd relay writer_running closer sent handled];
        [exact Hlive|exact Hord|exact Hwg|exact Hpast].
    + match type of H with closer_takes _ ?h ?c ?s0 = _ =>
        destruct (closer_takes_inv r h c s0 s') as (x & HW & Hm & Hl' & ->);
          [exact Hlive|exact H|] end.
      cbn [relay writer_running closer sent handled fst] in *.
      destruct (config_fields _ _ (ms_config _ _ Hm)) as (Hin' & Hrec' & Hq' & _ & Hwg').
      cbn [fst] in *.
      split; cbn [heap fst snd relay writer_running closer sent handled];
        [exact Hl'| |by rewrite Hwg'|exact Hpast].
      rewrite <- Hord, map_app, <- app_assoc; f_equal; unfold in_flight;
        cbn [heap fst closer relay]. by rewrite Hin'.
    + (* the third loop *)
      destruct (inRec w) as [|r rest] eqn:Hin.
      * destruct (closeFile (w, e)) as [[[] h']|] eqn:HC; [|discriminate]. injection H as <-.
        destruct (closeFile_frame (w, e) h' Hlive HC) as [Hcfg Hl'].
        destruct (config_fields _ _ Hcfg) as (Hin' & _ & _ & _ & Hwg').
        cbn [fst] in *.
        split; cbn [heap fst snd relay writer_running closer sent handled];
          [exact Hl'| |by rewrite Hwg'|exact Hpast].
        rewrite <- Hord. f_equal. unfold in_flight. cbn [heap fst closer].
        by rewrite Hin', Hin.
      * match type of H with closer_takes _ ?h ?c ?s0 = _ =>
          destruct (closer_takes_inv r h c s0 s') as (x & HW & Hm & Hl' & ->);
            [by apply (live_same_file w)|exact H|] end.
        cbn [relay writer_running closer sent handled fst] in *.
        destruct (config_fields _ _ (ms_config _ _ Hm)) as (Hin' & Hrec' & Hq' & _ & Hwg').
        cbn [fst inRec rec msgQ wg set_inRec] in *.
        split; cbn [heap fst snd relay writer_running closer sent handled];
          [exact Hl'| |by rewrite Hwg'|exact Hpast].
        rewrite <- Hord, map_app, <- app_assoc; f_equal; unfold in_flight;
          cbn [heap fst closer relay]. by rewrite Hin', Hin.
Qed.

Lemma run_inv (evs : list Event) :
  forall s s', sys_inv s -> run evs s = Some s' -> sys_inv s'.
Proof.
  induction evs as [|ev evs IH]; intros s s' Hinv H; cbn [run] in H.
  - by injection H as <-.
  - destruct (step ev s) as [s1|] eqn:Hs; [|discriminate].
    apply (IH s1); [|exact H]. by apply (step_inv ev s).
Qed.

Lemma spawned_inv (w : FileLogWriter) (e : World) :
  live w -> wg w = 2%nat -> inRec w = [] -> rec w = [] -> msgQ w = [] ->
  sys_inv (spawned w e).
Proof.
  intros Hlive Hwg Hin Hrec Hq. split; cbn; auto.
  - unfold in_flight. cbn. by rewrite Hin, Hrec, Hq.
  - discriminate.
Qed.


(* ===================================================================== *)
(** ** What the goroutines never do *)
(* ===================================================================== *)

(** [Close] drains only after both goroutines have returned (lines 66-67
    and the deferred [wg.Done()] of lines 176 and 205): in every state a
    schedule reaches from the state [NewFileLogWriter] returns, the wait
    group counts the goroutines that have not returned, and once [Close]
    is past [wg.Wait()] the relay and the writer loop are gone, so the
    drain never runs beside them. *)
Theorem Close_waits_for_goroutines (w : FileLogWriter) (e : World) (evs : list Event)
    (s : System) :
  live w -> wg w = 2%nat -> inRec w = [] -> rec w = [] -> msgQ w = [] ->
  run evs (spawned w e) = Some s ->
  wg (fst (heap s)) = running s /\
  (past_wait (closer s) = true -> relay s = None /\ writer_running s = false).
Proof.
  intros Hlive Hwg Hin Hrec Hq Hrun.
  pose proof (run_inv evs _ _ (spawned_inv w e Hlive Hwg Hin Hrec Hq) Hrun)
    as [_ _ Hcount Hpast].
  split; [exact Hcount|].
  intros Hp. specialize (Hpast Hp). unfold running in Hpast.
  destruct (relay s); [lia|]. destruct (writer_running s); [lia|]. done.
Qed.

Lemma step_writer_gone (ev : Event) (s s' : System) :
  step ev s = Some s' -> writer_running s = false ->
  writer_running s' = false /\
  (past_wait (closer s) = true -> past_wait (closer s') = true) /\
  (past_wait (closer s') = false -> handled s' = handled s).
Proof.
  intros H Hw. destruct s as [[w e] rl wr pc snt hd].
  cbn [writer_running closer handled] in *. subst wr.
  destruct ev; unfold step in H; cbn [heap fst snd relay writer_running closer sent handled] in H.
  - destruct (_ <? _)%nat; [|discriminate]. by injection H as <-.
  - destruct rl; [|discriminate]. destruct (inRec w); [|discriminate].
    destruct (relay_recv r w r0). by injection H as <-.
  - destruct pc; try discriminate. destruct (inRec w); [|discriminate].
    unfold closer_takes in H. destruct (write r (w, e)) as [[x h']|]; [|discriminate].
    injection H as <-. cbn. split_and!; auto; try (intros; discriminate).
  - destruct rl; [|discriminate]. destruct (inRec w); [discriminate|].
    destruct (relay_recv _ _ _). by injection H as <-.
  - destruct rl as [[[m|] [|]]|]; try discriminate.
    destruct (_ <? _)%nat; [|discriminate]. destruct (relay_sent _ _). by injection H as <-.
  - destruct rl as [[[m|] [|]]|]; try discriminate. destruct (rec w); discriminate.
  - destruct rl; [|discriminate]. destruct (closeCh w); [|discriminate]. by injection H as <-.
  - discriminate.
  - discriminate.
  - discriminate.
  - discriminate.
  - destruct pc; try discriminate. by injection H as <-.
  - destruct pc as [| | |[|r rest]| |]; try discriminate.
    + destruct (wg w =? 0)%nat; [|discriminate]. injection H as <-. cbn. split_and!; auto;
      try (intros; discriminate).
    + destruct (rec w).
      * injection H as <-. cbn. split_and!; auto; try (intros; discriminate).
      * unfold closer_takes in H. destruct (write _ _) as [[x h']|]; [|discriminate].
        injection H as <-. cbn. split_and!; auto; try (intros; discriminate).
    + injection H as <-. cbn. split_and!; auto; try (intros; discriminate).
    + unfold closer_takes in H. destruct (write _ _) as [[x h']|]; [|discriminate].
      injection H as <-. cbn. split_and!; auto; try (intros; discriminate).
    + destruct (inRec w).
      * destruct (closeFile _) as [[[] h']|]; [|discriminate]. injection H as <-.
        cbn. split_and!; auto; try (intros; discriminate).
      * unfold closer_takes in H. destruct (write _ _) as [[x h']|]; [|discriminate].
        injection H as <-. cbn. split_and!; auto; try (intros; discriminate).
Qed.

(** Once the writer loop has returned (on the closed channel, or on a
    failed rotation, line 214) nothing restarts it: it stays gone, and as
    long as [Close] has not got past [wg.Wait()] no record reaches
    [write], whatever is sent and whatever the relay does. *)
Theorem writer_gone_writes_nothing (evs : list Event) :
  forall s s', run evs s = Some s' -> writer_running s = false ->
  writer_running s' = false /\
  (past_wait (closer s) = true -> past_wait (closer s') = true) /\
  (past_wait (closer s') = false -> handled s' = handled s).
Proof.
  induction evs as [|ev evs IH]; intros s s' H Hw; cbn [run] in H.
  - injection H as <-. by split_and!.
  - destruct (step ev s) as [s1|] eqn:Hs; [|discriminate].
    destruct (step_writer_gone ev s s1 Hs Hw) as (Hw1 & Hmono1 & Hh1).
    destruct (IH s1 s' H Hw1) as (Hw' & Hmono & Hh').
    split_and!; [exact Hw'|auto|].
    intros Hp. rewrite (Hh' Hp). apply Hh1.
    destruct (past_wait (closer s1)) eqn:E; [|done].
    rewrite (Hmono eq_refl) in Hp. discriminate.
Qed.
(* ===================================================================== *)
(** ** The contents of the file of a log that never rotates *)
(* ===================================================================== *)

Lemma texts_app (w : FileLogWriter) (l1 l2 : list LogRecord) :
  texts w (l1 ++ l2) = texts w l1 +:+ texts w l2.
Proof.
  induction l1 as [|r l1 IH]; cbn [texts app]; [reflexivity|].
  by rewrite IH, str_app_assoc.
Qed.

Lemma settings_config (w w' : FileLogWriter) : config w' = config w -> settings w' = settings w.
Proof.
  unfold config, settings. intros H.
  injection H as _ _ _ _ _ Hfn Hfmt Hhd Htr Hpre Hml Hms Hdl Hhr Hrt. congruence.
Qed.

Lemma settings_texts (w w' : FileLogWriter) :
  settings w' = settings w ->
  record_text w' = record_text w /\ trailer w' = trailer w /\ (quiet w -> quiet w').
Proof.
  unfold settings, quiet. intros H.
  injection H as Hfn Hfmt Hhd Htr Hpre Hml Hms Hdl Hhr Hrt.
  unfold record_text. rewrite Hfmt, Hpre, Htr, Hml, Hms, Hdl, Hhr. by split_and!.
Qed.

Lemma quiet_not_due (w : FileLogWriter) : quiet w -> size_or_lines_due w = false.
Proof.
  intros (H1 & H2 & _). unfold size_or_lines_due.
  replace (0 <? maxlines w) with false by (symmetry; apply Z.ltb_ge; lia).
  replace (0 <? maxsize w) with false by (symmetry; apply Z.ltb_ge; lia).
  reflexivity.
Qed.

Lemma stream_same_file (w w' : FileLogWriter) (e : World) (p x : string) :
  file w' = file w -> bufW w' = bufW w -> stream (w, e) p x -> stream (w', e) p x.
Proof.
  intros Hf Hb (d & b & (H1 & H2 & H3) & Hx). exists d, b. split; [|exact Hx].
  cbn [fst snd] in *. split_and!; cbn [fst snd]; [by rewrite Hf|by rewrite Hb|exact H3].
Qed.

(** A record written to a quiet log. *)
Lemma quiet_write (r : LogRecord) (w0 w w' : FileLogWriter) (e e' : World) (p x : string)
    (o : WriteExit) :
  quiet w0 -> settings w = settings w0 -> stream (w, e) p x -> no_faults e ->
  write r (w, e) = Some (o, (w', e')) ->
  (exists n, o = Written n) /\ stream (w', e') p (x +:+ record_text w0 r) /\
  no_faults e' /\ settings w' = settings w0.
Proof.
  intros Hq Hset Hs Hnf HW.
  destruct (settings_texts _ _ Hset) as (HT & _ & Hq'). specialize (Hq' Hq).
  destruct (Hq') as (_ & _ & Hd & Hh).
  destruct (write_plain r w e p x Hs Hnf (quiet_not_due _ Hq') Hd Hh)
    as (w1 & e1 & HW1 & Hs1 & Hcfg & _ & _ & _ & Hfl & _).
  rewrite HW1 in HW. injection HW as <- <- <-.
  split_and!; eauto.
  - by rewrite <- HT.
  - intros k. rewrite Hfl. apply Hnf.
  - rewrite <- Hset. by apply settings_config.
Qed.

(** The ticker on a quiet log: what is buffered goes to the file. *)
Lemma quiet_tick (w w' : FileLogWriter) (e e' : World) (p x : string) (l : Loop) :
  stream (w, e) p x -> no_faults e ->
  writer_on_tick (w, e) = Some (l, (w', e')) ->
  stream (w', e') p x /\ no_faults e' /\ settings w' = settings w /\
  fs e' !! p = Some x.
Proof.
  intros (d & b & Hs & Hx) Hnf H.
  destruct (bufW_Flush_ok w e p d b Hs Hnf) as (e1 & HF & Hfs).
  pose proof (bufW_Flush_step _ _ _ HF) as Hst.
  unfold writer_on_tick in H. rewrite (bind_eq _ _ _ _ _ HF) in H.
  unfold bind, ret in H. injection H as _ <- <-.
  destruct Hs as (Hf & Hb & Hd). cbn [fst snd] in *.
  split_and!.
  - exists (d +:+ b), EmptyString. split; [|by rewrite str_app_nil_r].
    split_and!; cbn [fst snd]; [exact Hf|reflexivity|by rewrite Hfs, lookup_insert_eq].
  - intros k. pose proof (bio_fault _ _ Hst) as Hfl. cbn [snd] in Hfl. rewrite Hfl. apply Hnf.
  - reflexivity.
  - by rewrite Hfs, lookup_insert_eq, Hx.
Qed.

Lemma quiet_inv_chan (w0 : FileLogWriter) (p x0 : string) (s s' : System) :
  quiet_inv w0 p x0 s ->
  snd (heap s') = snd (heap s) ->
  file (fst (heap s')) = file (fst (heap s)) ->
  bufW (fst (heap s')) = bufW (fst (heap s)) ->
  settings (fst (heap s')) = settings (fst (heap s)) ->
  handled s' = handled s ->
  (closer s' = CloseDone <-> closer s = CloseDone) ->
  quiet_inv w0 p x0 s'.
Proof.
  intros [Hnf Hset Hacc Hstr Hdone] He Hf Hb Hs Hh Hpc.
  split; rewrite ?Hh, ?He.
  - exact Hnf.
  - by rewrite Hs.
  - exact Hacc.
  - intros Hn. destruct (heap s) as [w e], (heap s') as [w' e']. cbn [fst snd] in *. subst e'.
    apply (stream_same_file w); auto. apply Hstr. by rewrite <- Hpc.
  - intros Hd. apply Hdone. by rewrite <- Hpc.
Qed.

Lemma quiet_inv_write (w0 : FileLogWriter) (p x0 : string) (s : System) (r : LogRecord)
    (h h' : St) (x : WriteExit) (rl : option Relay) (wr : bool) (pc : ClosePC)
    (snt : list LogRecord) :
  quiet w0 -> quiet_inv w0 p x0 s -> closer s <> CloseDone -> pc <> CloseDone ->
  snd h = snd (heap s) ->
  file (fst h) = file (fst (heap s)) ->
  bufW (fst h) = bufW (fst (heap s)) ->
  settings (fst h) = settings (fst (heap s)) ->
  write r h = Some (x, h') ->
  quiet_inv w0 p x0 (mkSystem h' rl wr pc snt (handled s ++ [(r, x)])).
Proof.
  intros Hq [Hnf Hset Hacc Hstr Hdone] Hn Hpc He Hf Hb Hs HW.
  destruct (heap s) as [w e], h as [w1 e1], h' as [w' e']. cbn [fst snd] in *. subst e1.
  assert (Hs1 : stream (w1, e) p (x0 +:+ texts w0 (map fst (handled s)))).
  { apply (stream_same_file w); auto. }
  destruct (quiet_write r w0 w1 w' e e' p _ x Hq ltac:(congruence) Hs1 Hnf HW)
    as ((n & ->) & Hs' & Hnf' & Hset').
  split; cbn [heap closer handled fst snd].
  - exact Hnf'.
  - exact Hset'.
  - unfold accepted in *. rewrite omap_app, map_app, Hacc. reflexivity.
  - intros _. rewrite map_app, texts_app. cbn [map fst texts].
    rewrite str_app_nil_r, <- str_app_assoc. exact Hs'.
  - intros Hd. by destruct Hpc.
Qed.

Ltac chan_step Hq :=
  apply (quiet_inv_chan _ _ _ _ _ Hq); try reflexivity;
  cbn [closer]; first [tauto | split; intros; discriminate].

Ltac write_step Hquiet Hq HW :=
  eapply (quiet_inv_write _ _ _ _ _ _ _ _ _ _ _ _ Hquiet Hq);
  [..|exact HW]; cbn [closer heap fst snd]; first [reflexivity|discriminate|assumption].

Lemma writer_takes_write (r : LogRecord) (h : St) (s s' : System) :
  writer_takes r h s = Some s' ->
  exists x h', write r h = Some (x, h') /\
    s' = mkSystem h' (relay s) (writer_running s) (closer s) (sent s) (handled s ++ [(r, x)]).
Proof.
  unfold writer_takes, writer_on_rec. unfold bind at 1.
  destruct (write r h) as [[x h']|]; [|discriminate]. unfold ret.
  intros [= <-]. eauto.
Qed.

Lemma closer_takes_write (r : LogRecord) (h : St) (pc : ClosePC) (s s' : System) :
  closer_takes r h pc s = Some s' ->
  exists x h', write r h = Some (x, h') /\
    s' = mkSystem h' (relay s) (writer_running s) pc (sent s) (handled s ++ [(r, x)]).
Proof.
  unfold closer_takes. destruct (write r h) as [[x h']|]; [|discriminate].
  intros [= <-]. eauto.
Qed.

(** Every step but a rotate signal keeps the invariant of a quiet log. *)
Lemma step_quiet (w0 : FileLogWriter) (p x0 : string) (ev : Event) (s s' : System) :
  quiet w0 -> sys_inv s -> quiet_inv w0 p x0 s -> ev <> EvWriterRot ->
  step ev s = Some s' -> quiet_inv w0 p x0 s'.
Proof.
  intros Hquiet Hinv Hq Hev H.
  assert (Hrun : writer_running s = true -> closer s <> CloseDone).
  { intros Hw Hd. destruct Hinv as [_ _ _ Hpast]. rewrite Hd in Hpast.
    specialize (Hpast eq_refl). unfold running in Hpast. rewrite Hw in Hpast.
    destruct (relay s); cbn in Hpast; lia. }
  clear Hinv.
  destruct s as [[w e] rl wr pc snt hd].
  cbn [writer_running closer] in Hrun.
  destruct ev; unfold step in H; cbn [heap fst snd relay writer_running closer sent handled] in H.
  - destruct (_ <? _)%nat; [|discriminate]. injection H as <-. chan_step Hq.
  - destruct rl as [l|]; [|discriminate]. destruct (inRec w); [|discriminate].
    unfold relay_recv in H. destruct (r_msg l); injection H as <-; chan_step Hq.
  - destruct pc; try discriminate. destruct (inRec w); [|discriminate].
    apply closer_takes_write in H as (x & h' & HW & ->).
    cbn [relay writer_running sent handled].
    write_step Hquiet Hq HW.
  - destruct rl as [l|]; [|discriminate]. destruct (inRec w); [discriminate|].
    unfold relay_recv in H. cbn [msgQ set_inRec] in H.
    destruct (r_msg l); injection H as <-; chan_step Hq.
  - destruct rl as [[[m|] [|]]|]; try discriminate.
    destruct (_ <? _)%nat; [|discriminate].
    unfold relay_sent in H. cbn [msgQ set_rec] in H.
    destruct (msgQ w); injection H as <-; chan_step Hq.
  - destruct rl as [[[m|] [|]]|]; try discriminate.
    destruct (rec w); [|discriminate]. destruct wr; [|discriminate].
    specialize (Hrun eq_refl).
    unfold relay_sent in H. destruct (msgQ w);
      apply writer_takes_write in H as (x & h' & HW & ->);
      cbn [relay writer_running closer sent handled];
      write_step Hquiet Hq HW.
  - destruct rl as [l|]; [|discriminate]. destruct (closeCh w); [|discriminate].
    injection H as <-. unfold relay_close. destruct (r_msg l); chan_step Hq.
  - done.
  - destruct wr; [|discriminate]. destruct (rec w) as [|r rest]; [discriminate|].
    specialize (Hrun eq_refl).
    apply writer_takes_write in H as (x & h' & HW & ->).
    cbn [relay writer_running closer sent handled].
    write_step Hquiet Hq HW.
  - destruct wr; [|discriminate]. specialize (Hrun eq_refl).
    destruct (writer_on_tick (w, e)) as [[l [w' e']]|] eqn:HT; [|discriminate].
    injection H as <-. destruct Hq as [Hnf Hset Hacc Hstr Hdone].
    cbn [heap closer handled fst snd] in *.
    destruct (quiet_tick w w' e e' p _ l (Hstr Hrun) Hnf HT) as (Hs' & Hnf' & Hset' & _).
    unfold with_heap. split; cbn [heap closer handled fst snd]; auto.
    + by rewrite Hset'.
    + intros Hd. by destruct Hrun.
  - destruct wr; [|discriminate]. destruct (closeCh w); [|discriminate].
    injection H as <-. unfold wg_Done. chan_step Hq.
  - destruct pc; try discriminate. injection H as <-. chan_step Hq.
  - destruct pc as [| | |[|r rest]| |]; try discriminate.
    + destruct (wg w =? 0)%nat; [|discriminate]. injection H as <-. chan_step Hq.
    + destruct (rec w) as [|r rest].
      * injection H as <-. chan_step Hq.
      * apply closer_takes_write in H as (x & h' & HW & ->).
        cbn [relay writer_running sent handled].
        write_step Hquiet Hq HW.
    + injection H as <-. chan_step Hq.
    + apply closer_takes_write in H as (x & h' & HW & ->).
      cbn [relay writer_running sent handled].
      write_step Hquiet Hq HW.
    + destruct (inRec w) as [|r rest].
      * destruct (closeFile (w, e)) as [[[] [w' e']]|] eqn:HC; [|discriminate].
        injection H as <-. destruct Hq as [Hnf Hset Hacc Hstr Hdone].
        cbn [heap closer handled fst snd] in *.
        destruct (Hstr ltac:(discriminate)) as (d & b & Hs & Hx).
        destruct (closeFile_ok w e p d b Hs Hnf) as (e1 & HC' & Hfs & _ & Hfl & _).
        rewrite HC' in HC. injection HC as <- <-.
        destruct (settings_texts _ _ Hset) as (_ & Htr & _).
        split; cbn [heap closer handled fst snd]; auto.
        -- intros k. rewrite Hfl. apply Hnf.
        -- done.
        -- intros _. exists (clock e (ticks e)).
           rewrite Hfs, lookup_insert_eq, Htr, <- (str_app_assoc x0), <- Hx.
           by rewrite str_app_assoc.
      * apply closer_takes_write in H as (x & h' & HW & ->).
        cbn [relay writer_running sent handled].
        write_step Hquiet Hq HW.
Qed.

Lemma run_quiet (w0 : FileLogWriter) (p x0 : string) (evs : list Event) :
  forall s s', quiet w0 -> sys_inv s -> quiet_inv w0 p x0 s ->
  Forall (fun ev => ev <> EvWriterRot) evs ->
  run evs s = Some s' -> sys_inv s' /\ quiet_inv w0 p x0 s'.
Proof.
  induction evs as [|ev evs IH]; intros s s' Hquiet Hinv Hq Hevs H; cbn [run] in H.
  - injection H as <-. by split.
  - destruct (step ev s) as [s1|] eqn:Hs; [|discriminate].
    apply Forall_cons in Hevs as [Hev Hevs].
    apply (IH s1); auto.
    + by apply (step_inv ev s).
    + by apply (step_quiet w0 p x0 ev s).
Qed.

(** A log without limits and without daily or hourly rotation, when no
    file operation fails and [Rotate()] is not called.  Whatever the
    producers, the goroutines and [Close] do and in whatever order, every
    record given to [write] is accepted, and the session holds what it
    held when [NewFileLogWriter] returned followed by the texts of those
    records in the order in which they were sent.  When [Close] has
    returned, the file holds exactly that and the trailer: every record
    sent, but those still waiting in [inRec], is in the file, once, in
    enqueue order. *)
Theorem quiet_log_holds_the_records (w : FileLogWriter) (e : World) (p x0 : string)
    (evs : list Event) (s : System) :
  stream (w, e) p x0 -> no_faults e -> quiet w ->
  wg w = 2%nat -> inRec w = [] -> rec w = [] -> msgQ w = [] ->
  Forall (fun ev => ev <> EvWriterRot) evs ->
  run evs (spawned w e) = Some s ->
  let written := map fst (handled s) in
  written ++ in_flight s = sent s /\
  accepted (handled s) = written /\
  (closer s <> CloseDone -> stream (heap s) p (x0 +:+ texts w written)) /\
  (closer s = CloseDone ->
   written ++ inRec (fst (heap s)) = sent s /\
   exists t, fs (snd (heap s)) !! p
             = Some (x0 +:+ texts w written +:+ FormatLogRecord (trailer w) (record_at t))).
Proof.
  intros Hs Hnf Hquiet Hwg Hin Hrec Hq Hevs Hrun written.
  assert (Hlive : live w).
  { destruct Hs as (d & b & Hs & _). apply (session_live _ _ _ _ Hs). }
  assert (Hq0 : quiet_inv w p x0 (spawned w e)).
  { split; cbn [spawned heap closer handled fst snd map texts]; auto.
    - intros _. by rewrite str_app_nil_r.
    - discriminate. }
  destruct (run_quiet w p x0 evs _ _ Hquiet (spawned_inv w e Hlive Hwg Hin Hrec Hq) Hq0 Hevs Hrun)
    as [[_ Hord _ _] [_ _ Hacc Hstr Hdone]].
  split_and!; auto.
  intros Hd. split; [|by apply Hdone].
  rewrite <- Hord. unfold in_flight. by rewrite Hd.
Qed.
(* ===================================================================== *)
(** ** Rotation without keeping old logs (lines 238-290) *)
(* ===================================================================== *)

(** With [rotate] false a rotation renames nothing and removes nothing:
    the session ends with the trailer, the same file is opened again for
    appending, and the header follows what the file held.  The counters
    start at zero again and the open date is that of the rotation. *)
Theorem rotation_without_retention (last : bool) (w : FileLogWriter) (e : World)
    (p d b : string) :
  session (w, e) p d b -> filename w = p -> rotate w = false -> no_faults e ->
  let now := clock e (S (ticks e)) in
  exists w' e' d' b',
    intRotate last (w, e) = Some (None, (w', e')) /\
    session (w', e') p d' b' /\
    d' +:+ b' = d +:+ b +:+ FormatLogRecord (trailer w) (record_at (clock e (ticks e)))
                +:+ FormatLogRecord (header w) (record_at now) /\
    renames (syslog e') = renames (syslog e) /\
    opens (syslog e') = S (opens (syslog e)) /\
    (forall q, q <> p -> fs e' !! q = fs e !! q) /\
    config w' = config w /\ counts w' = (0, 0) /\ opendate w' = (Day now, Hour now).
Proof.
  intros Hs Hfn Hrot Hnf now.
  destruct (intRotate_ok last w e p d b Hs Hfn Hnf)
    as (d' & b' & e' & HR & Hfs & Happ & _ & _ & _ & _ & Hren & Ho).
  { by rewrite Hrot. }
  rewrite Hrot in Hfs, Happ, Hren. fold now in HR, Happ.
  eexists _, e', d', b'. split; [exact HR|]. split_and!.
  - split_and!; cbn [fst snd]; try reflexivity. by rewrite Hfs, lookup_insert_eq.
  - by rewrite Happ, !str_app_assoc.
  - by rewrite Hren, app_nil_r.
  - exact Ho.
  - intros q Hq. rewrite Hfs. by rewrite !lookup_insert_ne.
  - reflexivity.
  - reflexivity.
  - reflexivity.
Qed.
(* ===================================================================== *)
(** ** What [NewFileLogWriter] does to the directory (lines 156-172) *)
(* ===================================================================== *)

Lemma NewFileLogWriter_unfold (fname : string) (rot : bool) (e0 : World) :
  NewFileLogWriter fname rot e0
  = match (let* err := archive_old (clock e0 (ticks e0)) in
           match err with
           | Some msg => ret (Some msg)
           | None =>
               let* w := get_w in
               let* r := os_OpenFile (filename w) in
               match r with
               | inr msg => ret (Some msg)
               | inl fd =>
                   newFile fd (clock e0 (ticks e0)) ;;
                   modify_w (fun w => set_opendate (Day (clock e0 (ticks e0)))
                                                   (Hour (clock e0 (ticks e0))) w) ;;
                   modify_w (set_counts 0 0) ;;
                   ret None
               end
           end) (new_struct fname rot, set_ticks (S (ticks e0)) e0) with
    | None => None
    | Some (Some msg, s) =>
        match report msg s with
        | Some (_, s') => Some (None, snd s')
        | None => None
        end
    | Some (None, (w, e')) => Some (Some (set_wg 2 w), e')
    end.
Proof. reflexivity. Qed.


(** The file cannot be opened (and nothing was to be renamed first). *)
Lemma NewFileLogWriter_open_fails (fname : string) (rot : bool) (e0 : World) (msg : string) :
  fault e0 (ops e0) = Some msg -> rot && Lstat_ok (fs e0) fname = false ->
  exists e, NewFileLogWriter fname rot e0 = Some (None, e) /\
    stderr e = stderr e0 ++ ["FileLogWriter(" +:+ Sprintf_q fname +:+ "): " +:+ msg +:+ nl] /\
    fs e = fs e0.
Proof.
  intros Hflt Hno. set (t := clock e0 (ticks e0)).
  assert (HA : archive_old t (new_struct fname rot, set_ticks (S (ticks e0)) e0)
               = Some (None, (new_struct fname rot, set_ticks (S (ticks e0)) e0))).
  { unfold archive_old. unfold bind at 1, get_w; cbn [fst snd rotate new_struct filename].
    destruct rot; [|reflexivity]. cbn [andb] in Hno.
    unfold bind at 1, get_world; cbn [fst snd fs set_ticks]. by rewrite Hno. }
  rewrite NewFileLogWriter_unfold. fold t. rewrite (bind_eq _ _ _ _ _ HA).
  eexists. split.
  - unfold bind at 1, get_w; cbn [fst snd filename new_struct].
    unfold os_OpenFile, next_fault, log_syscall, bind, get_world, modify_world, ret, report,
      get_w; cbn [fst snd fault ops set_ticks]. rewrite Hflt. reflexivity.
  - split; reflexivity.
Qed.

(* ===================================================================== *)
(** ** [NewXMLLogWriter] (lines 359-366) *)
(* ===================================================================== *)

Lemma SetHeadFoot_first_line (head foot : string) (w : FileLogWriter) (e : World)
    (p d b : string) :
  session (w, e) p d b -> no_faults e -> maxlines_curlines w = 0 ->
  exists d' b' e',
    SetHeadFoot head foot (w, e)
      = Some (tt, (set_bufW (Some (mkWriter b' None)) (set_headfoot head foot w), e')) /\
    fs e' = <[p := d']> (fs e) /\
    d' +:+ b' = d +:+ b +:+ FormatLogRecord head (record_at (clock e (ticks e))).
Proof.
  intros Hs Hnf Hz.
  unfold SetHeadFoot. unfold bind at 1 2, modify_w, get_w; cbn [fst snd].
  change (maxlines_curlines (set_headfoot head foot w)) with (maxlines_curlines w).
  rewrite Hz. cbn [Z.eqb].
  unfold bind at 1. rewrite time_Now_eq.
  set (w0 := set_headfoot head foot w). set (e0 := set_ticks _ e).
  assert (Hs0 : session (w0, e0) p d b) by (destruct Hs as (? & ? & ?); by repeat split).
  destruct (bufW_WriteString_ok (FormatLogRecord (header w0) (record_at (clock e (ticks e))))
              w0 e0 p d b Hs0 Hnf) as (d' & b' & e' & HW & Hfs & Happ & _).
  unfold bind at 1. rewrite HW. unfold ret. exists d', b', e'. by split_and!.
Qed.

(** [NewXMLLogWriter].  When [NewFileLogWriter] returns a log writer (and
    nothing fails afterwards), the result has the XML templates installed
    and, no line being counted yet, the XML header is already in the
    session, after the header of the empty template.  When the file
    cannot be opened, [NewFileLogWriter] returns nil and [NewXMLLogWriter]
    does not return nil: it panics in [SetFormat]. *)
Theorem NewXMLLogWriter_header (fname : string) (rot : bool) (e0 : World) :
  (forall w e,
     no_faults e0 -> NewFileLogWriter fname rot e0 = Some (Some w, e) ->
     exists w' e' kept d b,
       NewXMLLogWriter fname rot e0 = Some (w', e') /\
       format w' = xml_format /\ header w' = xml_head /\ trailer w' = xml_foot /\
       maxlines_curlines w' = 0 /\
       session (w', e') fname d b /\
       d +:+ b = kept +:+ FormatLogRecord EmptyString (record_at (clock e0 (ticks e0)))
                 +:+ FormatLogRecord xml_head (record_at (clock e0 (S (ticks e0))))) /\
  (forall msg,
     fault e0 (ops e0) = Some msg -> rot && Lstat_ok (fs e0) fname = false ->
     NewXMLLogWriter fname rot e0 = None).
Proof.
  split.
  - intros w e Hnf HN.
    destruct (NewFileLogWriter_ok _ _ _ _ _ Hnf HN)
      as (kept & d & b & Hs & Happ & _ & Hcnt & _ & Hc & Hfl & Ht & _).
    assert (Hnf' : no_faults e) by (intros k; rewrite Hfl; apply Hnf).
    assert (Hz : maxlines_curlines (set_format xml_format w) = 0) by (by injection Hcnt).
    assert (Hs1 : session (set_format xml_format w, e) fname d b).
    { destruct Hs as (? & ? & ?). by split_and!. }
    destruct (SetHeadFoot_first_line xml_head xml_foot _ e fname d b Hs1 Hnf' Hz)
      as (d' & b' & e' & HS & Hfs & Happ').
    unfold NewXMLLogWriter. rewrite HN.
    unfold bind at 1, SetFormat, modify_w; cbn [fst snd]. rewrite HS.
    eexists _, e', kept, d', b'. split; [reflexivity|]. split_and!; try reflexivity.
    + by injection Hcnt.
    + destruct Hs as (Hf & _ & _). split_and!; cbn [fst snd]; [exact Hf|reflexivity|].
      by rewrite Hfs, lookup_insert_eq.
    + rewrite Happ', Hc, Ht. rewrite <- str_app_assoc, Happ. by rewrite str_app_assoc.
  - intros msg Hflt Hno.
    destruct (NewFileLogWriter_open_fails fname rot e0 msg Hflt Hno) as (e & HN & _).
    unfold NewXMLLogWriter. by rewrite HN.
Qed.
(* ===================================================================== *)
(** ** The limit of size (lines 108-114 and 141-142) *)
(* ===================================================================== *)

(** The byte counter after a record that needed no rotation. *)
Lemma write_plain_size (r : LogRecord) (w w' : FileLogWriter) (e e' : World) (p x : string)
    (o : WriteExit) :
  stream (w, e) p x -> no_faults e ->
  size_or_lines_due w = false -> daily w = false -> hour w = false ->
  write r (w, e) = Some (o, (w', e')) ->
  maxsize_cursize w'
  = wrap_int (maxsize_cursize w + Z.of_nat (String.length (record_text w r))).
Proof.
  intros (d & b & Hs & Hx) Hnf Hdue Hd Hh HW.
  set (e0 := set_ticks (S (ticks e)) e).
  assert (Hs0 : session (w, e0) p d b) by exact Hs.
  assert (Hnf0 : no_faults e0) by exact Hnf.
  destruct (perform_write_ok r w e0 p d b Hs0 Hnf0) as (d' & b' & e1 & HP & _).
  assert (HW' : write r (w, e) = perform_write r (w, e0)).
  { unfold write, rotation_checks. unfold bind at 1 2, get_w; cbn [fst snd].
    rewrite Hdue. unfold rotate_if at 1. unfold bind at 1, ret at 1.
    unfold bind at 1. rewrite time_Now_eq. unfold bind at 1 2, get_w; cbn [fst snd].
    unfold daily_due. rewrite Hd. cbn [andb rotate_if].
    unfold ret at 1. unfold bind at 1; cbn [fst snd].
    unfold hour_due. rewrite Hh. cbn [andb rotate_if]. reflexivity. }
  rewrite HW', HP in HW. by injection HW as _ <- _.
Qed.

(** The limit of size is looked at before the record is written, and
    only then: a record that takes the file to the limit or beyond is
    written to it without a rotation, and it is the next record that
    rotates.  So a file can be larger than [maxsize], by up to one
    record. *)
Theorem size_limit_checked_before_write (r1 r2 : LogRecord) (w : FileLogWriter) (e : World)
    (p x : string) :
  let n1 := Z.of_nat (String.length (record_text w r1)) in
  let n2 := Z.of_nat (String.length (record_text w r2)) in
  let stamp := clock e (S (S (ticks e))) in
  stream (w, e) p x -> no_faults e -> filename w = p -> rotate w = true ->
  maxlines w <= 0 -> daily w = false -> hour w = false ->
  0 <= maxsize_cursize w < maxsize w -> maxsize w <= maxsize_cursize w + n1 ->
  maxsize_cursize w + n1 < 2 ^ 63 ->
  fs e !! archive_name p stamp 1 = None ->
  exists w1 e1 w2 e2,
    write r1 (w, e) = Some (Written n1, (w1, e1)) /\
    stream (w1, e1) p (x +:+ record_text w r1) /\
    renames (syslog e1) = renames (syslog e) /\
    opens (syslog e1) = opens (syslog e) /\
    maxsize_cursize w1 = maxsize_cursize w + n1 /\
    write r2 (w1, e1) = Some (Written n2, (w2, e2)) /\
    renames (syslog e2) = renames (syslog e) ++ [(p, archive_name p stamp 1)] /\
    fs e2 !! archive_name p stamp 1
      = Some (x +:+ record_text w r1
              +:+ FormatLogRecord (trailer w) (record_at (clock e (S (ticks e))))) /\
    stream (w2, e2) p (FormatLogRecord (header w) (record_at stamp) +:+ record_text w r2).
Proof.
  intros n1 n2 stamp Hs Hnf Hfn Hrot Hml Hd Hh Hcur Hover Hsmall Hfree.
  assert (Hnd : size_or_lines_due w = false).
  { unfold size_or_lines_due.
    replace (0 <? maxlines w) with false by (symmetry; apply Z.ltb_ge; lia).
    replace (maxsize w <=? maxsize_cursize w) with false by (symmetry; apply Z.leb_gt; lia).
    by rewrite andb_false_r. }
  destruct (write_plain r1 w e p x Hs Hnf Hnd Hd Hh)
    as (w1 & e1 & HW1 & Hs1 & Hcfg1 & _ & Hfr1 & Hcl1 & Hfl1 & Ht1 & _ & Hrn1 & Ho1).
  pose proof (write_plain_size r1 w w1 e e1 p x _ Hs Hnf Hnd Hd Hh HW1) as Hsz.
  fold n1 in Hsz. rewrite wrap_int_small in Hsz by lia.
  destruct (config_texts _ _ Hcfg1) as (HT1 & HH1 & HF1).
  assert (Hset1 : filename w1 = p /\ rotate w1 = true /\ maxsize w1 = maxsize w /\
                  daily w1 = false /\ hour w1 = false).
  { unfold config in Hcfg1. injection Hcfg1 as _ _ _ _ _ Hf _ _ _ _ _ Hms Hdl Hhr Hrt.
    split_and!; congruence. }
  destruct Hset1 as (Hfn1 & Hrot1 & Hms1 & Hd1 & Hh1).
  assert (Hdue1 : size_or_lines_due w1 = true).
  { unfold size_or_lines_due. rewrite Hms1, Hsz.
    replace (0 <? maxsize w) with true by (symmetry; apply Z.ltb_lt; lia).
    replace (maxsize w <=? maxsize_cursize w + n1) with true by (symmetry; apply Z.leb_le; lia).
    by rewrite orb_true_r. }
  assert (Hnf1 : no_faults e1) by (intros k; rewrite Hfl1; apply Hnf).
  assert (Hp : is_Some (fs e !! p)).
  { destruct Hs as (d & b & (_ & _ & Hp) & _). cbn [fst snd] in Hp. eauto. }
  assert (Hnp : archive_name p stamp 1 <> p).
  { intros Heq. rewrite Heq in Hfree. destruct Hp as [c Hp]. by rewrite Hp in Hfree. }
  assert (Hff : find_free (fs e1) p (clock e1 (S (ticks e1))) = (archive_name p stamp 1, false)).
  { rewrite Hcl1, Ht1. fold stamp. apply first_free. by rewrite Hfr1. }
  destruct (write_rotating r2 w1 e1 p _ Hs1 Hnf1 Hfn1 Hrot1 Hdue1 Hd1 Hh1)
    as (w2 & e2 & HW2 & Hs2 & _ & _ & _ & Ha & _ & _ & _ & _ & _ & Hrn2 & _).
  { by rewrite Hff. }
  rewrite Hff in Ha, Hrn2. cbn [fst] in Ha, Hrn2.
  rewrite HT1, HH1, HF1, Hcl1, Ht1 in *.
  exists w1, e1, w2, e2. split_and!; auto.
  - by rewrite Hrn2, Hrn1.
  - rewrite Ha. by rewrite str_app_assoc.
Qed.
(* ===================================================================== *)
(** ** When a record reaches the file (lines 133-134 and 218-221) *)
(* ===================================================================== *)

(** Text that fits into the buffer stays there: no file operation. *)
Lemma bufW_WriteString_fits (s : string) (w : FileLogWriter) (e : World) (b : string) :
  bufW w = Some (mkWriter b None) ->
  (String.length b + String.length s <= MaxBufWriteSize)%nat ->
  bufW_WriteString s (w, e)
  = Some ((Z.of_nat (String.length s), None), (set_bufW (Some (mkWriter (b +:+ s) None)) w, e)).
Proof.
  intros Hb Hfit. unfold bufW_WriteString. rewrite WriteString_loop_unfold.
  cbn [fst snd]. rewrite Hb. cbn [wbuf werr].
  replace (_ <? _)%nat with false by (symmetry; apply Nat.ltb_ge; lia).
  reflexivity.
Qed.

(** A record that fits into what is left of the buffer of 4096 bytes is
    accepted and counted without any file operation: the file is as it
    was, the text waits in the buffer.  It reaches the file with the next
    tick of the writer loop (or a later flush), so until then the file
    does not show a record that [write] has accepted. *)
Theorem short_record_stays_buffered (r : LogRecord) (w : FileLogWriter) (e : World)
    (p d b : string) :
  let text := record_text w r in
  session (w, e) p d b ->
  size_or_lines_due w = false -> daily w = false -> hour w = false ->
  (String.length b + String.length text <= MaxBufWriteSize)%nat ->
  exists w',
    write r (w, e)
      = Some (Written (Z.of_nat (String.length text)), (w', set_ticks (S (ticks e)) e)) /\
    session (w', set_ticks (S (ticks e)) e) p d (b +:+ text) /\
    maxlines_curlines w' = wrap_int (maxlines_curlines w + 1) /\
    (no_faults e -> (0 < String.length (b +:+ text))%nat ->
     exists w'' e'',
       writer_on_tick (w', set_ticks (S (ticks e)) e) = Some (Continue, (w'', e'')) /\
       session (w'', e'') p (d +:+ b +:+ text) EmptyString /\
       syslog e'' = syslog e ++ [SysWrite p (b +:+ text) true]).
Proof.
  intros text (Hf & Hb & Hd) Hdue Hdl Hhr Hfit. cbn [fst snd] in *.
  set (e0 := set_ticks (S (ticks e)) e).
  set (w' := set_counts (wrap_int (maxlines_curlines w + 1))
               (wrap_int (maxsize_cursize w + Z.of_nat (String.length text)))
               (set_bufW (Some (mkWriter (b +:+ text) None)) w)).
  exists w'.
  assert (Hs' : session (w', e0) p d (b +:+ text)) by (by split_and!).
  split_and!.
  - unfold write, rotation_checks. unfold bind at 1 2, get_w; cbn [fst snd].
    rewrite Hdue. unfold rotate_if at 1. unfold bind at 1, ret at 1.
    unfold bind at 1. rewrite time_Now_eq. unfold bind at 1 2, get_w; cbn [fst snd].
    unfold daily_due. rewrite Hdl. cbn [andb rotate_if].
    unfold ret at 1. unfold bind at 1; cbn [fst snd].
    unfold hour_due. rewrite Hhr. cbn [andb rotate_if]. unfold ret at 1.
    unfold perform_write. unfold bind at 1, get_w; cbn [fst snd]. fold text.
    unfold bind at 1. rewrite (bufW_WriteString_fits text w _ b Hb Hfit). cbn [fst snd].
    unfold bind, modify_w, ret; cbn [fst snd]. reflexivity.
  - exact Hs'.
  - reflexivity.
  - intros Hnf Hpos.
    assert (HW : exists e1,
              file_Write (b +:+ text) (w', e0) = Some (None, (w', e1)) /\
              fs e1 = <[p := d +:+ b +:+ text]> (fs e) /\
              syslog e1 = syslog e ++ [SysWrite p (b +:+ text) true]).
    { unfold file_Write, bind, get_w; cbn [fst snd file w' set_counts set_bufW].
      rewrite Hf. cbn [f_closed f_path].
      unfold next_fault, get_world, modify_world, log_syscall, ret, bind; cbn [fst snd].
      cbn [fault ops set_ticks e0]. rewrite Hnf. eexists. split; [reflexivity|].
      cbn [fst snd fs syslog set_fs set_syslog set_ops set_ticks]. unfold contents.
      change (fs e0) with (fs e). change (syslog e0) with (syslog e).
      rewrite Hd. by split. }
    destruct HW as (e1 & HW & Hfs & Hlog).
    assert (HF : bufW_Flush (w', e0)
                 = Some (None, (set_bufW (Some (mkWriter EmptyString None)) w', e1))).
    { unfold bufW_Flush. unfold bind at 1, get_w; cbn [fst snd bufW w' set_counts set_bufW].
      cbn [werr wbuf].
      replace (_ =? 0)%nat with false by (symmetry; apply Nat.eqb_neq; lia).
      unfold bind at 1. rewrite HW. reflexivity. }
    eexists _, e1. split.
    + unfold writer_on_tick. rewrite (bind_eq _ _ _ _ _ HF). reflexivity.
    + split; [|exact Hlog]. split_and!; cbn [fst snd]; [exact Hf|reflexivity|].
      by rewrite Hfs, lookup_insert_eq.
Qed.
(* ===================================================================== *)
(** ** After [Close] has returned *)
(* ===================================================================== *)

Lemma step_after_Close (ev : Event) (s s' : System) :
  closer s = CloseDone -> relay s = None -> writer_running s = false ->
  step ev s = Some s' ->
  closer s' = CloseDone /\ relay s' = None /\ writer_running s' = false /\
  handled s' = handled s /\ snd (heap s') = snd (heap s) /\
  exists r, ev = EvLogWrite r /\ sent s' = sent s ++ [r] /\
    inRec (fst (heap s')) = inRec (fst (heap s)) ++ [r] /\
    (length (inRec (fst (heap s'))) <= LogBufferLength)%nat.
Proof.
  destruct s as [[w e] rl wr pc snt hd]. cbn [closer relay writer_running heap fst snd].
  intros -> -> -> H.
  destruct ev; unfold step in H; cbn [heap fst snd relay writer_running closer sent handled] in H;
    try discriminate.
  destruct (length (inRec w) <? LogBufferLength)%nat eqn:Hroom; [|discriminate].
  injection H as <-. cbn [closer relay writer_running handled heap fst snd sent inRec set_inRec].
  split_and!; try reflexivity. exists r. split_and!; try reflexivity.
  apply Nat.ltb_lt in Hroom. rewrite length_app. cbn [length]. lia.
Qed.

(** Once [Close] has returned nothing is written any more: both
    goroutines are gone and nothing receives from [inRec].  A [LogWrite]
    still returns while the buffer of [inRec] has room, and the record
    stays there; no file operation happens, the clock is not read, and a
    record sent now never reaches [write]. *)
Theorem after_Close_nothing_is_written (w : FileLogWriter) (e : World)
    (before later : list Event) (s s' : System) :
  live w -> wg w = 2%nat -> inRec w = [] -> rec w = [] -> msgQ w = [] ->
  run before (spawned w e) = Some s -> closer s = CloseDone ->
  run later s = Some s' ->
  closer s' = CloseDone /\ handled s' = handled s /\ snd (heap s') = snd (heap s) /\
  exists new,
    later = map EvLogWrite new /\
    sent s' = sent s ++ new /\
    inRec (fst (heap s')) = inRec (fst (heap s)) ++ new /\
    (new <> [] -> (length (inRec (fst (heap s'))) <= LogBufferLength)%nat).
Proof.
  intros Hlive Hwg Hin Hrec Hq Hrun Hdone Hlater.
  pose proof (run_inv before _ _ (spawned_inv w e Hlive Hwg Hin Hrec Hq) Hrun)
    as [_ _ _ Hpast].
  rewrite Hdone in Hpast. specialize (Hpast eq_refl). unfold running in Hpast.
  assert (Hrl : relay s = None) by (destruct (relay s); [lia|done]).
  assert (Hwr : writer_running s = false).
  { destruct (writer_running s); [|done]. destruct (relay s); cbn in Hpast; lia. }
  clear Hpast Hrun. revert s Hdone Hrl Hwr Hlater.
  induction later as [|ev later IH]; intros s Hdone Hrl Hwr Hlater; cbn [run] in Hlater.
  - injection Hlater as <-. split_and!; auto. exists []. rewrite !app_nil_r. by split_and!.
  - destruct (step ev s) as [s1|] eqn:Hs; [|discriminate].
    destruct (step_after_Close ev s s1 Hdone Hrl Hwr Hs)
      as (Hd1 & Hrl1 & Hwr1 & Hh1 & He1 & r & -> & Hs1 & Hi1 & Hlen1).
    destruct (IH s1 Hd1 Hrl1 Hwr1 Hlater) as (Hd' & Hh' & He' & new & -> & Hs' & Hi' & Hlen').
    split_and!; [exact Hd'|congruence|congruence|].
    exists (r :: new). split_and!.
    + reflexivity.
    + by rewrite Hs', Hs1, <- app_assoc.
    + by rewrite Hi', Hi1, <- app_assoc.
    + intros _. destruct new as [|r' new'].
      * rewrite Hi', app_nil_r. exact Hlen1.
      * by apply Hlen'.
Qed.
(* ===================================================================== *)
(** ** What the daily check compares (lines 116-123) *)
(* ===================================================================== *)

(** The daily check compares the day of the month of the time of the
    write with the day of the month at which the file was opened, and
    nothing else: a record written on the same day of another month (or
    year) does not rotate the log and joins the file as it is; a record
    written on another day of the month makes [write] rotate in the mode
    [last], or fail. *)
Theorem daily_check_compares_day_of_month (r : LogRecord) (w w' : FileLogWriter)
    (e e' : World) (p x : string) (o : WriteExit) :
  stream (w, e) p x -> no_faults e ->
  size_or_lines_due w = false -> daily w = true -> hour w = false ->
  write r (w, e) = Some (o, (w', e')) ->
  let now := clock e (ticks e) in
  (Day now = daily_opendate w ->
   o = Written (Z.of_nat (String.length (record_text w r))) /\
   stream (w', e') p (x +:+ record_text w r) /\
   opens (syslog e') = opens (syslog e) /\
   renames (syslog e') = renames (syslog e) /\
   daily_opendate w' = daily_opendate w) /\
  (Day now <> daily_opendate w ->
   (exists m, o = RotateFailed m) \/
   exists lg, syslog e' = syslog e ++ lg /\ (1 <= opens lg)%nat).
Proof.
  intros Hs Hnf Hdue Hd Hh HW now. split.
  - intros Hday. destruct Hs as (d & b & Hs & Hx).
    set (e0 := set_ticks (S (ticks e)) e).
    assert (Hs0 : session (w, e0) p d b) by exact Hs.
    assert (Hnf0 : no_faults e0) by exact Hnf.
    destruct (perform_write_ok r w e0 p d b Hs0 Hnf0) as (d' & b' & e1 & HP & Hfs & Happ & Hst).
    assert (HW' : write r (w, e) = perform_write r (w, e0)).
    { unfold write, rotation_checks. unfold bind at 1 2, get_w; cbn [fst snd].
      rewrite Hdue. unfold rotate_if at 1. unfold bind at 1, ret at 1.
      unfold bind at 1. rewrite time_Now_eq. unfold bind at 1 2, get_w; cbn [fst snd].
      unfold daily_due. fold now. rewrite Hd, Hday, Z.eqb_refl. cbn [andb negb rotate_if].
      unfold ret at 1. unfold bind at 1; cbn [fst snd].
      unfold hour_due. rewrite Hh. cbn [andb rotate_if]. reflexivity. }
    rewrite HW', HP in HW. injection HW as <- <- <-.
    destruct Hs as (Hf & Hb & Hp). cbn [fst snd] in *.
    split_and!.
    + reflexivity.
    + exists d', b'. split; [|by rewrite Happ, <- Hx, str_app_assoc].
      split_and!; cbn [fst snd]; [exact Hf|reflexivity|by rewrite Hfs, lookup_insert_eq].
    + apply (bufio_step_opens _ _ Hst).
    + apply (bufio_step_renames _ _ Hst).
    + reflexivity.
  - intros Hday.
    assert (Hlive : live w).
    { destruct Hs as (d & b & Hs & _). apply (session_live _ _ _ _ Hs). }
    assert (Hany : size_or_lines_due w || daily_due w now || hour_due w now = true).
    { unfold daily_due. rewrite Hdue, Hd. cbn [orb andb].
      destruct (Z.eqb_spec (Day now) (daily_opendate w)); [done|reflexivity]. }
    destruct (write_first_rotation _ _ _ _ _ _ Hlive HW Hany) as (err & w1 & e1 & HR & Hcase).
    destruct err as [m|]; [left; eauto|right].
    destruct (Hlive) as [[f Hf] Hb].
    destruct (intRotate_effect _ _ _ _ _ _ _ Hf Hb HR)
      as (_ & _ & _ & _ & _ & _ & (l1 & Hl1 & Ho1 & _) & _).
    destruct (ms_syslog _ _ Hcase) as (l2 & Hl2). cbn [snd] in Hl2.
    rewrite Hdue in Hl1. cbn [syslog set_ticks] in Hl1.
    exists (l1 ++ l2). split; [by rewrite Hl2, Hl1, app_assoc|].
    rewrite opens_app, Ho1. lia.
Qed.

End MethodFacts.

(* ===================================================================== *)
(** ** The statements at concrete inputs *)
(* ===================================================================== *)

#[local] Existing Instance demo_pkg.

Lemma write_failure_not_counted_witness :
  live (fst full_disk_state) /\
  writer_on_rec (pkg := demo_pkg) long_record (fst full_disk_state, snd full_disk_state)
    = Some ((Continue, WriteFailed "no space left on device"),
            (fst full_disk_after, snd full_disk_after)) /\
  (Continue = Continue /\
   config (fst full_disk_after) = config (fst full_disk_state) /\
   (exists pre, stderr (snd full_disk_after)
                = stderr (snd full_disk_state) ++ pre
                  ++ [report_line (fst full_disk_state) "no space left on device"]) /\
   (exists lg, syslog (snd full_disk_after) = syslog (snd full_disk_state) ++ lg /\
      ((opens lg = 0%nat /\ counts (fst full_disk_after) = counts (fst full_disk_state)) \/
       ((1 <= opens lg)%nat /\ counts (fst full_disk_after) = (0, 0))))).
Proof.
  assert (H1 : live (fst full_disk_state)) by (split; vm_compute; eauto).
  assert (H2 : writer_on_rec (pkg := demo_pkg) long_record
                 (fst full_disk_state, snd full_disk_state)
               = Some ((Continue, WriteFailed "no space left on device"),
                       (fst full_disk_after, snd full_disk_after)))
    by (vm_compute; reflexivity).
  split; [exact H1|]. split; [exact H2|].
  exact (write_failure_not_counted (pkg := demo_pkg) long_record _ _ _ _ _ _ H1 H2).
Defined.

(** C4, the order at a concrete run: with [a] in the list and [b] waiting
    in the entry channel [inRec], [Close] writes [a] first, then [b], so the
    list is drained before the entry channel, not after it. *)
Lemma Close_walks_list_before_entry_channel :
  closer closing_system = CloseDrainRec /\
  rec (fst (heap closing_system)) = [] /\
  msgQ (fst (heap closing_system)) = [rec_a] /\
  inRec (fst (heap closing_system)) = [rec_b] /\
  run (pkg := demo_pkg) (repeat EvCloseStep 5) closing_system = Some closed_system /\
  closer closed_system = CloseDone /\
  map fst (handled closed_system) = [rec_a; rec_b] /\
  fs (snd (heap closed_system)) !! "app.log" = Some ("> a" +:+ nl +:+ "> b" +:+ nl).
Proof. split_and!; vm_compute; reflexivity. Qed.

Lemma Close_drain_order_witness :
  closer closing_system = CloseDrainRec /\
  live (fst (heap closing_system)) /\
  exists n s' h1,
    run (pkg := demo_pkg) (repeat EvCloseStep n) closing_system = Some s' /\
    closer s' = CloseDone /\
    (drain_rec ;; drain_msgQ ;; drain_inRec) (heap closing_system) = Some (tt, h1) /\
    closeFile h1 = Some (tt, heap s') /\
    Close_drain (heap closing_system) = Some (tt, heap s') /\
    map fst (handled s')
      = map fst (handled closing_system) ++ rec (fst (heap closing_system))
        ++ msgQ (fst (heap closing_system)) ++ inRec (fst (heap closing_system)) /\
    f_closed <$> file (fst (heap s')) = Some true.
Proof.
  assert (H1 : closer closing_system = CloseDrainRec) by reflexivity.
  assert (H2 : live (fst (heap closing_system))) by (split; vm_compute; eauto).
  split; [exact H1|]. split; [exact H2|].
  exact (Close_drain_order (pkg := demo_pkg) closing_system H1 H2).
Defined.

(** C3 at a concrete input: retention on, app.log and all of its 999
    archive names of the hour exist, and [Rotate()] is called. *)
Lemma rotate_signal_failure_ends_writer_loop_witness :
  writer_running full_system = true /\
  exists h',
    intRotate false (heap full_system)
      = Some (Some (no_free_number (filename (fst full_state))), h') /\
    ((exists s',
        step EvWriterRot full_system = Some s' /\
        writer_running s' = false /\
        stderr (snd (heap s'))
          = stderr (snd h')
            ++ [report_line (fst h') (no_free_number (filename (fst full_state)))] /\
        wg (fst (heap s')) = pred (wg (fst h')) /\
        step EvWriterRec s' = None /\ step EvWriterTick s' = None /\
        step EvWriterRot s' = None /\ step EvRelayToWriter s' = None) /\
     (forall s1, step EvWriterRec full_system = Some s1 -> writer_running s1 = true)).
Proof.
  assert (H1 : writer_running full_system = true) by reflexivity.
  destruct full_state_facts as (Hlive & Hrot & Hp & Hall & _).
  destruct (intRotate_exhausted false (fst full_state) (snd full_state) Hlive Hrot Hp Hall)
    as [h' H2].
  split; [exact H1|]. exists h'. split; [exact H2|].
  exact (rotate_signal_failure_ends_writer_loop full_system _ _ H1 H2).
Defined.



(** C2, a drain that rotates: the file holds one line, the limit is one
    line, and [Close] finds [a] in the list. *)
Lemma Close_drain_rotates :
  closer draining_system = CloseDrainQ [rec_a] /\
  step EvCloseStep draining_system = Some drained_system /\
  handled drained_system = [(rec_a, Written 4)] /\
  opens (added (heap draining_system) (heap drained_system)) = 1%nat /\
  renames (added (heap draining_system) (heap drained_system))
    = [("app.log", "app.log-2024-03-01-12+001")] /\
  fs (snd (heap drained_system)) !! "app.log-2024-03-01-12+001" = Some ("> first" +:+ nl).
Proof. split_and!; vm_compute; reflexivity. Qed.

Lemma Close_drain_applies_thresholds_witness :
  next_drained draining_system = Some (rec_a, heap draining_system, CloseDrainQ []) /\
  live (fst (heap draining_system)) /\
  exists s' x lg,
    step EvCloseStep draining_system = Some s' /\
    write rec_a (heap draining_system) = Some (x, heap s') /\
    handled s' = handled draining_system ++ [(rec_a, x)] /\
    closer s' = CloseDrainQ [] /\
    syslog (snd (heap s')) = syslog (snd (heap draining_system)) ++ lg /\
    (size_or_lines_due (fst (heap draining_system))
       || daily_due (fst (heap draining_system))
            (clock (snd (heap draining_system)) (ticks (snd (heap draining_system))))
       || hour_due (fst (heap draining_system))
            (clock (snd (heap draining_system)) (ticks (snd (heap draining_system)))) = true ->
     (exists m, x = RotateFailed m) \/ (1 <= opens lg)%nat).
Proof.
  assert (H1 : next_drained draining_system
               = Some (rec_a, heap draining_system, CloseDrainQ [])) by reflexivity.
  assert (H2 : live (fst (heap draining_system))) by (split; vm_compute; eauto).
  split; [exact H1|]. split; [exact H2|].
  exact (Close_drain_applies_thresholds draining_system _ _ _ H1 H2).
Defined.




(** C10 at a concrete input: a log writer just opened, then
    [SetHeadFoot]. *)
Lemma SetHeadFoot_writes_header_witness :
  no_faults (quiet_world ∅ (fun _ => noon)) /\
  NewFileLogWriter "app.log" false (quiet_world ∅ (fun _ => noon))
    = Some (Some (fst opened_state), snd opened_state) /\
  exists kept d b d' b' e',
    session (fst opened_state, snd opened_state) "app.log" d b /\
    d +:+ b = kept +:+ FormatLogRecord EmptyString (record_at noon) /\
    SetHeadFoot "== " "-- " (fst opened_state, snd opened_state)
      = Some (tt, (set_bufW (Some (mkWriter b' None))
                     (set_headfoot "== " "-- " (fst opened_state)), e')) /\
    fs e' = <["app.log" := d']> (fs (snd opened_state)) /\
    d' +:+ b' = kept +:+ FormatLogRecord EmptyString (record_at noon)
                +:+ FormatLogRecord "== " (record_at noon).
Proof.
  assert (H1 : no_faults (quiet_world ∅ (fun _ => noon))) by (intros k; reflexivity).
  assert (H2 : NewFileLogWriter "app.log" false (quiet_world ∅ (fun _ => noon))
               = Some (Some (fst opened_state), snd opened_state))
    by (vm_compute; reflexivity).
  split; [exact H1|]. split; [exact H2|].
  exact (proj2 (proj2 (SetHeadFoot_writes_header (pkg := demo_pkg) "== " "-- "))
           "app.log" false _ _ _ H1 H2).
Defined.

(** C8 at a concrete input: an empty directory at noon, the limit three,
    the records "1" to "7". *)
Lemma seven_records_limit_three_witness :
  stream (fst three_lines_state, snd three_lines_state) "app.log" EmptyString /\
  lines_only (fst three_lines_state) "app.log" 3 0 /\
  exists w' e' a1 a2,
    write_all [demo_record "1"; demo_record "2"; demo_record "3"; demo_record "4";
               demo_record "5"; demo_record "6"; demo_record "7"]
      (fst three_lines_state, snd three_lines_state)
      = Some (map (fun r => Written (Z.of_nat (String.length
                                       (record_text (fst three_lines_state) r))))
                [demo_record "1"; demo_record "2"; demo_record "3"; demo_record "4";
                 demo_record "5"; demo_record "6"; demo_record "7"], (w', e')) /\
    renames (syslog e') = renames (syslog (snd three_lines_state))
                          ++ [("app.log", a1); ("app.log", a2)] /\
    opens (syslog e') = S (S (opens (syslog (snd three_lines_state)))) /\
    a1 = archive_name "app.log"
           (clock (snd three_lines_state) (ticks (snd three_lines_state) + 4)%nat) 1 /\
    (exists k, 1 <= k <= 2 /\
       a2 = archive_name "app.log"
              (clock (snd three_lines_state) (ticks (snd three_lines_state) + 9)%nat) k) /\
    a1 <> a2 /\ a1 <> "app.log" /\ a2 <> "app.log" /\
    fs e' !! a1
      = Some (EmptyString
              +:+ record_text (fst three_lines_state) (demo_record "1")
              +:+ record_text (fst three_lines_state) (demo_record "2")
              +:+ record_text (fst three_lines_state) (demo_record "3")
              +:+ FormatLogRecord (trailer (fst three_lines_state))
                    (record_at (clock (snd three_lines_state)
                                  (ticks (snd three_lines_state) + 3)%nat))) /\
    fs e' !! a2
      = Some (FormatLogRecord (header (fst three_lines_state))
                (record_at (clock (snd three_lines_state)
                              (ticks (snd three_lines_state) + 4)%nat))
              +:+ record_text (fst three_lines_state) (demo_record "4")
              +:+ record_text (fst three_lines_state) (demo_record "5")
              +:+ record_text (fst three_lines_state) (demo_record "6")
              +:+ FormatLogRecord (trailer (fst three_lines_state))
                    (record_at (clock (snd three_lines_state)
                                  (ticks (snd three_lines_state) + 8)%nat))) /\
    stream (w', e') "app.log"
      (FormatLogRecord (header (fst three_lines_state))
         (record_at (clock (snd three_lines_state) (ticks (snd three_lines_state) + 9)%nat))
       +:+ record_text (fst three_lines_state) (demo_record "7")) /\
    maxlines_curlines w' = 1.
Proof.
  assert (H1 : stream (fst three_lines_state, snd three_lines_state) "app.log" EmptyString).
  { exists EmptyString, EmptyString. split; [|reflexivity]. split_and!; vm_compute; reflexivity. }
  assert (H2 : no_faults (snd three_lines_state)) by (intros k; vm_compute; reflexivity).
  assert (H3 : lines_only (fst three_lines_state) "app.log" 3 0)
    by (split_and!; vm_compute; reflexivity).
  assert (H4 : fs (snd three_lines_state)
                 !! archive_name "app.log"
                      (clock (snd three_lines_state) (ticks (snd three_lines_state) + 4)%nat) 1
               = None) by (vm_compute; reflexivity).
  assert (H5 : forall k, 1 <= k <= 2 ->
                 fs (snd three_lines_state)
                   !! archive_name "app.log"
                        (clock (snd three_lines_state) (ticks (snd three_lines_state) + 9)%nat) k
                 = None).
  { intros k Hk. assert (k = 1 \/ k = 2) as [-> | ->] by lia; vm_compute; reflexivity. }
  split; [exact H1|]. split; [exact H3|].
  exact (seven_records_limit_three _ _ _ _ _ _ _ _ _ _ _ H1 H2 H3 H4 H5).
Defined.

(** The same run, evaluated: the two archives with three lines each and
    the log with the seventh. *)
Example seven_records_files :
  let s := after (write_all (map demo_record ["1"; "2"; "3"; "4"; "5"; "6"; "7"]))
                 three_lines_state in
  fs (snd s) !! "app.log-2024-03-01-12+001"
    = Some ("> 1" +:+ nl +:+ "> 2" +:+ nl +:+ "> 3" +:+ nl) /\
  fs (snd s) !! "app.log-2024-03-01-12+002"
    = Some ("> 4" +:+ nl +:+ "> 5" +:+ nl +:+ "> 6" +:+ nl) /\
  stream s "app.log" ("> 7" +:+ nl) /\
  size (fs (snd s)) = 3%nat.
Proof.
  split_and!; try (vm_compute; reflexivity).
  exists EmptyString, ("> 7" +:+ nl). split; [|reflexivity]. split_and!; vm_compute; reflexivity.
Qed.



(** The same run over an empty directory, evaluated: both records are in
    the file, in the order in which they were sent. *)
Example two_records_written :
  sent written_system = [rec_a; rec_b] /\
  handled written_system = [(rec_a, Written 4); (rec_b, Written 4)] /\
  fs (snd (heap written_system)) !! "app.log" = Some ("> a" +:+ nl +:+ "> b" +:+ nl).
Proof. split_and!; vm_compute; reflexivity. Qed.

(** The run of two records over an empty directory, as an instance of
    the statement about quiet logs. *)
Lemma quiet_log_holds_the_records_witness :
  stream (fst plain_state, snd plain_state) "app.log" EmptyString /\
  quiet (fst plain_state) /\
  Forall (fun ev => ev <> EvWriterRot) two_records_run /\
  run two_records_run (spawned (fst plain_state) (snd plain_state)) = Some written_system /\
  closer written_system = CloseDone /\
  (map fst (handled written_system) ++ in_flight written_system = sent written_system /\
   accepted (handled written_system) = map fst (handled written_system) /\
   (closer written_system <> CloseDone ->
    stream (heap written_system) "app.log"
      (EmptyString +:+ texts (fst plain_state) (map fst (handled written_system)))) /\
   (closer written_system = CloseDone ->
    map fst (handled written_system) ++ inRec (fst (heap written_system))
    = sent written_system /\
    exists t, fs (snd (heap written_system)) !! "app.log"
              = Some (EmptyString +:+ texts (fst plain_state) (map fst (handled written_system))
                      +:+ FormatLogRecord (trailer (fst plain_state)) (record_at t)))).
Proof.
  assert (H1 : stream (fst plain_state, snd plain_state) "app.log" EmptyString).
  { exists EmptyString, EmptyString. split; [|reflexivity]. split_and!; vm_compute; reflexivity. }
  assert (H2 : no_faults (snd plain_state)) by (intros k; vm_compute; reflexivity).
  assert (H3 : quiet (fst plain_state)).
  { split_and!; vm_compute; first [reflexivity | discriminate]. }
  assert (H4 : Forall (fun ev => ev <> EvWriterRot) two_records_run).
  { repeat constructor; discriminate. }
  assert (H5 : run two_records_run (spawned (fst plain_state) (snd plain_state))
               = Some written_system) by (vm_compute; reflexivity).
  split; [exact H1|]. split; [exact H3|]. split; [exact H4|]. split; [exact H5|].
  split; [vm_compute; reflexivity|].
  refine (quiet_log_holds_the_records (fst plain_state) (snd plain_state) "app.log" EmptyString
            two_records_run written_system H1 H2 H3 _ _ _ _ H4 H5); vm_compute; reflexivity.
Defined.

Lemma Close_waits_for_goroutines_witness :
  live (fst plain_state) /\
  wg (fst plain_state) = 2%nat /\
  run two_records_run (spawned (fst plain_state) (snd plain_state)) = Some written_system /\
  past_wait (closer written_system) = true /\
  (wg (fst (heap written_system)) = running written_system /\
   (past_wait (closer written_system) = true ->
    relay written_system = None /\ writer_running written_system = false)).
Proof.
  assert (H1 : live (fst plain_state)) by (split; vm_compute; eauto).
  assert (H2 : wg (fst plain_state) = 2%nat) by (vm_compute; reflexivity).
  assert (H3 : run two_records_run (spawned (fst plain_state) (snd plain_state))
               = Some written_system) by (vm_compute; reflexivity).
  split; [exact H1|]. split; [exact H2|]. split; [exact H3|].
  split; [vm_compute; reflexivity|].
  refine (Close_waits_for_goroutines (fst plain_state) (snd plain_state) two_records_run
            written_system H1 H2 _ _ _ H3); vm_compute; reflexivity.
Defined.

(** The writer loop is gone, [Close] waits for the relay: a record that
    is sent gets as far as [rec] and is not written. *)
Lemma writer_gone_writes_nothing_witness :
  run [EvLogWrite rec_a; EvRelayRecv; EvRelaySend] writer_gone_system = Some writer_gone_later /\
  writer_running writer_gone_system = false /\
  rec (fst (heap writer_gone_later)) = [rec_a] /\
  (writer_running writer_gone_later = false /\
   (past_wait (closer writer_gone_system) = true ->
    past_wait (closer writer_gone_later) = true) /\
   (past_wait (closer writer_gone_later) = false ->
    handled writer_gone_later = handled writer_gone_system)).
Proof.
  assert (H1 : run [EvLogWrite rec_a; EvRelayRecv; EvRelaySend] writer_gone_system
               = Some writer_gone_later) by (vm_compute; reflexivity).
  assert (H2 : writer_running writer_gone_system = false) by (vm_compute; reflexivity).
  split; [exact H1|]. split; [exact H2|]. split; [vm_compute; reflexivity|].
  exact (writer_gone_writes_nothing _ _ _ H1 H2).
Defined.

(** A rotation of the log with header and trailer, without retention. *)
Lemma rotation_without_retention_witness :
  session (fst framed_state, snd framed_state) "app.log" EmptyString ("== " +:+ nl) /\
  rotate (fst framed_state) = false /\
  exists w' e' d' b',
    intRotate false (fst framed_state, snd framed_state) = Some (None, (w', e')) /\
    session (w', e') "app.log" d' b' /\
    d' +:+ b' = EmptyString +:+ ("== " +:+ nl)
                +:+ FormatLogRecord (trailer (fst framed_state))
                      (record_at (clock (snd framed_state) (ticks (snd framed_state))))
                +:+ FormatLogRecord (header (fst framed_state))
                      (record_at (clock (snd framed_state) (S (ticks (snd framed_state))))) /\
    renames (syslog e') = renames (syslog (snd framed_state)) /\
    opens (syslog e') = S (opens (syslog (snd framed_state))) /\
    (forall q, q <> "app.log" -> fs e' !! q = fs (snd framed_state) !! q) /\
    config w' = config (fst framed_state) /\ counts w' = (0, 0) /\
    opendate w' = (Day (clock (snd framed_state) (S (ticks (snd framed_state)))),
                   Hour (clock (snd framed_state) (S (ticks (snd framed_state))))).
Proof.
  assert (H1 : session (fst framed_state, snd framed_state) "app.log" EmptyString
                 ("== " +:+ nl)) by (split_and!; vm_compute; reflexivity).
  assert (H2 : rotate (fst framed_state) = false) by (vm_compute; reflexivity).
  split; [exact H1|]. split; [exact H2|].
  refine (rotation_without_retention false _ _ _ _ _ H1 _ H2 _).
  - vm_compute; reflexivity.
  - intros k. vm_compute; reflexivity.
Defined.


(** [NewXMLLogWriter] on an empty directory. *)
Lemma NewXMLLogWriter_header_witness :
  no_faults (quiet_world ∅ (fun _ => noon)) /\
  NewFileLogWriter "app.log" false (quiet_world ∅ (fun _ => noon))
    = Some (Some (fst opened_state), snd opened_state) /\
  exists w' e' kept d b,
    NewXMLLogWriter "app.log" false (quiet_world ∅ (fun _ => noon)) = Some (w', e') /\
    format w' = xml_format /\ header w' = xml_head /\ trailer w' = xml_foot /\
    maxlines_curlines w' = 0 /\
    session (w', e') "app.log" d b /\
    d +:+ b = kept +:+ FormatLogRecord EmptyString (record_at noon)
              +:+ FormatLogRecord xml_head (record_at noon).
Proof.
  assert (H1 : no_faults (quiet_world ∅ (fun _ => noon))) by (intros k; reflexivity).
  assert (H2 : NewFileLogWriter "app.log" false (quiet_world ∅ (fun _ => noon))
               = Some (Some (fst opened_state), snd opened_state))
    by (vm_compute; reflexivity).
  split; [exact H1|]. split; [exact H2|].
  exact (proj1 (NewXMLLogWriter_header (pkg := demo_pkg) "app.log" false _) _ _ H1 H2).
Defined.

(** A limit of five bytes and two records of eight and nine. *)
Lemma size_limit_checked_before_write_witness :
  stream (fst five_bytes_state, snd five_bytes_state) "app.log" EmptyString /\
  0 <= maxsize_cursize (fst five_bytes_state) < maxsize (fst five_bytes_state) /\
  maxsize (fst five_bytes_state)
  <= maxsize_cursize (fst five_bytes_state)
     + Z.of_nat (String.length (record_text (fst five_bytes_state) (demo_record "first"))) /\
  exists w1 e1 w2 e2,
    write (demo_record "first") (fst five_bytes_state, snd five_bytes_state)
      = Some (Written (Z.of_nat (String.length
                         (record_text (fst five_bytes_state) (demo_record "first")))),
              (w1, e1)) /\
    stream (w1, e1) "app.log"
      (EmptyString +:+ record_text (fst five_bytes_state) (demo_record "first")) /\
    renames (syslog e1) = renames (syslog (snd five_bytes_state)) /\
    opens (syslog e1) = opens (syslog (snd five_bytes_state)) /\
    maxsize_cursize w1
    = maxsize_cursize (fst five_bytes_state)
      + Z.of_nat (String.length (record_text (fst five_bytes_state) (demo_record "first"))) /\
    write (demo_record "second") (w1, e1)
      = Some (Written (Z.of_nat (String.length
                         (record_text (fst five_bytes_state) (demo_record "second")))),
              (w2, e2)) /\
    renames (syslog e2)
      = renames (syslog (snd five_bytes_state))
        ++ [("app.log",
             archive_name "app.log"
               (clock (snd five_bytes_state) (S (S (ticks (snd five_bytes_state))))) 1)] /\
    fs e2 !! archive_name "app.log"
               (clock (snd five_bytes_state) (S (S (ticks (snd five_bytes_state))))) 1
      = Some (EmptyString +:+ record_text (fst five_bytes_state) (demo_record "first")
              +:+ FormatLogRecord (trailer (fst five_bytes_state))
                    (record_at (clock (snd five_bytes_state)
                                  (S (ticks (snd five_bytes_state)))))) /\
    stream (w2, e2) "app.log"
      (FormatLogRecord (header (fst five_bytes_state))
         (record_at (clock (snd five_bytes_state) (S (S (ticks (snd five_bytes_state))))))
       +:+ record_text (fst five_bytes_state) (demo_record "second")).
Proof.
  assert (H1 : stream (fst five_bytes_state, snd five_bytes_state) "app.log" EmptyString).
  { exists EmptyString, EmptyString. split; [|reflexivity]. split_and!; vm_compute; reflexivity. }
  assert (H2 : 0 <= maxsize_cursize (fst five_bytes_state) < maxsize (fst five_bytes_state))
    by (vm_compute; split; [discriminate|reflexivity]).
  assert (H3 : maxsize (fst five_bytes_state)
               <= maxsize_cursize (fst five_bytes_state)
                  + Z.of_nat (String.length
                                (record_text (fst five_bytes_state) (demo_record "first"))))
    by (vm_compute; discriminate).
  split; [exact H1|]. split; [exact H2|]. split; [exact H3|].
  refine (size_limit_checked_before_write (demo_record "first") (demo_record "second")
            _ _ _ _ H1 _ _ _ _ _ _ H2 H3 _ _).
  - intros k. vm_compute; reflexivity.
  - vm_compute; reflexivity.
  - vm_compute; reflexivity.
  - vm_compute; discriminate.
  - vm_compute; reflexivity.
  - vm_compute; reflexivity.
  - vm_compute; reflexivity.
  - vm_compute; reflexivity.
Defined.

(** A record of four bytes on an empty buffer. *)
Lemma short_record_stays_buffered_witness :
  session (fst plain_state, snd plain_state) "app.log" EmptyString EmptyString /\
  (String.length EmptyString + String.length (record_text (fst plain_state) rec_a)
   <= MaxBufWriteSize)%nat /\
  exists w',
    write rec_a (fst plain_state, snd plain_state)
      = Some (Written (Z.of_nat (String.length (record_text (fst plain_state) rec_a))),
              (w', set_ticks (S (ticks (snd plain_state))) (snd plain_state))) /\
    session (w', set_ticks (S (ticks (snd plain_state))) (snd plain_state)) "app.log"
      EmptyString (EmptyString +:+ record_text (fst plain_state) rec_a) /\
    maxlines_curlines w' = wrap_int (maxlines_curlines (fst plain_state) + 1) /\
    (no_faults (snd plain_state) ->
     (0 < String.length (EmptyString +:+ record_text (fst plain_state) rec_a))%nat ->
     exists w'' e'',
       writer_on_tick (w', set_ticks (S (ticks (snd plain_state))) (snd plain_state))
         = Some (Continue, (w'', e'')) /\
       session (w'', e'') "app.log"
         (EmptyString +:+ EmptyString +:+ record_text (fst plain_state) rec_a) EmptyString /\
       syslog e''
       = syslog (snd plain_state)
         ++ [SysWrite "app.log" (EmptyString +:+ record_text (fst plain_state) rec_a) true]).
Proof.
  assert (H1 : session (fst plain_state, snd plain_state) "app.log" EmptyString EmptyString)
    by (split_and!; vm_compute; reflexivity).
  assert (H2 : (String.length EmptyString + String.length (record_text (fst plain_state) rec_a)
                <= MaxBufWriteSize)%nat) by (vm_compute; lia).
  split; [exact H1|]. split; [exact H2|].
  refine (short_record_stays_buffered rec_a _ _ _ _ _ H1 _ _ _ H2); vm_compute; reflexivity.
Defined.

(** A record sent after [Close] has returned stays in [inRec]. *)
Lemma after_Close_nothing_is_written_witness :
  run two_records_run (spawned (fst plain_state) (snd plain_state)) = Some written_system /\
  closer written_system = CloseDone /\
  run [EvLogWrite rec_a] written_system = Some late_system /\
  (closer late_system = CloseDone /\ handled late_system = handled written_system /\
   snd (heap late_system) = snd (heap written_system) /\
   exists new,
     [EvLogWrite rec_a] = map EvLogWrite new /\
     sent late_system = sent written_system ++ new /\
     inRec (fst (heap late_system)) = inRec (fst (heap written_system)) ++ new /\
     (new <> [] -> (length (inRec (fst (heap late_system))) <= LogBufferLength)%nat)).
Proof.
  assert (H1 : live (fst plain_state)) by (split; vm_compute; eauto).
  assert (H2 : wg (fst plain_state) = 2%nat) by (vm_compute; reflexivity).
  assert (H3 : run two_records_run (spawned (fst plain_state) (snd plain_state))
               = Some written_system) by (vm_compute; reflexivity).
  assert (H4 : closer written_system = CloseDone) by (vm_compute; reflexivity).
  assert (H5 : run [EvLogWrite rec_a] written_system = Some late_system)
    by (vm_compute; reflexivity).
  split; [exact H3|]. split; [exact H4|]. split; [exact H5|].
  refine (after_Close_nothing_is_written (fst plain_state) (snd plain_state) two_records_run
            [EvLogWrite rec_a] written_system late_system H1 H2 _ _ _ H3 H4 H5);
    vm_compute; reflexivity.
Defined.

(** Daily rotation, the file opened on 15 January, the first record
    written on 15 February: no rotation. *)
Lemma daily_check_compares_day_of_month_witness :
  stream (fst monthly_state, snd monthly_state) "app.log" EmptyString /\
  daily (fst monthly_state) = true /\
  write (demo_record "first") (fst monthly_state, snd monthly_state)
    = Some (Written 8, (fst monthly_after, snd monthly_after)) /\
  Month (clock (snd monthly_state) (ticks (snd monthly_state))) = 2 /\
  Day (clock (snd monthly_state) (ticks (snd monthly_state)))
  = daily_opendate (fst monthly_state) /\
  ((Day (clock (snd monthly_state) (ticks (snd monthly_state)))
    = daily_opendate (fst monthly_state) ->
    Written 8
    = Written (Z.of_nat (String.length (record_text (fst monthly_state) (demo_record "first")))) /\
    stream (fst monthly_after, snd monthly_after) "app.log"
      (EmptyString +:+ record_text (fst monthly_state) (demo_record "first")) /\
    opens (syslog (snd monthly_after)) = opens (syslog (snd monthly_state)) /\
    renames (syslog (snd monthly_after)) = renames (syslog (snd monthly_state)) /\
    daily_opendate (fst monthly_after) = daily_opendate (fst monthly_state)) /\
   (Day (clock (snd monthly_state) (ticks (snd monthly_state)))
    <> daily_opendate (fst monthly_state) ->
    (exists m, Written 8 = RotateFailed m) \/
    exists lg, syslog (snd monthly_after) = syslog (snd monthly_state) ++ lg /\
               (1 <= opens lg)%nat)).
Proof.
  assert (H1 : stream (fst monthly_state, snd monthly_state) "app.log" EmptyString).
  { exists EmptyString, EmptyString. split; [|reflexivity]. split_and!; vm_compute; reflexivity. }
  assert (H2 : daily (fst monthly_state) = true) by (vm_compute; reflexivity).
  assert (H3 : write (demo_record "first") (fst monthly_state, snd monthly_state)
               = Some (Written 8, (fst monthly_after, snd monthly_after)))
    by (vm_compute; reflexivity).
  split; [exact H1|]. split; [exact H2|]. split; [exact H3|].
  split; [vm_compute; reflexivity|]. split; [vm_compute; reflexivity|].
  refine (daily_check_compares_day_of_month _ _ _ _ _ _ _ _ H1 _ _ H2 _ H3).
  - intros k. vm_compute; reflexivity.
  - vm_compute; reflexivity.
  - vm_compute; reflexivity.
Defined.
